(** * MTDevKit: the Flutter provisioning pipeline of [src/index.ts]

    A shallow embedding of the MCP tool [create_flutter_project] and of the
    helpers it is built from, together with the properties the specification
    states about them.

    - JavaScript strings are sequences of UTF-16 code units: [list N].
    - The handler is a computation in a state-and-exception monad whose state
      holds the operating system ([World]), the module variable [useFvm], the
      handler's [log] array and the trace of the system calls performed.
    - The operating system (child processes and the file system) is a
      parameter: every theorem about the pipeline holds for every [OS]. *)

From Stdlib Require Import NArith String Ascii Lia Bool.
From stdpp Require Import base list gmap.

#[local] Open Scope N_scope.

(** ** JavaScript strings *)

Module Js.

(** A string is the list of its UTF-16 code units. *)
Abbreviation jsstring := (list N).

(** Source literals are written as Rocq strings (UTF-8 bytes) and decoded to
    UTF-16 code units, as the TypeScript compiler does with the source file. *)
Fixpoint utf16_of_utf8 (bs : list N) : jsstring :=
  match bs with
  | [] => []
  | b0 :: r0 =>
    if b0 <? 128 then b0 :: utf16_of_utf8 r0
    else if b0 <? 224 then
      match r0 with
      | b1 :: r1 =>
        N.lor (N.shiftl (N.land b0 31) 6) (N.land b1 63) :: utf16_of_utf8 r1
      | [] => [65533]
      end
    else if b0 <? 240 then
      match r0 with
      | b1 :: b2 :: r2 =>
        N.lor (N.shiftl (N.land b0 15) 12)
              (N.lor (N.shiftl (N.land b1 63) 6) (N.land b2 63))
          :: utf16_of_utf8 r2
      | _ => [65533]
      end
    else
      match r0 with
      | b1 :: b2 :: b3 :: r3 =>
        let cp := N.lor (N.shiftl (N.land b0 7) 18)
                    (N.lor (N.shiftl (N.land b1 63) 12)
                       (N.lor (N.shiftl (N.land b2 63) 6) (N.land b3 63))) in
        let v := cp - 65536 in
        (55296 + N.shiftr v 10) :: (56320 + N.land v 1023) :: utf16_of_utf8 r3
      | _ => [65533]
      end
  end.

Definition js (s : string) : jsstring :=
  utf16_of_utf8 (List.map N_of_ascii (list_ascii_of_string s)).

(** The two characters a Rocq literal cannot hold conveniently. *)
Definition nl : jsstring := [10].
Definition dq : jsstring := [34].

(** ECMAScript WhiteSpace and LineTerminator code units: the class [\s] of
    regular expressions and the characters removed by [trim]/[trimEnd]. *)
Definition isWhiteSpace (c : N) : bool :=
  (c =? 9) || (c =? 10) || (c =? 11) || (c =? 12) || (c =? 13) || (c =? 32)
  || (c =? 160) || (c =? 5760) || ((8192 <=? c) && (c <=? 8202))
  || (c =? 8232) || (c =? 8233) || (c =? 8239) || (c =? 8287)
  || (c =? 12288) || (c =? 65279).

Fixpoint dropWhile {A} (p : A -> bool) (l : list A) : list A :=
  match l with
  | [] => []
  | x :: r => if p x then dropWhile p r else l
  end.

(** [String.prototype.trimStart], [trimEnd] and [trim]. *)
Definition trimStart (s : jsstring) : jsstring := dropWhile isWhiteSpace s.
Definition trimEnd (s : jsstring) : jsstring :=
  rev (dropWhile isWhiteSpace (rev s)).
Definition trim (s : jsstring) : jsstring := trimEnd (trimStart s).

(** [Array.prototype.join]. *)
Fixpoint join (sep : jsstring) (l : list jsstring) : jsstring :=
  match l with
  | [] => []
  | [x] => x
  | x :: r => x ++ sep ++ join sep r
  end.

(** [String.prototype.split] with a separator of one code unit. *)
Fixpoint split (sep : N) (s : jsstring) : list jsstring :=
  match s with
  | [] => [[]]
  | c :: r =>
    if c =? sep then [] :: split sep r
    else match split sep r with
         | w :: ws => (c :: w) :: ws
         | [] => [[c]]
         end
  end.

(** [s.replace(/c/g, by)] for a pattern of one literal code unit. *)
Definition replaceAllUnit (c : N) (by_ : jsstring) (s : jsstring) : jsstring :=
  flat_map (fun x => if x =? c then by_ else [x]) s.

(** [String.prototype.toUpperCase] on ASCII text, the only text the handler
    gives it: project names accepted by [DART_PACKAGE_NAME_RE] and the
    environment names dev, prod and uat. *)
Definition upperUnit (c : N) : N :=
  if (97 <=? c) && (c <=? 122) then c - 32 else c.
Definition toUpperCase (s : jsstring) : jsstring := List.map upperUnit s.

(** [s.charAt(0)] and [s.slice(1)]. *)
Definition charAt0 (s : jsstring) : jsstring := take 1 s.
Definition slice1 (s : jsstring) : jsstring := drop 1 s.

(** [s.includes(t)] for a one-unit [t]. *)
Definition includesUnit (c : N) (s : jsstring) : bool :=
  existsb (N.eqb c) s.

(** Truthiness of a string: the empty string is falsy. *)
Definition truthy (s : jsstring) : bool :=
  match s with [] => false | _ => true end.

(** Decimal rendering of a non-negative integer in a template literal. *)
Fixpoint digits (d : Decimal.uint) : jsstring :=
  match d with
  | Decimal.Nil => []
  | Decimal.D0 r => 48 :: digits r
  | Decimal.D1 r => 49 :: digits r
  | Decimal.D2 r => 50 :: digits r
  | Decimal.D3 r => 51 :: digits r
  | Decimal.D4 r => 52 :: digits r
  | Decimal.D5 r => 53 :: digits r
  | Decimal.D6 r => 54 :: digits r
  | Decimal.D7 r => 55 :: digits r
  | Decimal.D8 r => 56 :: digits r
  | Decimal.D9 r => 57 :: digits r
  end.
Definition numToString (n : N) : jsstring := digits (N.to_uint n).

(** If [p] is a prefix of [s], what follows it. *)
Fixpoint stripPrefix (p s : jsstring) : option jsstring :=
  match p with
  | [] => Some s
  | a :: p' =>
    match s with
    | b :: s' => if a =? b then stripPrefix p' s' else None
    | [] => None
    end
  end.

(** First occurrence of [p] in [s]: the text before it and the text after. *)
Fixpoint findSub (p s : jsstring) : option (jsstring * jsstring) :=
  match stripPrefix p s with
  | Some rest => Some ([], rest)
  | None =>
    match s with
    | [] => None
    | c :: s' =>
      match findSub p s' with
      | Some (before, rest) => Some (c :: before, rest)
      | None => None
      end
    end
  end.

Definition includes (p s : jsstring) : bool :=
  match findSub p s with Some _ => true | None => false end.

End Js.
Import Js.

(** ** Constants and pure helpers of [src/index.ts] *)

Definition DEFAULT_TEMPLATE : jsstring :=
  js "https://bitbucket.org/mtinnovation/flutter_clean_template_2025".
Definition TOTAL_STEPS : N := 11.

(** [DART_PACKAGE_NAME_RE = /^[a-z][a-z0-9_]*$/], as [RegExp.prototype.test]. *)
Definition isLower (c : N) : bool := (97 <=? c) && (c <=? 122).
Definition isDigit (c : N) : bool := (48 <=? c) && (c <=? 57).
Definition isNameUnit (c : N) : bool := isLower c || isDigit c || (c =? 95).
Definition DART_PACKAGE_NAME_RE (s : jsstring) : bool :=
  match s with
  | [] => false
  | c :: r => isLower c && forallb isNameUnit r
  end.

(** The runner abstraction: [useFvm] is a module variable in the source and an
    explicit argument here. *)
Definition fvmCmd (useFvm : bool) (cmd : jsstring) : jsstring :=
  if useFvm then js "fvm" else cmd.

Definition fvmArgs (useFvm : bool) (cmd : jsstring) (args : list jsstring)
  : list jsstring :=
  if useFvm then cmd :: args else args.

(** Format a step progress line. *)
Definition stepMsg (n : N) (msg : jsstring) : jsstring :=
  js "[" ++ numToString n ++ js "/" ++ numToString TOTAL_STEPS ++ js "] " ++ msg.

(** my_super_app becomes My Super App. *)
Definition toDisplayName (pkg : jsstring) : jsstring :=
  join (js " ")
    (List.map (fun w => toUpperCase (charAt0 w) ++ slice1 w) (split 95 pkg)).

(** Strip underscores, for applicationId and bundleId. *)
Definition toAppId (pkg : jsstring) : jsstring :=
  replaceAllUnit 95 [] pkg.

(** ** JSON *)

Module Json.

Definition hexDigit (d : N) : N := if d <? 10 then 48 + d else 87 + d.
Definition hex4 (c : N) : jsstring :=
  [hexDigit (N.land (N.shiftr c 12) 15); hexDigit (N.land (N.shiftr c 8) 15);
   hexDigit (N.land (N.shiftr c 4) 15); hexDigit (N.land c 15)].

Definition isLead (c : N) : bool := (55296 <=? c) && (c <=? 56319).
Definition isTrail (c : N) : bool := (56320 <=? c) && (c <=? 57343).

(** QuoteJSONString, without the enclosing quotes. *)
Fixpoint quoteUnits (s : jsstring) : jsstring :=
  match s with
  | [] => []
  | c :: r =>
    if c =? 34 then js "\" ++ dq ++ quoteUnits r
    else if c =? 92 then js "\\" ++ quoteUnits r
    else if c =? 8 then js "\b" ++ quoteUnits r
    else if c =? 12 then js "\f" ++ quoteUnits r
    else if c =? 10 then js "\n" ++ quoteUnits r
    else if c =? 13 then js "\r" ++ quoteUnits r
    else if c =? 9 then js "\t" ++ quoteUnits r
    else if c <? 32 then js "\u" ++ hex4 c ++ quoteUnits r
    else if isLead c then
      match r with
      | d :: r' =>
        if isTrail d then c :: d :: quoteUnits r'
        else js "\u" ++ hex4 c ++ quoteUnits r
      | [] => js "\u" ++ hex4 c
      end
    else if isTrail c then js "\u" ++ hex4 c ++ quoteUnits r
    else c :: quoteUnits r
  end.

Definition quote (s : jsstring) : jsstring := dq ++ quoteUnits s ++ dq.

(** [JSON.stringify(o, null, 2)] for an object [o] whose own properties, in
    insertion order, are [fields], all with string values. *)
Definition stringify2 (fields : list (jsstring * jsstring)) : jsstring :=
  match fields with
  | [] => js "{}"
  | _ =>
    js "{" ++ nl ++ js "  "
      ++ join (js "," ++ nl ++ js "  ")
           (List.map (fun kv => quote (fst kv) ++ js ": " ++ quote (snd kv)) fields)
      ++ nl ++ js "}"
  end.

(** A reader for JSON texts that are one object with string values (RFC 8259
    restricted to that shape); it is used to say what a text denotes. *)
Definition isJsonWs (c : N) : bool :=
  (c =? 32) || (c =? 9) || (c =? 10) || (c =? 13).

Definition hexVal (c : N) : option N :=
  if isDigit c then Some (c - 48)
  else if (97 <=? c) && (c <=? 102) then Some (c - 87)
  else if (65 <=? c) && (c <=? 70) then Some (c - 55)
  else None.

(** The units of a string literal after its opening quote, and what follows
    the closing quote. *)
Fixpoint readUnits (s : jsstring) : option (jsstring * jsstring) :=
  match s with
  | [] => None
  | c :: r =>
    if c =? 34 then Some ([], r)
    else if c <? 32 then None
    else if c =? 92 then
      match r with
      | e :: r' =>
        let simple (u : N) :=
          match readUnits r' with
          | Some (t, rest) => Some (u :: t, rest)
          | None => None
          end in
        if e =? 34 then simple 34
        else if e =? 92 then simple 92
        else if e =? 47 then simple 47
        else if e =? 98 then simple 8
        else if e =? 102 then simple 12
        else if e =? 110 then simple 10
        else if e =? 114 then simple 13
        else if e =? 116 then simple 9
        else if e =? 117 then
          match r' with
          | h3 :: h2 :: h1 :: h0 :: r'' =>
            match hexVal h3, hexVal h2, hexVal h1, hexVal h0, readUnits r'' with
            | Some a, Some b, Some c', Some d, Some (t, rest) =>
              Some (4096 * a + 256 * b + 16 * c' + d :: t, rest)
            | _, _, _, _, _ => None
            end
          | _ => None
          end
        else None
      | [] => None
      end
    else
      match readUnits r with
      | Some (t, rest) => Some (c :: t, rest)
      | None => None
      end
  end.

Definition readString (s : jsstring) : option (jsstring * jsstring) :=
  match s with
  | c :: r => if c =? 34 then readUnits r else None
  | [] => None
  end.

Definition skipWs (s : jsstring) : jsstring := dropWhile isJsonWs s.

(** Members after the first one: [, "k": "v"]* [}] *)
Fixpoint readMembers (fuel : nat) (s : jsstring)
  : option (list (jsstring * jsstring) * jsstring) :=
  match fuel with
  | O => None
  | S fuel' =>
    match readString s with
    | Some (k, s1) =>
      match skipWs s1 with
      | c :: s2 =>
        if c =? 58 then
          match readString (skipWs s2) with
          | Some (v, s3) =>
            match skipWs s3 with
            | d :: s4 =>
              if d =? 125 then Some ([(k, v)], s4)
              else if d =? 44 then
                match readMembers fuel' (skipWs s4) with
                | Some (kvs, rest) => Some ((k, v) :: kvs, rest)
                | None => None
                end
              else None
            | [] => None
            end
          | None => None
          end
        else None
      | [] => None
      end
    | None => None
    end
  end.

Definition parseObject (s : jsstring) : option (list (jsstring * jsstring)) :=
  match skipWs s with
  | c :: s1 =>
    if c =? 123 then
      match skipWs s1 with
      | d :: s2 =>
        if d =? 125 then
          match skipWs s2 with [] => Some [] | _ => None end
        else
          match readMembers (length s) (d :: s2) with
          | Some (kvs, rest) =>
            match skipWs rest with [] => Some kvs | _ => None end
          | None => None
          end
      | [] => None
      end
    else None
  | [] => None
  end.

End Json.

(** Config file contents. *)
Definition configJson (env : jsstring) : jsstring :=
  Json.stringify2
    [ (js "secretKey", toUpperCase env);
      (js "baseUrl", []);
      (js "xAPIKey", []);
      (js "oneSignalKey", []) ].

(** ** Text patchers of step 11 *)

(** [s.replace(re, by)] for a regular expression [re] without the g flag and a
    replacement [by] without [$] patterns.  [matchAt t] is what follows the
    match of [re] that starts at the head of [t], if there is one; the
    leftmost start position wins. *)
Fixpoint replaceFirst (matchAt : jsstring -> option jsstring) (by_ : jsstring)
  (s : jsstring) : jsstring :=
  match matchAt s with
  | Some rest => by_ ++ rest
  | None =>
    match s with
    | [] => []
    | c :: r => c :: replaceFirst matchAt by_ r
    end
  end.

(** [/compileOptions\s*\{/] at the head of the text.  The greedy [\s*] cannot
    give back a white-space unit to match the brace, so skipping all white
    space is the only way to match. *)
Definition matchCompileOptions (s : jsstring) : option jsstring :=
  match stripPrefix (js "compileOptions") s with
  | Some r => stripPrefix (js "{") (dropWhile isWhiteSpace r)
  | None => None
  end.

(** The closing line of [/buildTypes\s*\{[\s\S]*?\n    \}/]. *)
Definition closingLine : jsstring := nl ++ js "    }".

(** [/buildTypes\s*\{[\s\S]*?\n    \}/] at the head of the text: the lazy
    [[\s\S]*?] stops at the first closing line after the brace. *)
Definition matchBuildTypes (s : jsstring) : option jsstring :=
  match stripPrefix (js "buildTypes") s with
  | Some r =>
    match stripPrefix (js "{") (dropWhile isWhiteSpace r) with
    | Some body =>
      match findSub closingLine body with
      | Some (_, rest) => Some rest
      | None => None
      end
    | None => None
    end
  | None => None
  end.

Definition desugaringFlag : jsstring :=
  js "compileOptions {" ++ nl ++ js "        isCoreLibraryDesugaringEnabled = true".

Definition debugBuildTypes : jsstring :=
  join nl
    [ js "buildTypes {";
      js "        getByName(" ++ dq ++ js "debug" ++ dq ++ js ") {";
      js "            signingConfig = signingConfigs.getByName(" ++ dq ++ js "debug" ++ dq ++ js ")";
      js "            isMinifyEnabled = true";
      js "            isShrinkResources = true";
      js "            proguardFiles(";
      js "                getDefaultProguardFile(" ++ dq ++ js "proguard-android.txt" ++ dq ++ js "),";
      js "                " ++ dq ++ js "proguard-rules.pro" ++ dq;
      js "            )";
      js "        }";
      js "    }" ].

Definition dependenciesBlock : jsstring :=
  nl ++ nl ++ js "dependencies {" ++ nl
  ++ js "    implementation(" ++ dq ++ js "com.huawei.hms:push:6.11.0.300" ++ dq ++ js ")" ++ nl
  ++ js "    implementation(" ++ dq ++ js "androidx.multidex:multidex:2.0.1" ++ dq ++ js ")" ++ nl
  ++ js "    coreLibraryDesugaring(" ++ dq ++ js "com.android.tools:desugar_jdk_libs:2.1.4" ++ dq ++ js ")" ++ nl
  ++ js "}" ++ nl.

(** 8a: add isCoreLibraryDesugaringEnabled inside compileOptions. *)
Definition patchCompileOptions (gradle : jsstring) : jsstring :=
  replaceFirst matchCompileOptions desugaringFlag gradle.

(** 8b: replace the buildTypes block. *)
Definition patchBuildTypes (gradle : jsstring) : jsstring :=
  replaceFirst matchBuildTypes debugBuildTypes gradle.

(** 8c: append the dependencies block at the end. *)
Definition appendDependencies (gradle : jsstring) : jsstring :=
  trimEnd gradle ++ dependenciesBlock.

(** The three assignments to [gradle] of step 11, in order. *)
Definition patchGradle (gradle : jsstring) : jsstring :=
  appendDependencies (patchBuildTypes (patchCompileOptions gradle)).

Definition proguardContent : jsstring :=
  join nl
    [ js "-ignorewarnings";
      js "-keepattributes *Annotation*";
      js "-keepattributes Exceptions";
      js "-keepattributes InnerClasses";
      js "-keepattributes Signature";
      js "-keep class com.hianalytics.android.**{*;}";
      js "-keep class com.huawei.updatesdk.**{*;}";
      js "-keep class com.huawei.hms.**{*;}";
      [];
      js "## Flutter wrapper";
      js "-keep class io.flutter.app.** { *; }";
      js "-keep class io.flutter.plugin.**  { *; }";
      js "-keep class io.flutter.util.**  { *; }";
      js "-keep class io.flutter.view.**  { *; }";
      js "-keep class io.flutter.**  { *; }";
      js "-keep class io.flutter.plugins.**  { *; }";
      js "-dontwarn io.flutter.embedding.**";
      js "-keep class com.huawei.hms.flutter.** { *; }";
      js "-keep class androidx.lifecycle.DefaultLifecycleObserver";
      js "-repackageclasses";
      [] ].

(** The flavor descriptor written by step 6. *)
Definition flavorizrContent (displayName org appId : jsstring) : jsstring :=
  join nl
    [ js "flavors:";
      js "  dev:";
      js "    app:";
      js "      name: " ++ dq ++ js "[DEV] " ++ displayName ++ dq;
      js "    android:";
      js "      applicationId: " ++ dq ++ org ++ js "." ++ appId ++ js ".dev" ++ dq;
      js "    ios:";
      js "      bundleId: " ++ dq ++ org ++ js "." ++ appId ++ js ".dev" ++ dq;
      js "  prod:";
      js "    app:";
      js "      name: " ++ dq ++ displayName ++ dq;
      js "    android:";
      js "      applicationId: " ++ dq ++ org ++ js "." ++ appId ++ dq;
      js "    ios:";
      js "      bundleId: " ++ dq ++ org ++ js "." ++ appId ++ dq;
      js "  uat:";
      js "    app:";
      js "      name: " ++ dq ++ js "[UAT] " ++ displayName ++ dq;
      js "    android:";
      js "      applicationId: " ++ dq ++ org ++ js "." ++ appId ++ js ".uat" ++ dq;
      js "    ios:";
      js "      bundleId: " ++ dq ++ org ++ js "." ++ appId ++ js ".uat" ++ dq;
      [] ].

(** ** The scripted terminal session of [runInteractive] *)

(** The command line given to [spawn]: arguments holding a space are put
    between double quotes. *)
Definition fullCmd (command : jsstring) (args : list jsstring) : jsstring :=
  join (js " ")
    (List.map (fun a => if includesUnit 32 a then dq ++ a ++ dq else a)
       (command :: args)).

Definition expectPatternLine : jsstring :=
  js "  -re {\(Y/n\)|\(y/N\)|\[Y/n\]|\[y/N\]|proceed} { send "
  ++ dq ++ js "y\r" ++ dq ++ js "; exp_continue }".

Definition expectScript (full : jsstring) : jsstring :=
  join nl
    [ js "set timeout 300";
      js "spawn " ++ full;
      js "expect {";
      expectPatternLine;
      js "  timeout { exit 1 }";
      js "  eof";
      js "}";
      js "lassign [wait] pid spawnid os_error_flag value";
      js "exit $value" ].

(** ASCII letters to lower case. *)
Definition lowerUnit (c : N) : N :=
  if (65 <=? c) && (c <=? 90) then c + 32 else c.

(** ** The operating system *)

(** A JavaScript exception: the [message] of an [Error], and the two stream
    fields an [execFile] rejection carries.  An absent field is the empty
    (falsy) string. *)
Record JsError := MkError {
  message : jsstring;
  err_stdout : jsstring;
  err_stderr : jsstring
}.

(** [new Error(msg)]. *)
Definition newError (msg : jsstring) : JsError :=
  {| message := msg; err_stdout := []; err_stderr := [] |}.

Record ExecOutput := MkOutput {
  stdout : jsstring;
  stderr : jsstring
}.

(** What the handler asks of Node and the machine it runs on.  [os_execFile]
    is [child_process.execFile] (command, arguments, [cwd], variables added to
    [process.env]); the four [fs] calls follow, then [process.cwd()],
    [path.resolve] and [path.join]. *)
Record OS (World : Type) := MkOS {
  os_execFile : World -> jsstring -> list jsstring -> option jsstring
                -> list (jsstring * jsstring) -> World * (JsError + ExecOutput);
  os_existsSync : World -> jsstring -> bool;
  os_mkdirSync : World -> jsstring -> World * option JsError;
  os_writeFileSync : World -> jsstring -> jsstring -> World * option JsError;
  os_readFileSync : World -> jsstring -> JsError + jsstring;
  os_cwd : World -> jsstring;
  os_resolve : World -> jsstring -> jsstring;
  os_join : jsstring -> jsstring -> jsstring
}.
Arguments os_execFile {World}.
Arguments os_existsSync {World}.
Arguments os_mkdirSync {World}.
Arguments os_writeFileSync {World}.
Arguments os_readFileSync {World}.
Arguments os_cwd {World}.
Arguments os_resolve {World}.
Arguments os_join {World}.

(** One system call, as performed, with whether it succeeded. *)
Inductive Event :=
| EvExec (command : jsstring) (args : list jsstring) (cwd : option jsstring)
    (extraEnv : list (jsstring * jsstring)) (ok : bool)
| EvExists (path : jsstring) (found : bool)
| EvMkdir (path : jsstring) (ok : bool)
| EvWriteFile (path content : jsstring) (ok : bool)
| EvReadFile (path : jsstring) (ok : bool).

(** The parameters of the tool, as the schema delivers them. *)
Record Request := MkRequest {
  name : jsstring;
  org : jsstring;
  template : option jsstring;
  dir : option jsstring;
  dry_run : option bool
}.

(** The tool's answer: [isError] and the text of its single content item. *)
Record ToolResult := MkResult {
  isError : bool;
  text : jsstring
}.

(** ** The handler monad *)

(** A computation returns a value or throws. *)
Inductive Outcome (A : Type) :=
| Ok (a : A)
| Throw (e : JsError).
Arguments Ok {A}.
Arguments Throw {A}.

Section Pipeline.

Context {World : Type} (os : OS World).

Record State := MkState {
  world : World;
  useFvm : bool;
  log : list jsstring;
  trace : list Event
}.

Definition M (A : Type) : Type := State -> Outcome A * State.

Definition ret {A} (a : A) : M A := fun s => (Ok a, s).

Definition bind {A B} (m : M A) (k : A -> M B) : M B :=
  fun s =>
    match m s with
    | (Ok a, s') => k a s'
    | (Throw e, s') => (Throw e, s')
    end.

Definition throw {A} (e : JsError) : M A := fun s => (Throw e, s).

Definition tryCatch {A} (m : M A) (handler : JsError -> M A) : M A :=
  fun s =>
    match m s with
    | (Ok a, s') => (Ok a, s')
    | (Throw e, s') => handler e s'
    end.

Notation "x <- m ;; k" := (bind m (fun x => k))
  (at level 100, m at next level, right associativity).
Notation "m ;; k" := (bind m (fun _ => k))
  (at level 100, right associativity).

Definition getUseFvm : M bool := fun s => (Ok (useFvm s), s).

Definition setUseFvm (b : bool) : M unit :=
  fun s => (Ok tt, {| world := world s; useFvm := b; log := log s; trace := trace s |}).

(** [log.push(msg)]. *)
Definition push (msg : jsstring) : M unit :=
  fun s => (Ok tt, {| world := world s; useFvm := useFvm s;
                      log := log s ++ [msg]; trace := trace s |}).

Definition when (b : bool) (m : M unit) : M unit := if b then m else ret tt.

(** A system call moves the world on and is recorded in the trace. *)
Definition performed (s : State) (w : World) (ev : Event) : State :=
  {| world := w; useFvm := useFvm s; log := log s; trace := trace s ++ [ev] |}.

Definition execFileAsync (command : jsstring) (args : list jsstring)
  (cwd : option jsstring) (extraEnv : list (jsstring * jsstring)) : M ExecOutput :=
  fun s =>
    match os_execFile os (world s) command args cwd extraEnv with
    | (w, inr out) => (Ok out, performed s w (EvExec command args cwd extraEnv true))
    | (w, inl e) => (Throw e, performed s w (EvExec command args cwd extraEnv false))
    end.

Definition existsSync (path : jsstring) : M bool :=
  fun s =>
    let b := os_existsSync os (world s) path in
    (Ok b, performed s (world s) (EvExists path b)).

Definition mkdirSync (path : jsstring) : M unit :=
  fun s =>
    match os_mkdirSync os (world s) path with
    | (w, None) => (Ok tt, performed s w (EvMkdir path true))
    | (w, Some e) => (Throw e, performed s w (EvMkdir path false))
    end.

Definition writeFileSync (path content : jsstring) : M unit :=
  fun s =>
    match os_writeFileSync os (world s) path content with
    | (w, None) => (Ok tt, performed s w (EvWriteFile path content true))
    | (w, Some e) => (Throw e, performed s w (EvWriteFile path content false))
    end.

Definition readFileSync (path : jsstring) : M jsstring :=
  fun s =>
    match os_readFileSync os (world s) path with
    | inr content => (Ok content, performed s (world s) (EvReadFile path true))
    | inl e => (Throw e, performed s (world s) (EvReadFile path false))
    end.

(** Paths: [join] with two, three and four arguments. *)
Definition join2 (a b : jsstring) : jsstring := os_join os a b.
Definition joinAll (a : jsstring) (segments : list jsstring) : jsstring :=
  fold_left (os_join os) segments a.

(** ** Helpers *)

Definition detectFvm : M bool :=
  tryCatch (_ <- execFileAsync (js "which") [js "fvm"] None [] ;; ret true)
           (fun _ => ret false).

(** The diagnostic text of a failed command:
    [err.stderr || err.stdout || err.message]. *)
Definition diagnostic (err : JsError) : jsstring :=
  if truthy (err_stderr err) then err_stderr err
  else if truthy (err_stdout err) then err_stdout err
  else message err.

Definition commandFailed (command : jsstring) (args : list jsstring)
  (err : JsError) : JsError :=
  newError (js "Command failed: " ++ command ++ js " " ++ join (js " ") args
            ++ nl ++ diagnostic err).

(** Run a command and return combined stdout + stderr; throws on non-zero
    exit. *)
Definition run (command : jsstring) (args : list jsstring)
  (cwd : option jsstring) (extraEnv : list (jsstring * jsstring)) : M jsstring :=
  tryCatch
    (out <- execFileAsync command args cwd extraEnv ;;
     ret (trim (join nl (List.filter truthy [stdout out; stderr out]))))
    (fun err => throw (commandFailed command args err)).

(** Checks that a command exists on PATH. *)
Definition commandExists (cmd : jsstring) : M bool :=
  tryCatch (_ <- execFileAsync (js "which") [cmd] None [] ;; ret true)
           (fun _ => ret false).

(** Run a command inside a real PTY using [expect]; falls back to CI=true and
    TERM=dumb if [expect] is not available. *)
Definition runInteractive (command : jsstring) (args : list jsstring)
  (cwd : option jsstring) : M jsstring :=
  hasExpect <- commandExists (js "expect") ;;
  if hasExpect then
    run (js "expect") [js "-c"; expectScript (fullCmd command args)] cwd []
  else
    run command args cwd [(js "CI", js "true"); (js "TERM", js "dumb")].

(** ** Tool: create_flutter_project *)

(** The constants computed at the head of the handler. *)
Record Ctx := MkCtx {
  c_name : jsstring;
  c_org : jsstring;
  templateUrl : jsstring;
  parentDir : jsstring;
  projectDir : jsstring;
  dryRun : bool
}.

Fixpoint forEach {A} (l : list A) (body : A -> M unit) : M unit :=
  match l with
  | [] => ret tt
  | x :: r => body x ;; forEach r body
  end.

Fixpoint sequence (ms : list (M unit)) : M unit :=
  match ms with
  | [] => ret tt
  | m :: r => m ;; sequence r
  end.

(** Detect tooling and push the header; the value is [hasGit]. *)
Definition detectTooling (c : Ctx) : M bool :=
  fvm <- detectFvm ;;
  setUseFvm fvm ;;
  hasGit <- commandExists (js "git") ;;
  let runner := if fvm then js "fvm" else js "flutter/dart (fvm not found)" in
  push (js "Project:  " ++ c_name c) ;;
  push (js "Org:      " ++ c_org c) ;;
  push (js "Template: " ++ templateUrl c) ;;
  push (js "Location: " ++ projectDir c) ;;
  push (js "Runner:   " ++ runner) ;;
  when (dryRun c) (push (js "Mode:     DRY RUN" ++ nl)) ;;
  ret hasGit.

Definition noToolchainMsg : jsstring :=
  js "Neither fvm nor flutter found on PATH. Install Flutter or fvm first.".
Definition noGitMsg : jsstring := js "git is not installed.".
Definition dirExistsMsg (projectDir : jsstring) : jsstring :=
  js "Directory '" ++ projectDir
  ++ js "' already exists. Remove it or choose a different name.".

(** Pre-flight checks. *)
Definition preflight (c : Ctx) (hasGit : bool) : M unit :=
  if negb (dryRun c) then
    fvm <- getUseFvm ;;
    noFlutter <- (if negb fvm
                  then (found <- commandExists (js "flutter") ;; ret (negb found))
                  else ret false) ;;
    if noFlutter then throw (newError noToolchainMsg)
    else if negb hasGit then throw (newError noGitMsg)
    else
      found <- existsSync (projectDir c) ;;
      if found then throw (newError (dirExistsMsg (projectDir c)))
      else ret tt
  else
    push (js "[pre-flight] Would verify: flutter/fvm, git installed; "
          ++ projectDir c ++ js " does not exist").

(** Step 1: install app_starter_plus. *)
Definition step1 (c : Ctx) : M unit :=
  push (stepMsg 1 (js "Installing app_starter_plus")) ;;
  fvm <- getUseFvm ;;
  let args := fvmArgs fvm (js "dart")
                [js "pub"; js "global"; js "activate"; js "app_starter_plus"] in
  (if dryRun c then
     push (js "  [dry-run] " ++ fvmCmd fvm (js "dart") ++ js " " ++ join (js " ") args)
   else
     _ <- run (fvmCmd fvm (js "dart")) args None [] ;; ret tt) ;;
  push (js "✔ app_starter_plus ready").

(** Step 2: clone template. *)
Definition step2 (c : Ctx) : M unit :=
  push (stepMsg 2 (js "Cloning template into " ++ c_name c)) ;;
  fvm <- getUseFvm ;;
  let starterArgs :=
    fvmArgs fvm (js "dart")
      ([js "pub"; js "global"; js "run"; js "app_starter_plus:app_starter_plus";
        js "--name"; c_name c; js "--org"; c_org c; js "--template"; templateUrl c]
       ++ (if fvm then [js "--fvm"] else [])) in
  (if dryRun c then
     push (js "  [dry-run] " ++ fvmCmd fvm (js "dart") ++ js " "
           ++ join (js " ") starterArgs)
   else
     _ <- run (fvmCmd fvm (js "dart")) starterArgs (Some (parentDir c)) [] ;; ret tt) ;;
  push (js "✔ Template cloned").

(** Step 3: git init. *)
Definition step3 (c : Ctx) : M unit :=
  push (stepMsg 3 (js "Initialising Git repository")) ;;
  (if dryRun c then
     push (js "  [dry-run] git init (if .git/ does not exist)") ;;
     push (js "  [dry-run] git config core.hooksPath .githooks/ (if .githooks/ exists)")
   else
     hasRepo <- existsSync (join2 (projectDir c) (js ".git")) ;;
     (if negb hasRepo then
        _ <- run (js "git") [js "init"] (Some (projectDir c)) [] ;;
        push (js "✔ Git repository initialised")
      else
        push (js "✔ Git repository already exists")) ;;
     hasHooks <- existsSync (join2 (projectDir c) (js ".githooks")) ;;
     if hasHooks then
       _ <- run (js "git") [js "config"; js "core.hooksPath"; js ".githooks/"]
              (Some (projectDir c)) [] ;;
       push (js "✔ Git hooks configured (.githooks/)")
     else
       push (js "⚠ No .githooks/ directory found — skipping hook setup")).

(** Step 4: install dependencies. *)
Definition step4 (c : Ctx) : M unit :=
  push (stepMsg 4 (js "Installing Flutter dependencies")) ;;
  fvm <- getUseFvm ;;
  let args := fvmArgs fvm (js "flutter") [js "pub"; js "get"] in
  (if dryRun c then
     push (js "  [dry-run] " ++ fvmCmd fvm (js "flutter") ++ js " " ++ join (js " ") args)
   else
     _ <- run (fvmCmd fvm (js "flutter")) args (Some (projectDir c)) [] ;; ret tt) ;;
  push (js "✔ Dependencies installed").

(** Step 5: generate localisations. *)
Definition step5 (c : Ctx) : M unit :=
  push (stepMsg 5 (js "Generating localisations")) ;;
  fvm <- getUseFvm ;;
  let args := fvmArgs fvm (js "flutter") [js "gen-l10n"] in
  (if dryRun c then
     push (js "  [dry-run] " ++ fvmCmd fvm (js "flutter") ++ js " " ++ join (js " ") args)
   else
     _ <- run (fvmCmd fvm (js "flutter")) args (Some (projectDir c)) [] ;; ret tt) ;;
  push (js "✔ Localisations generated").

Definition flavorizrPath (c : Ctx) : jsstring :=
  join2 (projectDir c) (js "flavorizr.yaml").

Definition flavorizrMissingMsg (c : Ctx) : jsstring :=
  js "flavorizr.yaml not found at " ++ flavorizrPath c.

(** Step 6: update flavorizr.yaml. *)
Definition step6 (c : Ctx) : M unit :=
  push (stepMsg 6 (js "Updating flavorizr.yaml")) ;;
  (if dryRun c then
     push (js "  [dry-run] Update flavorizr.yaml with project name & org")
   else
     found <- existsSync (flavorizrPath c) ;;
     if negb found then throw (newError (flavorizrMissingMsg c))
     else
       let displayName := toDisplayName (c_name c) in
       let appId := toAppId (c_name c) in
       writeFileSync (flavorizrPath c) (flavorizrContent displayName (c_org c) appId)) ;;
  push (js "✔ flavorizr.yaml updated").

(** Step 7: commit all files before flavorizr. *)
Definition step7 (c : Ctx) : M unit :=
  push (stepMsg 7 (js "Committing all files before flavorizr")) ;;
  (if dryRun c then
     push (js "  [dry-run] git add -A && git commit")
   else
     _ <- run (js "git") [js "add"; js "-A"] (Some (projectDir c)) [] ;;
     _ <- run (js "git")
            [js "commit"; js "-m"; js "Initial project setup before flavorizr"]
            (Some (projectDir c)) [] ;;
     ret tt) ;;
  push (js "✔ All files committed").

(** Step 8: generate flavors (needs PTY). *)
Definition step8 (c : Ctx) : M unit :=
  push (stepMsg 8 (js "Generating flavors (flavorizr)")) ;;
  fvm <- getUseFvm ;;
  let args := fvmArgs fvm (js "flutter") [js "pub"; js "run"; js "flutter_flavorizr"] in
  (if dryRun c then
     push (js "  [dry-run] " ++ fvmCmd fvm (js "flutter") ++ js " " ++ join (js " ") args) ;;
     push (js "  [dry-run] (will use expect for PTY allocation)")
   else
     _ <- runInteractive (fvmCmd fvm (js "flutter")) args (Some (projectDir c)) ;;
     ret tt) ;;
  push (js "✔ Flavors generated").

(** Step 9: revert main.dart and app.dart. *)
Definition step9 (c : Ctx) : M unit :=
  push (stepMsg 9 (js "Reverting main.dart & app.dart (overwritten by flavorizr)")) ;;
  (if dryRun c then
     push (js "  [dry-run] git checkout -- lib/main.dart lib/app.dart")
   else
     _ <- run (js "git") [js "checkout"; js "--"; js "lib/main.dart"; js "lib/app.dart"]
            (Some (projectDir c)) [] ;;
     ret tt) ;;
  push (js "✔ main.dart & app.dart reverted").

(** Step 10: create config files. *)
Definition step10 (c : Ctx) : M unit :=
  push (stepMsg 10 (js "Creating config files")) ;;
  (if dryRun c then
     push (js "  [dry-run] mkdir -p config") ;;
     push (js "  [dry-run] Write config/app_config_{dev,prod,uat}.json")
   else
     let configDir := join2 (projectDir c) (js "config") in
     mkdirSync configDir ;;
     forEach [js "dev"; js "prod"; js "uat"] (fun env =>
       writeFileSync (join2 configDir (js "app_config_" ++ env ++ js ".json"))
                     (configJson env ++ nl))) ;;
  push (js "✔ Config files created (config/app_config_{dev,prod,uat}.json)").

Definition gradlePath (c : Ctx) : jsstring :=
  joinAll (projectDir c) [js "android"; js "app"; js "build.gradle.kts"].

Definition proguardPath (c : Ctx) : jsstring :=
  joinAll (projectDir c) [js "android"; js "app"; js "proguard-rules.pro"].

Definition gradleMissingMsg (c : Ctx) : jsstring :=
  js "android/app/build.gradle.kts not found at " ++ gradlePath c.

(** Step 11: configure the Android build. *)
Definition step11 (c : Ctx) : M unit :=
  push (stepMsg 11 (js "Configuring Android build (desugaring, HMS, ProGuard)")) ;;
  if dryRun c then
    push (js "  [dry-run] Patch android/app/build.gradle.kts (compileOptions, buildTypes, dependencies)") ;;
    push (js "  [dry-run] Create android/app/proguard-rules.pro")
  else
    found <- existsSync (gradlePath c) ;;
    if negb found then throw (newError (gradleMissingMsg c))
    else
      gradle <- readFileSync (gradlePath c) ;;
      let gradle := patchCompileOptions gradle in
      let gradle := patchBuildTypes gradle in
      let gradle := appendDependencies gradle in
      writeFileSync (gradlePath c) gradle ;;
      push (js "✔ android/app/build.gradle.kts updated (desugaring, buildTypes, dependencies)") ;;
      writeFileSync (proguardPath c) proguardContent ;;
      push (js "✔ android/app/proguard-rules.pro created").

Definition dryRunMarker : jsstring :=
  nl ++ js "── Dry run complete! No changes were made. ──".

(** Done. *)
Definition done (c : Ctx) : M unit :=
  if dryRun c then
    push dryRunMarker
  else
    push (nl ++ js "── Setup complete! ──") ;;
    push (js "Project location: " ++ projectDir c) ;;
    push (nl ++ js "Next steps:") ;;
    push (js "  1. Fill in config/app_config_*.json with your API keys") ;;
    push (js "  2. Open " ++ projectDir c ++ js " in your IDE and start building").

(** The eleven steps, in the order of the source. *)
Definition steps (c : Ctx) : list (M unit) :=
  [ step1 c; step2 c; step3 c; step4 c; step5 c; step6 c;
    step7 c; step8 c; step9 c; step10 c; step11 c ].

(** The body of the handler's [try] block. *)
Definition pipeline (c : Ctx) : M unit :=
  hasGit <- detectTooling c ;;
  preflight c hasGit ;;
  sequence (steps c) ;;
  done c.

Definition context (req : Request) (w : World) : Ctx :=
  let parent := os_resolve os w (default (os_cwd os w) (dir req)) in
  {| c_name := name req;
     c_org := org req;
     templateUrl := default DEFAULT_TEMPLATE (template req);
     parentDir := parent;
     projectDir := join2 parent (name req);
     dryRun := default false (dry_run req) |}.

Definition failureText (err : JsError) (lines : list jsstring) : jsstring :=
  js "❌ Setup failed:" ++ nl ++ message err ++ nl ++ nl
  ++ js "Progress so far:" ++ nl ++ join nl lines.

(** The handler: a fresh [log], the [try] block and its [catch]. *)
Definition create_flutter_project (req : Request) (s0 : State)
  : ToolResult * State :=
  let c := context req (world s0) in
  let s := {| world := world s0; useFvm := useFvm s0; log := [];
              trace := trace s0 |} in
  match pipeline c s with
  | (Ok _, s') => ({| isError := false; text := join nl (log s') |}, s')
  | (Throw err, s') => ({| isError := true; text := failureText err (log s') |}, s')
  end.

End Pipeline.

Arguments State : clear implicits.
Arguments M : clear implicits.
Arguments world {World}.
Arguments useFvm {World}.
Arguments log {World}.
Arguments trace {World}.
Arguments MkState {World}.

(** ** A model machine

    A small POSIX machine on which the handler runs to completion: a search
    path, a file system, and a scaffolding generator that copies the files of
    a template.  It gives the concrete runs of the examples below. *)

Module Machine.

Record World := MkWorld {
  onPath : list jsstring;
  files : gmap (list N) (list N);
  dirs : list jsstring;
  templateFiles : list (list jsstring * jsstring)
}.

Definition hasElem (x : jsstring) (l : list jsstring) : bool :=
  bool_decide (x ∈ l).

Definition endsWithSlash (p : jsstring) : bool :=
  match last p with Some 47 => true | _ => false end.

(** [path.join] of a normalized directory and a plain segment. *)
Definition pjoin (a b : jsstring) : jsstring :=
  if endsWithSlash a then a ++ b else a ++ js "/" ++ b.

Definition cwd (w : World) : jsstring := js "/work".

Definition resolve (w : World) (p : jsstring) : jsstring :=
  match p with
  | 47 :: _ => p
  | _ => pjoin (cwd w) p
  end.

(** The argument that follows [flag]. *)
Fixpoint argAfter (flag : jsstring) (args : list jsstring) : option jsstring :=
  match args with
  | a :: r =>
    if bool_decide (a = flag) then head r else argAfter flag r
  | [] => None
  end.

Definition enoent (what : jsstring) : JsError :=
  {| message := js "ENOENT: " ++ what; err_stdout := []; err_stderr := [] |}.

(** The scaffolding generator: a directory named after the project, holding
    the files of the template. *)
Definition scaffold (w : World) (root : jsstring) : World :=
  {| onPath := onPath w;
     files := foldr (fun f m => <[ fold_left pjoin (fst f) root := snd f ]> m)
                (files w) (templateFiles w);
     dirs := root :: dirs w;
     templateFiles := templateFiles w |}.

Definition execFile (w : World) (command : jsstring) (args : list jsstring)
  (cwd : option jsstring) (extraEnv : list (jsstring * jsstring))
  : World * (JsError + ExecOutput) :=
  if bool_decide (command = js "which") then
    match args with
    | [c] => if hasElem c (onPath w)
             then (w, inr {| stdout := js "/usr/bin/" ++ c ++ nl; stderr := [] |})
             else (w, inl {| message := js "Command failed: which " ++ c;
                             err_stdout := []; err_stderr := [] |})
    | _ => (w, inl (enoent (js "which")))
    end
  else if negb (hasElem command (onPath w)) then
    (w, inl (enoent (js "spawn " ++ command)))
  else if hasElem (js "app_starter_plus:app_starter_plus") args then
    match cwd, argAfter (js "--name") args with
    | Some parent, Some n => (scaffold w (pjoin parent n), inr {| stdout := []; stderr := [] |})
    | _, _ => (w, inl {| message := js "exit 64"; err_stdout := [];
                         err_stderr := js "usage" |})
    end
  else (w, inr {| stdout := []; stderr := [] |}).

Definition existsSync (w : World) (p : jsstring) : bool :=
  hasElem p (dirs w) || bool_decide (is_Some (files w !! p)).

Definition mkdirSync (w : World) (p : jsstring) : World * option JsError :=
  ({| onPath := onPath w; files := files w; dirs := p :: dirs w;
      templateFiles := templateFiles w |}, None).

Definition writeFileSync (w : World) (p content : jsstring)
  : World * option JsError :=
  ({| onPath := onPath w; files := <[ p := content ]> (files w); dirs := dirs w;
      templateFiles := templateFiles w |}, None).

Definition readFileSync (w : World) (p : jsstring) : JsError + jsstring :=
  match files w !! p with
  | Some content => inr content
  | None => inl (enoent p)
  end.

Definition os : OS World :=
  {| os_execFile := execFile;
     os_existsSync := existsSync;
     os_mkdirSync := mkdirSync;
     os_writeFileSync := writeFileSync;
     os_readFileSync := readFileSync;
     os_cwd := cwd;
     os_resolve := resolve;
     os_join := pjoin |}.

(** The build script of the Flutter application template (Kotlin DSL). *)
Definition templateGradle : jsstring :=
  join nl
    [ js "android {";
      js "    namespace = " ++ dq ++ js "com.example.app" ++ dq;
      [];
      js "    compileOptions {";
      js "        sourceCompatibility = JavaVersion.VERSION_11";
      js "        targetCompatibility = JavaVersion.VERSION_11";
      js "    }";
      [];
      js "    buildTypes {";
      js "        release {";
      js "            signingConfig = signingConfigs.getByName(" ++ dq ++ js "debug" ++ dq ++ js ")";
      js "        }";
      js "    }";
      js "}";
      [];
      js "flutter {";
      js "    source = " ++ dq ++ js "../.." ++ dq;
      js "}";
      [] ].

Definition fullTemplate : list (list jsstring * jsstring) :=
  [ ([js "flavorizr.yaml"], js "flavors:" ++ nl);
    ([js "android"; js "app"; js "build.gradle.kts"], templateGradle) ].

(** A developer machine with fvm, git and expect, and nothing in /work. *)
Definition fresh : World :=
  {| onPath := [js "fvm"; js "git"; js "expect"];
     files := ∅;
     dirs := [js "/work"];
     templateFiles := fullTemplate |}.

(** The same machine with plain flutter and dart, and no expect. *)
Definition plain : World :=
  {| onPath := [js "flutter"; js "dart"; js "git"];
     files := ∅;
     dirs := [js "/work"];
     templateFiles := fullTemplate |}.

(** A machine without any Flutter toolchain. *)
Definition bare : World :=
  {| onPath := [js "git"];
     files := ∅;
     dirs := [js "/work"];
     templateFiles := fullTemplate |}.

(** A machine whose template has no flavor descriptor. *)
Definition noDescriptor : World :=
  {| onPath := [js "fvm"; js "git"; js "expect"];
     files := ∅;
     dirs := [js "/work"];
     templateFiles := [ ([js "android"; js "app"; js "build.gradle.kts"], templateGradle) ] |}.

Definition start (w : World) : State World :=
  {| world := w; useFvm := false; log := []; trace := [] |}.

Definition request (n : jsstring) (dry : option bool) : Request :=
  {| name := n; org := js "mu.mt"; template := None; dir := None; dry_run := dry |}.

(** The request of the end-to-end scenarios, executed and simulated. *)
Definition logistics : Request := request (js "logistics_app") None.
Definition dryLogistics : Request := request (js "logistics_app") (Some true).

(** The developer machine after the template was cloned. *)
Definition scaffolded : World := scaffold fresh (js "/work/logistics_app").

End Machine.

(** ** Definitions used to state the properties *)

(** The display name in the words of the specification: every underscore
    becomes a space and the first letter of every word is capitalized. *)
Fixpoint displayNameSpec (wordStart : bool) (s : jsstring) : jsstring :=
  match s with
  | [] => []
  | c :: r =>
    if c =? 95 then 32 :: displayNameSpec true r
    else (if wordStart then upperUnit c else c) :: displayNameSpec false r
  end.

(** The function mapped over the words by [toDisplayName]. *)
Definition capitalize (w : jsstring) : jsstring :=
  toUpperCase (charAt0 w) ++ slice1 w.

(** The step a log line announces: [k] when the line starts with [[k/11]]. *)
Definition stepPrefix (k : N) : jsstring :=
  js "[" ++ numToString k ++ js "/" ++ numToString TOTAL_STEPS ++ js "]".

Definition startsWith (p s : jsstring) : bool :=
  match stripPrefix p s with Some _ => true | None => false end.

Definition stepNumber (line : jsstring) : option N :=
  List.find (fun k => startsWith (stepPrefix k) line)
    [1; 2; 3; 4; 5; 6; 7; 8; 9; 10; 11].

(** The step labels in the words of the specification, written out: [[k/11]]
    for k from 1 to 11. *)
Definition stepLabels : list (N * jsstring) :=
  [ (1, js "[1/11]"); (2, js "[2/11]"); (3, js "[3/11]"); (4, js "[4/11]");
    (5, js "[5/11]"); (6, js "[6/11]"); (7, js "[7/11]"); (8, js "[8/11]");
    (9, js "[9/11]"); (10, js "[10/11]"); (11, js "[11/11]") ].

(** The step whose label the line starts with, if any. *)
Definition labelledStep (line : jsstring) : option N :=
  match List.find (fun kl => startsWith (snd kl) line) stepLabels with
  | Some kl => Some (fst kl)
  | None => None
  end.

(** No match of the pattern starts inside [pre], when [pre] is followed by
    [rest]. *)
Fixpoint noMatchBefore (matchAt : jsstring -> option jsstring)
  (pre rest : jsstring) : bool :=
  match pre with
  | [] => true
  | _ :: p =>
    match matchAt (pre ++ rest) with
    | Some _ => false
    | None => noMatchBefore matchAt p rest
    end
  end.

(** The pattern matches at no position of [s]. *)
Definition matchesNowhere (matchAt : jsstring -> option jsstring)
  (s : jsstring) : bool :=
  noMatchBefore matchAt s []
  && match matchAt [] with Some _ => false | None => true end.



Section Observations.

Context {World : Type} (os : OS World).

(** A probe for an executable: the world after it and whether it was found. *)
Definition probe (w : World) (cmd : jsstring) : World * bool :=
  match os_execFile os w (js "which") [cmd] None [] with
  | (w', inr _) => (w', true)
  | (w', inl _) => (w', false)
  end.

Definition probeEvent (cmd : jsstring) (found : bool) : Event :=
  EvExec (js "which") [cmd] None [] found.

(** The probes in the order the handler makes them: fvm, git, then flutter. *)
Definition fvmProbe (w : World) : World * bool := probe w (js "fvm").
Definition gitProbe (w : World) : World * bool := probe (fst (fvmProbe w)) (js "git").
Definition flutterProbe (w : World) : World * bool :=
  probe (fst (gitProbe w)) (js "flutter").

Definition fvmFound (w : World) : bool := snd (fvmProbe w).
Definition gitFound (w : World) : bool := snd (gitProbe w).
Definition flutterFound (w : World) : bool := snd (flutterProbe w).

(** The world in which pre-flight looks for the project directory. *)
Definition preflightWorld (w : World) : World :=
  if fvmFound w then fst (gitProbe w) else fst (flutterProbe w).

(** The requirement pre-flight finds violated, as its message. *)
Definition violation (c : Ctx) (w : World) : option jsstring :=
  if negb (fvmFound w || flutterFound w) then Some noToolchainMsg
  else if negb (gitFound w) then Some noGitMsg
  else if os_existsSync os (preflightWorld w) (projectDir c)
       then Some (dirExistsMsg (projectDir c))
  else None.

(** A requirement of pre-flight is violated: no Flutter toolchain (neither
    fvm nor flutter), no git, or the project directory is already there. *)
Definition preflightViolated (c : Ctx) (w : World) : Prop :=
  (fvmFound w || flutterFound w) = false
  \/ gitFound w = false
  \/ os_existsSync os (preflightWorld w) (projectDir c) = true.

(** The five header lines. *)
Definition header (c : Ctx) (fvm : bool) : list jsstring :=
  [ js "Project:  " ++ c_name c;
    js "Org:      " ++ c_org c;
    js "Template: " ++ templateUrl c;
    js "Location: " ++ projectDir c;
    js "Runner:   " ++ (if fvm then js "fvm" else js "flutter/dart (fvm not found)") ].

(** The system calls of a pre-flight that finds a violation. *)
Definition preflightEvents (c : Ctx) (w : World) : list Event :=
  [ probeEvent (js "fvm") (fvmFound w); probeEvent (js "git") (gitFound w) ]
  ++ (if fvmFound w then [] else [probeEvent (js "flutter") (flutterFound w)])
  ++ (if (fvmFound w || flutterFound w) && gitFound w
      then [EvExists (projectDir c) (os_existsSync os (preflightWorld w) (projectDir c))]
      else []).

(** The handler before step 1: tool detection, header and pre-flight. *)
Definition precheck (c : Ctx) : M World unit :=
  bind (detectTooling os c) (preflight os c).

(** The handler after pre-flight: the eleven steps and the closing lines. *)
Definition afterPreflight (c : Ctx) : M World unit :=
  bind (sequence (steps os c)) (fun _ => done c).

(** The handler up to the completion of step [k]. *)
Definition throughStep (k : nat) (c : Ctx) : M World unit :=
  bind (precheck c) (fun _ => sequence (take k (steps os c))).

(** System calls that only look: [which] probes and [existsSync]. *)
Definition isObservation (e : Event) : bool :=
  match e with
  | EvExec command _ _ _ _ => bool_decide (command = js "which")
  | EvExists _ _ => true
  | _ => false
  end.

(** The event is not a probe for the flutter executable. *)
Definition notFlutterProbe (e : Event) : Prop :=
  forall found, e <> probeEvent (js "flutter") found.

(** Every system call of the computation satisfies [P]. *)
Definition emits (P : Event -> Prop) {A} (m : M World A) : Prop :=
  forall s, exists t, trace (snd (m s)) = trace s ++ t /\ Forall P t.

(** When the computation succeeds, the lines it adds to the log announce
    step [k] and no other step. *)
Definition announces (k : N) (m : M World unit) : Prop :=
  forall s s', m s = (Ok tt, s') ->
    exists lines, log s' = log s ++ lines /\ omap stepNumber lines = [k].

(** The state in which the handler starts its [try] block. *)
Definition entry (s0 : State World) : State World :=
  {| world := world s0; useFvm := useFvm s0; log := []; trace := trace s0 |}.

End Observations.

(** ** Further machines *)

(** The developer machine after a template whose build script has neither a
    compileOptions nor a buildTypes block was cloned. *)
Definition plainScript : Machine.World :=
  Machine.scaffold
    {| Machine.onPath := [js "fvm"; js "git"; js "expect"];
       Machine.files := ∅;
       Machine.dirs := [js "/work"];
       Machine.templateFiles :=
         [ ([js "flavorizr.yaml"], js "flavors:" ++ nl);
           ([js "android"; js "app"; js "build.gradle.kts"], js "plugins { }" ++ nl) ] |}
    (js "/work/logistics_app").

(** The model machine on a file system mounted read-only: everything can be
    looked up and read, [mkdirSync] and [writeFileSync] throw. *)
Definition readOnlyError (path : jsstring) : JsError :=
  {| message := js "EROFS: read-only file system, open '" ++ path ++ js "'";
     err_stdout := []; err_stderr := [] |}.

Definition readOnlyOs : OS Machine.World :=
  {| os_execFile := Machine.execFile;
     os_existsSync := Machine.existsSync;
     os_mkdirSync := fun w path => (w, Some (readOnlyError path));
     os_writeFileSync := fun w path _ => (w, Some (readOnlyError path));
     os_readFileSync := Machine.readFileSync;
     os_cwd := Machine.cwd;
     os_resolve := Machine.resolve;
     os_join := Machine.pjoin |}.

(** ** Further definitions used to state properties *)

(** The package name read back from a display name: spaces become
    underscores and letters lower case. *)
Definition packageOfDisplay (display : jsstring) : jsstring :=
  List.map (fun c => if c =? 32 then 95 else lowerUnit c) display.

(** ASCII text. *)
Definition isAscii (s : jsstring) : bool := forallb (fun c => c <? 128) s.

(** The text neither starts nor ends with white space. *)
Definition isTrimmed (s : jsstring) : bool :=
  match s with
  | [] => true
  | c :: _ =>
    negb (isWhiteSpace c)
    && match last s with Some d => negb (isWhiteSpace d) | None => true end
  end.

(** One member of a stringified object, and the text between two members. *)
Definition memberText (kv : jsstring * jsstring) : jsstring :=
  Json.quote (fst kv) ++ js ": " ++ Json.quote (snd kv).

Definition memberSep : jsstring := js "," ++ nl ++ js "  ".

Section Invariants.

Context {World : Type} (os : OS World).

(** Whatever its outcome, the computation adds to the log lines that
    announce exactly the steps [ks]. *)
Definition alwaysAnnounces {A} (ks : list N) (m : M World A) : Prop :=
  forall s, exists lines,
    log (snd (m s)) = log s ++ lines /\ omap stepNumber lines = ks.



Definition gitInit (c : Ctx) (ok : bool) : Event :=
  EvExec (js "git") [js "init"] (Some (projectDir c)) [] ok.

Definition gitHooks (c : Ctx) (ok : bool) : Event :=
  EvExec (js "git") [js "config"; js "core.hooksPath"; js ".githooks/"]
    (Some (projectDir c)) [] ok.

Definition noHooksLine : jsstring :=
  js "⚠ No .githooks/ directory found — skipping hook setup".

(** The entries of the project directory the handler looks up or reads, and
    those it creates or writes, as the segments [path.join] is given after
    the project directory. *)
Definition inspected : list (list jsstring) :=
  [ [];
    [js ".git"];
    [js ".githooks"];
    [js "flavorizr.yaml"];
    [js "android"; js "app"; js "build.gradle.kts"] ].

Definition modified : list (list jsstring) :=
  [ [js "flavorizr.yaml"];
    [js "config"];
    [js "config"; js "app_config_dev.json"];
    [js "config"; js "app_config_prod.json"];
    [js "config"; js "app_config_uat.json"];
    [js "android"; js "app"; js "build.gradle.kts"];
    [js "android"; js "app"; js "proguard-rules.pro"] ].

Definition entryOf (entries : list (list jsstring)) (root p : jsstring) : Prop :=
  exists segments, In segments entries /\ p = joinAll os root segments.

(** File-system calls stay with the known entries of the project
    directory. *)
Definition fsConfined (c : Ctx) (e : Event) : Prop :=
  match e with
  | EvExists p _ | EvReadFile p _ => entryOf inspected (projectDir c) p
  | EvMkdir p _ | EvWriteFile p _ _ => entryOf modified (projectDir c) p
  | EvExec _ _ _ _ _ => True
  end.

(** Child processes are the six executables the handler knows, started in
    no directory of their own, in the parent directory or in the project
    directory. *)
Definition spawnSanctioned (c : Ctx) (e : Event) : Prop :=
  match e with
  | EvExec command _ cwd _ _ =>
    In command [js "which"; js "fvm"; js "dart"; js "flutter"; js "git"; js "expect"]
    /\ In cwd [None; Some (parentDir c); Some (projectDir c)]
  | _ => True
  end.

(** The five lines that close the log of a completed run. *)
Definition closingLines (c : Ctx) : list jsstring :=
  [ nl ++ js "── Setup complete! ──";
    js "Project location: " ++ projectDir c;
    nl ++ js "Next steps:";
    js "  1. Fill in config/app_config_*.json with your API keys";
    js "  2. Open " ++ projectDir c ++ js " in your IDE and start building" ].

End Invariants.

(** Child processes go through the runner that was detected: with fvm, the
    Dart and Flutter tools are only started as arguments of fvm; without it,
    fvm is never started.  The scripted session spawns the same command. *)
Definition viaRunner (fvm : bool) (e : Event) : Prop :=
  match e with
  | EvExec command args _ _ _ =>
    if fvm then
      In command [js "which"; js "git"; js "fvm"; js "expect"]
      /\ (command = js "fvm" ->
          exists rest, args = js "dart" :: rest \/ args = js "flutter" :: rest)
      /\ (command = js "expect" ->
          args = [js "-c"; expectScript (js "fvm flutter pub run flutter_flavorizr")])
    else
      In command [js "which"; js "git"; js "dart"; js "flutter"; js "expect"]
      /\ (command = js "expect" ->
          args = [js "-c"; expectScript (js "flutter pub run flutter_flavorizr")])
  | _ => True
  end.

(** Started with the runner setting [fvm], the computation keeps it and
    makes only system calls that satisfy [P]. *)
Definition keepsRunner {World A} (fvm : bool) (P : Event -> Prop)
  (m : M World A) : Prop :=
  forall s, useFvm s = fvm ->
    exists t, trace (snd (m s)) = trace s ++ t
              /\ Forall P t
              /\ useFvm (snd (m s)) = fvm.

(** ** Tools: list_flutter_projects and get_project_info *)

(** A directory entry, as [readdirSync] gives it with [withFileTypes]. *)
Record Dirent := MkDirent {
  d_name : jsstring;
  d_isDirectory : bool
}.

(** [fs.readdirSync]: the entries of a directory in the order the system
    gives them, or the error it throws.  Reading a directory leaves the
    world as it is; the call is not recorded in the trace. *)
Definition Readdir (World : Type) : Type :=
  World -> jsstring -> JsError + list Dirent.

(** ECMAScript LineTerminator code units: what [.] does not match, and
    where [^] and [$] match under the [m] flag. *)
Definition isLineTerminator (c : N) : bool :=
  (c =? 10) || (c =? 13) || (c =? 8232) || (c =? 8233).

Fixpoint takeWhile {A} (p : A -> bool) (l : list A) : list A :=
  match l with
  | [] => []
  | x :: r => if p x then x :: takeWhile p r else []
  end.

(** [(.+)$] under the [m] flag at the head of [rest]: the longest run of
    code units that are no line terminators, which must not be empty; the
    end of that run is the end of a line. *)
Definition captureLine (rest : jsstring) : option jsstring :=
  match takeWhile (fun c => negb (isLineTerminator c)) rest with
  | [] => None
  | v => Some v
  end.

(** [\s*(.+)$] at the head of [rest]: [\s*] is greedy and gives back one
    code unit at a time. *)
Fixpoint captureAfterSpace (rest : jsstring) : option jsstring :=
  match rest with
  | [] => None
  | c :: r =>
    if isWhiteSpace c then
      match captureAfterSpace r with
      | Some v => Some v
      | None => captureLine rest
      end
    else captureLine rest
  end.

(** [text.match(/^key\s*(.+)$/m)?.[1]] for a literal [key]: the capture of
    the leftmost match; [^] matches at the start of the text and after a
    line terminator ([lineStart] tells whether the head of [text] is such a
    position). *)
Fixpoint matchField (key : jsstring) (lineStart : bool) (text : jsstring)
  : option jsstring :=
  let here :=
    if lineStart then
      match stripPrefix key text with
      | Some rest => captureAfterSpace rest
      | None => None
      end
    else None in
  match here with
  | Some v => Some v
  | None =>
    match text with
    | [] => None
    | c :: r => matchField key (isLineTerminator c) r
    end
  end.

(** The text holds no line terminator. *)
Definition singleLine (s : jsstring) : bool :=
  forallb (fun c => negb (isLineTerminator c)) s.

(** [s.endsWith(suffix)]. *)
Definition endsWith (suffix s : jsstring) : bool :=
  match stripPrefix (rev suffix) (rev s) with Some _ => true | None => false end.

(** The three lines read from pubspec.yaml. *)
Definition pubspecLines (pubspec : jsstring) : list jsstring :=
  [ js "Name:        " ++ default (js "unknown") (matchField (js "name:") true pubspec);
    js "Version:     " ++ default (js "unknown") (matchField (js "version:") true pubspec);
    js "Description: " ++ default (js "—") (matchField (js "description:") true pubspec) ].

Section Inspectors.

Context {World : Type} (os : OS World) (readdir : Readdir World).

Notation "x <- m ;; k" := (bind m (fun x => k))
  (at level 100, m at next level, right associativity).

Definition readdirSync (path : jsstring) : M World (list Dirent) :=
  fun s =>
    match readdir (world s) path with
    | inr entries => (Ok entries, s)
    | inl e => (Throw e, s)
    end.

Definition pubspecOf (scanDir : jsstring) (entry : Dirent) : jsstring :=
  joinAll os scanDir [d_name entry; js "pubspec.yaml"].

(** The loop over the entries; [projects] is the array filled so far. *)
Fixpoint scanEntries (scanDir : jsstring) (entries : list Dirent)
  (projects : list jsstring) : M World (list jsstring) :=
  match entries with
  | [] => ret projects
  | entry :: rest =>
    isProject <- (if d_isDirectory entry
                  then existsSync os (pubspecOf scanDir entry)
                  else ret false) ;;
    scanEntries scanDir rest
      (if isProject then projects ++ [d_name entry] else projects)
  end.

(** The handler once [scanDir] is resolved. *)
Definition listProjects (scanDir : jsstring) : M World ToolResult :=
  found <- existsSync os scanDir ;;
  if negb found then
    ret {| isError := true; text := js "Directory not found: " ++ scanDir |}
  else
    entries <- readdirSync scanDir ;;
    projects <- scanEntries scanDir entries [] ;;
    if (length projects =? 0)%nat then
      ret {| isError := false;
             text := js "No Flutter projects found in " ++ scanDir |}
    else
      ret {| isError := false;
             text := js "Flutter projects in " ++ scanDir ++ js ":" ++ nl
                     ++ join nl (List.map (fun p => js "  • " ++ p) projects) |}.

Definition list_flutter_projects (dir : option jsstring) : M World ToolResult :=
  fun s0 =>
    listProjects (os_resolve os (world s0) (default (os_cwd os (world s0)) dir)) s0.

(** The four blocks of get_project_info; each returns [info] with the lines
    it pushed. *)
Definition pubspecInfo (absPath : jsstring) (info : list jsstring)
  : M World (list jsstring) :=
  let pubspecPath := join2 os absPath (js "pubspec.yaml") in
  hasPubspec <- existsSync os pubspecPath ;;
  if hasPubspec then
    pubspec <- readFileSync os pubspecPath ;;
    ret (info ++ pubspecLines pubspec)
  else
    ret (info ++ [js "⚠ No pubspec.yaml found — may not be a Flutter project"]).

Definition fvmInfo (absPath : jsstring) (info : list jsstring)
  : M World (list jsstring) :=
  let fvmPath := join2 os absPath (js ".fvmrc") in
  hasFvmrc <- existsSync os fvmPath ;;
  if hasFvmrc then
    fvm <- readFileSync os fvmPath ;;
    ret (info ++ [js "FVM config:  " ++ trim fvm])
  else ret info.

Definition configInfo (absPath : jsstring) (info : list jsstring)
  : M World (list jsstring) :=
  let configDir := join2 os absPath (js "config") in
  hasConfig <- existsSync os configDir ;;
  if hasConfig then
    entries <- readdirSync configDir ;;
    let configs := List.filter (endsWith (js ".json")) (List.map d_name entries) in
    ret (info
         ++ [nl ++ js "Config files (" ++ numToString (N.of_nat (length configs))
             ++ js "):"]
         ++ List.map (fun c => js "  • config/" ++ c) configs)
  else ret info.

Definition branchCommand (absPath : jsstring) (ok : bool) : Event :=
  EvExec (js "git") [js "branch"; js "--show-current"] (Some absPath) [] ok.

Definition noBranchLine : jsstring :=
  nl ++ js "Git:         initialised (could not read branch)".

Definition noRepoLine : jsstring := nl ++ js "Git:         not initialised".

Definition gitInfo (absPath : jsstring) (info : list jsstring)
  : M World (list jsstring) :=
  hasRepo <- existsSync os (join2 os absPath (js ".git")) ;;
  if hasRepo then
    tryCatch
      (branch <- run os (js "git") [js "branch"; js "--show-current"]
                   (Some absPath) [] ;;
       ret (info ++ [nl ++ js "Git branch:  " ++ branch]))
      (fun _ => ret (info ++ [noBranchLine]))
  else ret (info ++ [noRepoLine]).

(** The handler once [absPath] is resolved. *)
Definition projectInfo (absPath : jsstring) : M World ToolResult :=
  found <- existsSync os absPath ;;
  if negb found then
    ret {| isError := true; text := js "Project not found: " ++ absPath |}
  else
    info <- pubspecInfo absPath [js "Project: " ++ absPath ++ nl] ;;
    info <- fvmInfo absPath info ;;
    info <- configInfo absPath info ;;
    info <- gitInfo absPath info ;;
    ret {| isError := false; text := join nl info |}.

Definition get_project_info (projectPath : jsstring) : M World ToolResult :=
  fun s0 => projectInfo (os_resolve os (world s0) projectPath) s0.

(** *** Definitions used to state the properties of the two tools *)

(** The entry is a directory that holds a pubspec.yaml. *)
Definition holdsPubspec (w : World) (scanDir : jsstring) (entry : Dirent) : bool :=
  d_isDirectory entry && os_existsSync os w (pubspecOf scanDir entry).

Definition pubspecLookup (w : World) (scanDir : jsstring) (entry : Dirent) : Event :=
  EvExists (pubspecOf scanDir entry) (os_existsSync os w (pubspecOf scanDir entry)).

(** What get_project_info asks of the system: lookups, reads, and the one
    git command that shows the branch, run in the project directory. *)
Definition inspects (absPath : jsstring) (e : Event) : Prop :=
  match e with
  | EvExists p _ =>
    In p [ absPath; join2 os absPath (js "pubspec.yaml"); join2 os absPath (js ".fvmrc");
           join2 os absPath (js "config"); join2 os absPath (js ".git") ]
  | EvReadFile p _ =>
    In p [ join2 os absPath (js "pubspec.yaml"); join2 os absPath (js ".fvmrc") ]
  | EvExec command args cwd extraEnv _ =>
    command = js "git" /\ args = [js "branch"; js "--show-current"]
    /\ cwd = Some absPath /\ extraEnv = []
  | EvMkdir _ _ | EvWriteFile _ _ _ => False
  end.

(** The error is what reading pubspec.yaml, .fvmrc or the config directory
    throws in the world [w]. *)
Definition readError (w : World) (absPath : jsstring) (e : JsError) : Prop :=
  os_readFileSync os w (join2 os absPath (js "pubspec.yaml")) = inl e
  \/ os_readFileSync os w (join2 os absPath (js ".fvmrc")) = inl e
  \/ readdir w (join2 os absPath (js "config")) = inl e.

(** The line about git, from what the system says in the world [w]. *)
Definition gitLine (w : World) (absPath : jsstring) : jsstring :=
  if os_existsSync os w (join2 os absPath (js ".git")) then
    match snd (os_execFile os w (js "git") [js "branch"; js "--show-current"]
                 (Some absPath) []) with
    | inr out =>
      nl ++ js "Git branch:  "
      ++ trim (join nl (List.filter truthy [stdout out; stderr out]))
    | inl _ => noBranchLine
    end
  else noRepoLine.

(** The block leaves the world as it is; it adds lines to [info] or throws
    what a read threw. *)
Definition extendsInfo (absPath : jsstring) (info : list jsstring)
  (m : M World (list jsstring)) : Prop :=
  forall s,
    world (snd (m s)) = world s
    /\ match fst (m s) with
       | Ok info' => exists lines, info' = info ++ lines
       | Throw e => readError (world s) absPath e
       end.

End Inspectors.

(** A workspace on the model machine: one Flutter project, a plain file and
    an empty directory. *)
Module Workspace.

Definition pubspec : jsstring :=
  join nl [ js "name: logistics_app"; js "description:"; js "version: 1.0.0+1";
            js "name: shadowed"; [] ].

Definition world : Machine.World :=
  {| Machine.onPath := [js "git"];
     Machine.files :=
       {[ js "/work/logistics_app/pubspec.yaml" := pubspec;
          js "/work/logistics_app/.fvmrc" := js "  3.24.0 " ++ nl;
          js "/work/notes.txt" := js "todo" ]};
     Machine.dirs :=
       [ js "/work"; js "/work/logistics_app"; js "/work/logistics_app/config";
         js "/work/logistics_app/.git"; js "/work/scratch" ];
     Machine.templateFiles := [] |}.

Definition readdir : Readdir Machine.World :=
  fun _ path =>
    if bool_decide (path = js "/work") then
      inr [ MkDirent (js "logistics_app") true; MkDirent (js "notes.txt") false;
            MkDirent (js "scratch") true ]
    else if bool_decide (path = js "/work/logistics_app/config") then
      inr [ MkDirent (js "app_config_dev.json") false; MkDirent (js "README.md") false;
            MkDirent (js "app_config_prod.json") false ]
    else inl (Machine.enoent path).

End Workspace.

(** The system call succeeded, or it only looks ([which], [existsSync]), so
    that a negative answer is no failure. *)
Definition wentWell (e : Event) : bool :=
  isObservation e
  || match e with
     | EvExec _ _ _ _ ok | EvMkdir _ ok | EvWriteFile _ _ ok | EvReadFile _ ok => ok
     | EvExists _ _ => true
     end.

(** Nothing follows a failed call: when the computation returns, all its
    system calls went well; when it throws, all but the last did. *)
Definition failFast {World A} (m : M World A) : Prop :=
  forall s, exists t,
    trace (snd (m s)) = trace s ++ t
    /\ match fst (m s) with
       | Ok _ => Forall (fun e => wentWell e = true) t
       | Throw _ => Forall (fun e => wentWell e = true) (removelast t)
       end.

(** The same request in dry-run mode or outside it. *)
Definition inMode (dry : bool) (c : Ctx) : Ctx :=
  {| c_name := c_name c; c_org := c_org c; templateUrl := templateUrl c;
     parentDir := parentDir c; projectDir := projectDir c; dryRun := dry |}.

(** The line with which dry-run mode previews a command. *)
Definition previewOf (command : jsstring) (args : list jsstring) : jsstring :=
  js "  [dry-run] " ++ command ++ js " " ++ join (js " ") args.

(** The step, started in the state [s], previews in dry-run mode exactly the
    one command it runs outside it. *)
Definition previewsItsCommand {World} (s : State World)
  (step : Ctx -> M World unit) (c : Ctx) : Prop :=
  let real := step (inMode false c) s in
  let dry := step (inMode true c) s in
  trace (snd dry) = trace s
  /\ world (snd dry) = world s
  /\ fst dry = Ok tt
  /\ exists command args cwd ok first last,
       trace (snd real) = trace s ++ [EvExec command args cwd [] ok]
       /\ log (snd dry) = log s ++ [first; previewOf command args; last].

(** * Properties *)

(** ** Strings *)

Example js_ascii : js "y/N" = [121; 47; 78].
Proof. reflexivity. Qed.

Example js_bmp : js "✔ ok" = [10004; 32; 111; 107].
Proof. reflexivity. Qed.

Example numToString_11 : numToString 11 = js "11".
Proof. reflexivity. Qed.

Lemma join_cons_unit sep c w l : join sep ((c :: w) :: l) = c :: join sep (w :: l).
Proof. destruct l; reflexivity. Qed.

Lemma join_two sep x y l : join sep (x :: y :: l) = x ++ sep ++ join sep (y :: l).
Proof. reflexivity. Qed.

Lemma join_snoc sep l x : l <> [] -> join sep (l ++ [x]) = join sep l ++ sep ++ x.
Proof.
  induction l as [|a l IH]; intros Hne; [congruence|].
  destruct l as [|b l].
  - reflexivity.
  - change ((a :: b :: l) ++ [x]) with (a :: b :: (l ++ [x])).
    rewrite !join_two. change (b :: l ++ [x]) with ((b :: l) ++ [x]).
    rewrite IH by discriminate. now rewrite <- !app_assoc.
Qed.

Lemma stripPrefix_app p s : stripPrefix p (p ++ s) = Some s.
Proof.
  induction p as [|a p IH]; [reflexivity|].
  cbn. now rewrite N.eqb_refl.
Qed.

Lemma stripPrefix_Some p s r : stripPrefix p s = Some r -> s = p ++ r.
Proof.
  revert s. induction p as [|a p IH]; intros s H.
  - cbn in H. now inversion H.
  - destruct s as [|b s]; [discriminate|]. cbn in H.
    destruct (N.eqb_spec a b) as [->|]; [|discriminate].
    cbn. f_equal. now apply IH.
Qed.

Lemma findSub_Some p s a b : findSub p s = Some (a, b) -> s = a ++ p ++ b.
Proof.
  revert a. induction s as [|c s IH]; intros a H.
  - cbn in H. destruct (stripPrefix p []) eqn:E; [|discriminate].
    inversion H; subst. now apply stripPrefix_Some in E.
  - cbn in H. destruct (stripPrefix p (c :: s)) eqn:E.
    + inversion H; subst. now apply stripPrefix_Some in E.
    + destruct (findSub p s) as [[a' b']|] eqn:F; [|discriminate].
      inversion H; subst. cbn. f_equal. now apply IH.
Qed.

Lemma findSub_head p s r : stripPrefix p s = Some r -> findSub p s = Some ([], r).
Proof. intros H. destruct s; cbn [findSub]; now rewrite H. Qed.

Lemma findSub_occurs p a b : exists a' b', findSub p (a ++ p ++ b) = Some (a', b').
Proof.
  induction a as [|c a IH].
  - exists [], b. cbn [app]. apply findSub_head. apply stripPrefix_app.
  - destruct IH as (a' & b' & IH). cbn [app findSub].
    destruct (stripPrefix p (c :: a ++ p ++ b)); [eauto|].
    rewrite IH. eauto.
Qed.

(** [includes] is occurrence as a contiguous run of code units. *)
Lemma includes_spec p s : includes p s = true <-> exists a b, s = a ++ p ++ b.
Proof.
  unfold includes. split.
  - destruct (findSub p s) as [[a b]|] eqn:E; [|discriminate].
    intros _. exists a, b. now apply findSub_Some.
  - intros (a & b & ->). destruct (findSub_occurs p a b) as (a' & b' & ->).
    reflexivity.
Qed.


(** ** Runner selector *)

(** C6. In WRAPPED mode ([useFvm] set) the resolved command is the wrapper
    executable fvm and the logical command name is put ahead of the original
    arguments; in DIRECT mode the command is the logical name itself and the
    arguments are unchanged.  This holds for every logical command, dart and
    flutter in particular. *)
Theorem runner_resolution (cmd : jsstring) (args : list jsstring) :
  (fvmCmd true cmd = js "fvm" /\ fvmArgs true cmd args = cmd :: args)
  /\ (fvmCmd false cmd = cmd /\ fvmArgs false cmd args = args).
Proof. repeat split. Qed.

Example runner_wrapped_flutter :
  join (js " ") (fvmCmd true (js "flutter") :: fvmArgs true (js "flutter") [js "pub"; js "get"])
  = js "fvm flutter pub get".
Proof. reflexivity. Qed.

Example runner_direct_dart :
  join (js " ") (fvmCmd false (js "dart") :: fvmArgs false (js "dart") [js "pub"; js "get"])
  = js "dart pub get".
Proof. reflexivity. Qed.

(** ** Derived names *)

Lemma split_display s :
  exists w ws,
    split 95 s = w :: ws
    /\ join (js " ") (w :: List.map capitalize ws) = displayNameSpec false s
    /\ join (js " ") (capitalize w :: List.map capitalize ws) = displayNameSpec true s.
Proof.
  induction s as [|c s (w & ws & Hs & Hf & Ht)].
  - exists [], []. repeat split.
  - cbn [split displayNameSpec]. destruct (N.eqb_spec c 95) as [->|Hc].
    + exists [], (w :: ws). rewrite Hs. split; [reflexivity|].
      cbn [List.map]. change (capitalize []) with (@nil N).
      rewrite join_two, Ht. split; reflexivity.
    + exists (c :: w), ws. rewrite Hs. split; [reflexivity|].
      change (capitalize (c :: w)) with (upperUnit c :: w).
      rewrite !join_cons_unit, Hf. split; reflexivity.
Qed.

Lemma toDisplayName_spec s : toDisplayName s = displayNameSpec true s.
Proof.
  unfold toDisplayName. destruct (split_display s) as (w & ws & -> & _ & Ht).
  exact Ht.
Qed.

Lemma toAppId_filter s : toAppId s = List.filter (fun c => negb (c =? 95)) s.
Proof.
  unfold toAppId, replaceAllUnit. induction s as [|c s IH]; [reflexivity|].
  cbn. rewrite IH. destruct (c =? 95); reflexivity.
Qed.

Lemma displayNameSpec_length b s : length (displayNameSpec b s) = length s.
Proof.
  revert b. induction s as [|c s IH]; intros b; [reflexivity|].
  cbn. destruct (c =? 95); cbn; rewrite IH; reflexivity.
Qed.

Lemma toAppId_valid s : DART_PACKAGE_NAME_RE s = true -> DART_PACKAGE_NAME_RE (toAppId s) = true.
Proof.
  rewrite toAppId_filter. destruct s as [|c s]; [discriminate|].
  cbn [DART_PACKAGE_NAME_RE]. intros H. apply andb_true_iff in H as [Hc Hs].
  assert ((c =? 95) = false) as Hu.
  { unfold isLower in Hc. apply andb_true_iff in Hc as [H1 H2].
    apply N.leb_le in H1. apply N.eqb_neq. lia. }
  cbn [List.filter]. rewrite Hu. cbn [negb DART_PACKAGE_NAME_RE]. rewrite Hc. cbn.
  clear Hc Hu. induction s as [|d s IH]; [reflexivity|].
  cbn in Hs. apply andb_true_iff in Hs as [Hd Hs]. cbn.
  destruct (d =? 95); cbn; [now apply IH|]. rewrite Hd. now apply IH.
Qed.

(** C7. For every name of the accepted shape [^[a-z][a-z0-9_]*$], the display
    name is the name with underscores replaced by spaces and every word
    capitalized, and the application identifier is the name with all
    underscores removed (and is again of the accepted shape).  Both are
    functions of the name alone; telecom_app gives Telecom App and
    telecomapp. *)
Theorem derived_names (pkg : jsstring) :
  DART_PACKAGE_NAME_RE pkg = true ->
  toDisplayName pkg = displayNameSpec true pkg
  /\ length (toDisplayName pkg) = length pkg
  /\ toAppId pkg = List.filter (fun c => negb (c =? 95)) pkg
  /\ DART_PACKAGE_NAME_RE (toAppId pkg) = true
  /\ toDisplayName (js "telecom_app") = js "Telecom App"
  /\ toAppId (js "telecom_app") = js "telecomapp".
Proof.
  intros Hvalid. repeat split.
  - apply toDisplayName_spec.
  - rewrite toDisplayName_spec. apply displayNameSpec_length.
  - apply toAppId_filter.
  - now apply toAppId_valid.
Qed.

Lemma derived_names_witness :
  toDisplayName (js "my_super_app") = displayNameSpec true (js "my_super_app")
  /\ length (toDisplayName (js "my_super_app")) = length (js "my_super_app")
  /\ toAppId (js "my_super_app")
     = List.filter (fun c => negb (c =? 95)) (js "my_super_app")
  /\ DART_PACKAGE_NAME_RE (toAppId (js "my_super_app")) = true
  /\ toDisplayName (js "telecom_app") = js "Telecom App"
  /\ toAppId (js "telecom_app") = js "telecomapp".
Proof. apply (derived_names (js "my_super_app")). reflexivity. Defined.

Example toDisplayName_my_super_app : toDisplayName (js "my_super_app") = js "My Super App".
Proof. reflexivity. Qed.

Example toDisplayName_double_underscore : toDisplayName (js "a__b") = js "A  B".
Proof. reflexivity. Qed.

(** ** Environment config files *)

Example configJson_dev_text :
  configJson (js "dev")
  = join nl
      [ js "{";
        js "  " ++ dq ++ js "secretKey" ++ dq ++ js ": " ++ dq ++ js "DEV" ++ dq ++ js ",";
        js "  " ++ dq ++ js "baseUrl" ++ dq ++ js ": " ++ dq ++ dq ++ js ",";
        js "  " ++ dq ++ js "xAPIKey" ++ dq ++ js ": " ++ dq ++ dq ++ js ",";
        js "  " ++ dq ++ js "oneSignalKey" ++ dq ++ js ": " ++ dq ++ dq;
        js "}" ].
Proof. reflexivity. Qed.

(** C8. For each environment name among dev, uat and prod, [configJson]
    yields a JSON text that denotes an object with exactly the four keys
    secretKey, baseUrl, xAPIKey and oneSignalKey, in which secretKey is the
    upper-cased name (DEV, UAT, PROD) and the three other values are the empty
    string. *)
Theorem configJson_object (env : jsstring) :
  In env [js "dev"; js "uat"; js "prod"] ->
  Json.parseObject (configJson env)
  = Some [ (js "secretKey", toUpperCase env); (js "baseUrl", []);
           (js "xAPIKey", []); (js "oneSignalKey", []) ]
  /\ In (toUpperCase env) [js "DEV"; js "UAT"; js "PROD"]
  /\ (env = js "dev" -> toUpperCase env = js "DEV").
Proof.
  intros [<-|[<-|[<-|[]]]]; (split; [vm_compute; reflexivity|]); split.
  - left; reflexivity.
  - reflexivity.
  - right; left; reflexivity.
  - intros H; vm_compute in H; discriminate.
  - right; right; left; reflexivity.
  - intros H; vm_compute in H; discriminate.
Qed.

Lemma configJson_object_witness :
  Json.parseObject (configJson (js "dev"))
  = Some [ (js "secretKey", toUpperCase (js "dev")); (js "baseUrl", []);
           (js "xAPIKey", []); (js "oneSignalKey", []) ]
  /\ In (toUpperCase (js "dev")) [js "DEV"; js "UAT"; js "PROD"]
  /\ (js "dev" = js "dev" -> toUpperCase (js "dev") = js "DEV").
Proof. apply (configJson_object (js "dev")). left. reflexivity. Defined.

(** ** Text patchers *)


Lemma replaceFirst_skip m by_ c s :
  m (c :: s) = None -> replaceFirst m by_ (c :: s) = c :: replaceFirst m by_ s.
Proof. intros H. cbn [replaceFirst]. now rewrite H. Qed.


Lemma noMatchBefore_split m s rest :
  noMatchBefore m s rest = true <->
  (forall pre c post, s = pre ++ c :: post -> m (c :: post ++ rest) = None).
Proof.
  induction s as [|c s IH].
  - split; [|reflexivity]. intros _ [|? ?] ? ? H; discriminate.
  - cbn [noMatchBefore]. change ((c :: s) ++ rest) with (c :: s ++ rest).
    destruct (m (c :: s ++ rest)) eqn:E; split.
    + discriminate.
    + intros H. specialize (H [] c s eq_refl). congruence.
    + intros Hs [|x pre] d post Heq; inversion Heq; subst; [exact E|].
      eapply IH; [exact Hs|reflexivity].
    + intros H. apply IH. intros pre d post ->. now apply (H (c :: pre)).
Qed.

(** [matchesNowhere] says that no suffix of the text starts with a match. *)
Lemma matchesNowhere_spec m s :
  matchesNowhere m s = true <-> (forall pre post, s = pre ++ post -> m post = None).
Proof.
  unfold matchesNowhere. rewrite andb_true_iff, noMatchBefore_split. split.
  - intros [Hs He] pre [|c post] ->.
    + now destruct (m []).
    + specialize (Hs pre c post eq_refl). now rewrite app_nil_r in Hs.
  - intros H. split.
    + intros pre c post ->. rewrite app_nil_r. now apply (H pre).
    + rewrite (H s []); [reflexivity|now rewrite app_nil_r].
Qed.

(** Without a match the text is returned as it is. *)
Lemma replaceFirst_nowhere m by_ s :
  matchesNowhere m s = true -> replaceFirst m by_ s = s.
Proof.
  rewrite matchesNowhere_spec. induction s as [|c s IH]; intros H.
  - cbn. now rewrite (H [] []).
  - rewrite replaceFirst_skip by (now apply (H [])).
    f_equal. apply IH. intros pre post ->. now apply (H (c :: pre)).
Qed.





Lemma patchGradle_ends t : exists p, patchGradle t = p ++ dependenciesBlock.
Proof. unfold patchGradle, appendDependencies. eauto. Qed.

Example patch_template_gradle :
  patchGradle Machine.templateGradle
  = join nl
      [ js "android {";
        js "    namespace = " ++ dq ++ js "com.example.app" ++ dq;
        [];
        js "    compileOptions {";
        js "        isCoreLibraryDesugaringEnabled = true";
        js "        sourceCompatibility = JavaVersion.VERSION_11";
        js "        targetCompatibility = JavaVersion.VERSION_11";
        js "    }";
        [];
        js "    " ++ debugBuildTypes;
        js "}";
        [];
        js "flutter {";
        js "    source = " ++ dq ++ js "../.." ++ dq;
        js "}" ]
    ++ dependenciesBlock.
Proof. vm_compute. reflexivity. Qed.



(** ** The pipeline *)

Section PipelineFacts.

Context {World : Type} (os : OS World).

Ltac finish :=
  unfold throw, ret, performed;
  cbn [world useFvm log trace fst snd];
  rewrite <- ?app_assoc; cbn [app]; reflexivity.

Lemma bind_assoc {A B C} (m : M World A) (k : A -> M World B) (h : B -> M World C)
  (s : State World) :
  bind (bind m k) h s = bind m (fun a => bind (k a) h) s.
Proof. unfold bind. destruct (m s) as [[a|e] s1]; reflexivity. Qed.

Lemma commandExists_probe cmd (s : State World) :
  commandExists os cmd s
  = (Ok (snd (probe os (world s) cmd)),
     performed s (fst (probe os (world s) cmd))
       (probeEvent cmd (snd (probe os (world s) cmd)))).
Proof.
  unfold commandExists, tryCatch, bind, execFileAsync, probe, probeEvent, ret.
  destruct (os_execFile os (world s) (js "which") [cmd] None []) as [w [e|o]];
    reflexivity.
Qed.

Lemma detectFvm_probe (s : State World) :
  detectFvm os s = commandExists os (js "fvm") s.
Proof. reflexivity. Qed.

(** [run] performs exactly one [execFile] and fails with the wrapped error
    exactly when the child process fails. *)
Lemma run_spec command args cwd extraEnv (s : State World) :
  run os command args cwd extraEnv s
  = match os_execFile os (world s) command args cwd extraEnv with
    | (w, inr out) =>
      (Ok (trim (join nl (List.filter truthy [stdout out; stderr out]))),
       performed s w (EvExec command args cwd extraEnv true))
    | (w, inl e) =>
      (Throw (commandFailed command args e),
       performed s w (EvExec command args cwd extraEnv false))
    end.
Proof.
  unfold run, tryCatch, bind, execFileAsync, ret, throw.
  destruct (os_execFile os (world s) command args cwd extraEnv) as [w [e|o]];
    reflexivity.
Qed.

(** Everything before step 1, in one equation. *)
Lemma precheck_spec c (s : State World) :
  dryRun c = false ->
  precheck os c s
  = (match violation os c (world s) with
     | Some msg => Throw (newError msg)
     | None => Ok tt
     end,
     {| world := preflightWorld os (world s);
        useFvm := fvmFound os (world s);
        log := log s ++ header c (fvmFound os (world s));
        trace := trace s ++ preflightEvents os c (world s) |}).
Proof.
  intros Hdry. destruct c as [n o t p pd d]. cbn in Hdry. subst d.
  unfold precheck, detectTooling, preflight, violation, preflightEvents, preflightWorld,
    fvmFound, gitFound, flutterFound, flutterProbe, gitProbe, fvmProbe, header, bind.
  cbn [dryRun negb projectDir c_name c_org templateUrl when].
  rewrite detectFvm_probe, commandExists_probe.
  destruct (probe os (world s) (js "fvm")) as [w1 b1].
  cbn [fst snd setUseFvm performed world useFvm log trace].
  rewrite commandExists_probe.
  cbn [fst snd setUseFvm performed world useFvm log trace].
  destruct (probe os w1 (js "git")) as [w2 b2].
  cbn [fst snd setUseFvm performed world useFvm log trace push ret getUseFvm].
  destruct b1; cbn [negb orb andb].
  - destruct b2; cbn [negb throw ret existsSync performed world useFvm log trace].
    + destruct (os_existsSync os w2 pd); finish.
    + finish.
  - rewrite commandExists_probe.
    cbn [fst snd setUseFvm performed world useFvm log trace push ret getUseFvm].
    destruct (probe os w2 (js "flutter")) as [w3 b3].
    cbn [fst snd]. destruct b3; cbn [negb throw].
    + destruct b2; cbn [negb throw ret existsSync performed world useFvm log trace].
      * destruct (os_existsSync os w3 pd); finish.
      * finish.
    + finish.
Qed.

Lemma pipeline_precheck c (s : State World) :
  pipeline os c s = bind (precheck os c) (fun _ => afterPreflight os c) s.
Proof. unfold pipeline, precheck, afterPreflight. now rewrite bind_assoc. Qed.

Lemma join_last sep (l : list jsstring) x y :
  last (y :: l) = Some x -> l <> [] -> exists p, join sep (y :: l) = p ++ sep ++ x.
Proof.
  intros Hlast Hne.
  destruct (exists_last Hne) as (l' & z & ->).
  change (y :: l' ++ [z]) with ((y :: l') ++ [z]) in *.
  rewrite last_snoc in Hlast. inversion Hlast; subst.
  exists (join sep (y :: l')). apply join_snoc. discriminate.
Qed.

(** C1. With the simulate flag set, for every input, the handler performs
    exactly two system calls, the [which] probes for fvm and for git: no file
    is written, no other process is spawned and git is never run.  The result
    is not an error; its log holds, in order, exactly one line prefixed
    [[k/11]] for each step k from 1 to 11 (the labels are written out in
    [stepLabels]), and its last line is the dry-run-complete marker, which
    says that no changes were made. *)
Theorem dry_run_simulates (req : Request) (s0 : State World) :
  dry_run req = Some true ->
  let r := create_flutter_project os req s0 in
  isError (fst r) = false
  /\ trace (snd r)
     = trace s0 ++ [ probeEvent (js "fvm") (fvmFound os (world s0));
                     probeEvent (js "git") (gitFound os (world s0)) ]
  /\ world (snd r) = fst (gitProbe os (world s0))
  /\ omap stepNumber (log (snd r)) = [1; 2; 3; 4; 5; 6; 7; 8; 9; 10; 11]
  /\ omap labelledStep (log (snd r)) = [1; 2; 3; 4; 5; 6; 7; 8; 9; 10; 11]
  /\ last (log (snd r)) = Some dryRunMarker
  /\ last (log (snd r))
     = Some (nl ++ js "── Dry run complete! No changes were made. ──")
  /\ text (fst r) = join nl (log (snd r))
  /\ (exists p, text (fst r) = p ++ nl ++ dryRunMarker)
  /\ includes (js "No changes were made") dryRunMarker = true.
Proof.
  intros Hdry r. subst r.
  unfold create_flutter_project, context. rewrite Hdry. cbn [default].
  unfold pipeline, detectTooling, bind, fvmFound, gitFound, gitProbe, fvmProbe.
  rewrite detectFvm_probe, commandExists_probe.
  cbn [world performed setUseFvm].
  destruct (probe os (world s0) (js "fvm")) as [w1 b1].
  cbn [fst snd]. rewrite commandExists_probe. cbn [world performed].
  destruct (probe os w1 (js "git")) as [w2 b2].
  cbn [fst snd].
  destruct b1;
    cbv -[js app probeEvent numToString join includes omap stepNumber labelledStep last
          dryRunMarker nl].
  all: repeat split.
  all: try (rewrite <- ?app_assoc; reflexivity).
  all: try (vm_compute; reflexivity).
  all: apply join_last; [vm_compute; reflexivity | discriminate].
Qed.

(** ** Pre-flight *)

Lemma header_no_step c fvm : omap stepNumber (header c fvm) = [].
Proof. destruct fvm; vm_compute; reflexivity. Qed.

Lemma preflightEvents_observe c (w : World) :
  forallb isObservation (preflightEvents os c w) = true.
Proof.
  unfold preflightEvents.
  destruct (fvmFound os w), (flutterFound os w), (gitFound os w); reflexivity.
Qed.

Lemma violation_cases c (w : World) msg :
  violation os c w = Some msg ->
  (fvmFound os w = false /\ flutterFound os w = false /\ msg = noToolchainMsg)
  \/ ((fvmFound os w || flutterFound os w) = true /\ gitFound os w = false
      /\ msg = noGitMsg)
  \/ ((fvmFound os w || flutterFound os w) = true /\ gitFound os w = true
      /\ os_existsSync os (preflightWorld os w) (projectDir c) = true
      /\ msg = dirExistsMsg (projectDir c)).
Proof.
  unfold violation.
  destruct (fvmFound os w), (flutterFound os w), (gitFound os w);
    cbn [orb negb andb];
    try destruct (os_existsSync os (preflightWorld os w) (projectDir c));
    intros H; inversion H; subst; tauto.
Qed.

(** A pre-flight violation ends the handler: the failure text is built from
    the violated requirement and the header, and only observations were made. *)
Lemma violation_result (req : Request) (s0 : State World) msg :
  default false (dry_run req) = false ->
  violation os (context os req (world s0)) (world s0) = Some msg ->
  create_flutter_project os req s0
  = ({| isError := true;
        text := failureText (newError msg)
                  (header (context os req (world s0)) (fvmFound os (world s0))) |},
     {| world := preflightWorld os (world s0);
        useFvm := fvmFound os (world s0);
        log := header (context os req (world s0)) (fvmFound os (world s0));
        trace := trace s0 ++ preflightEvents os (context os req (world s0)) (world s0) |}).
Proof.
  intros Hdry Hv. unfold create_flutter_project.
  rewrite pipeline_precheck. unfold bind.
  rewrite precheck_spec by exact Hdry.
  cbn [world log trace useFvm]. rewrite Hv. reflexivity.
Qed.

Lemma violation_complete c (w : World) :
  preflightViolated os c w -> exists msg, violation os c w = Some msg.
Proof.
  unfold preflightViolated, violation.
  intros [Ht|[Hg|Hd]].
  - rewrite Ht. eauto.
  - rewrite Hg. destruct (fvmFound os w || flutterFound os w); eauto.
  - rewrite Hd. destruct (fvmFound os w || flutterFound os w), (gitFound os w); eauto.
Qed.

(** C2 (amended). In non-dry-run mode every pre-flight violation (no fvm and
    no flutter; no git; project directory present) aborts the handler before
    step 1: the result is an error whose text names the violated requirement,
    only probes and the directory check were performed, and the log holds the
    five header lines and no step line.  In particular a second run after a
    run that left the project directory behind, on a machine that still has
    the toolchain and git, fails with the directory-already-exists message. *)
Theorem preflight_violation_aborts (req : Request) :
  default false (dry_run req) = false ->
  (forall (s0 : State World),
     let c := context os req (world s0) in
     let w := world s0 in
     preflightViolated os c w ->
     let r := create_flutter_project os req s0 in
     exists msg,
       ((fvmFound os w = false /\ flutterFound os w = false /\ msg = noToolchainMsg)
        \/ ((fvmFound os w || flutterFound os w) = true /\ gitFound os w = false
            /\ msg = noGitMsg)
        \/ ((fvmFound os w || flutterFound os w) = true /\ gitFound os w = true
            /\ os_existsSync os (preflightWorld os w) (projectDir c) = true
            /\ msg = dirExistsMsg (projectDir c)))
       /\ isError (fst r) = true
       /\ text (fst r) = failureText (newError msg) (header c (fvmFound os w))
       /\ log (snd r) = header c (fvmFound os w)
       /\ omap stepNumber (log (snd r)) = []
       /\ trace (snd r) = trace s0 ++ preflightEvents os c w
       /\ forallb isObservation (preflightEvents os c w) = true)
  /\ (forall (s0 : State World),
        let s1 := snd (create_flutter_project os req s0) in
        let c := context os req (world s1) in
        let w := world s1 in
        (fvmFound os w || flutterFound os w) = true ->
        gitFound os w = true ->
        os_existsSync os (preflightWorld os w) (projectDir c) = true ->
        let r := create_flutter_project os req s1 in
        isError (fst r) = true
        /\ text (fst r)
           = failureText (newError (dirExistsMsg (projectDir c))) (header c (fvmFound os w))
        /\ log (snd r) = header c (fvmFound os w)
        /\ omap stepNumber (log (snd r)) = []).
Proof.
  intros Hdry. split.
  - intros s0 c w Hviol r. subst r.
    destruct (violation_complete c w Hviol) as (msg & Hv). exists msg.
    rewrite (violation_result req s0 msg Hdry Hv). cbn [fst snd isError text log trace].
    split; [exact (violation_cases c w msg Hv)|].
    split; [reflexivity|]. split; [reflexivity|]. split; [reflexivity|].
    split; [apply header_no_step|].
    split; [reflexivity|]. apply preflightEvents_observe.
  - intros s0 s1 c w Ht Hg Hd r. subst r.
    assert (violation os c w = Some (dirExistsMsg (projectDir c))) as Hv.
    { unfold violation. fold c w. rewrite Ht, Hg. cbn [negb]. now rewrite Hd. }
    rewrite (violation_result req s1 _ Hdry Hv). cbn [fst snd isError text log].
    split; [reflexivity|]. split; [reflexivity|]. split; [reflexivity|].
    apply header_no_step.
Qed.

(** ** System calls of a whole run *)

Section Emits.

Context (P : Event -> Prop).

Lemma emits_ret {A} (a : A) : emits P (ret (World := World) a).
Proof. intros s. exists []. cbn. now rewrite app_nil_r. Qed.

Lemma emits_throw {A} e : emits P (throw (World := World) (A := A) e).
Proof. intros s. exists []. cbn. now rewrite app_nil_r. Qed.

Lemma emits_push msg : emits P (push (World := World) msg).
Proof. intros s. exists []. cbn. now rewrite app_nil_r. Qed.

Lemma emits_getUseFvm : emits P (getUseFvm (World := World)).
Proof. intros s. exists []. cbn. now rewrite app_nil_r. Qed.

Lemma emits_bind {A B} (m : M World A) (k : A -> M World B) :
  emits P m -> (forall a, emits P (k a)) -> emits P (bind m k).
Proof.
  intros Hm Hk s. unfold bind. destruct (Hm s) as (t1 & E1 & F1).
  destruct (m s) as [[a|e] s1]; cbn [snd] in *.
  - destruct (Hk a s1) as (t2 & E2 & F2). exists (t1 ++ t2).
    rewrite E2, E1, <- app_assoc. split; [reflexivity|]. now apply Forall_app.
  - eauto.
Qed.

Lemma emits_tryCatch {A} (m : M World A) (h : JsError -> M World A) :
  emits P m -> (forall e, emits P (h e)) -> emits P (tryCatch m h).
Proof.
  intros Hm Hh s. unfold tryCatch. destruct (Hm s) as (t1 & E1 & F1).
  destruct (m s) as [[a|e] s1]; cbn [snd] in *.
  - eauto.
  - destruct (Hh e s1) as (t2 & E2 & F2). exists (t1 ++ t2).
    rewrite E2, E1, <- app_assoc. split; [reflexivity|]. now apply Forall_app.
Qed.

Lemma emits_execFileAsync command args cwd extraEnv :
  (forall ok, P (EvExec command args cwd extraEnv ok)) ->
  emits P (execFileAsync os command args cwd extraEnv).
Proof.
  intros HP s. unfold execFileAsync.
  destruct (os_execFile os (world s) command args cwd extraEnv) as [w [e|o]];
    eexists [_]; cbn; (split; [reflexivity|]); repeat constructor; apply HP.
Qed.

Lemma emits_run command args cwd extraEnv :
  (forall ok, P (EvExec command args cwd extraEnv ok)) ->
  emits P (run os command args cwd extraEnv).
Proof.
  intros HP. apply emits_tryCatch.
  - apply emits_bind; [now apply emits_execFileAsync|intros; apply emits_ret].
  - intros; apply emits_throw.
Qed.

Lemma emits_commandExists cmd :
  (forall found, P (probeEvent cmd found)) -> emits P (commandExists os cmd).
Proof.
  intros HP. apply emits_tryCatch.
  - apply emits_bind; [now apply emits_execFileAsync|intros; apply emits_ret].
  - intros; apply emits_ret.
Qed.

Lemma emits_existsSync path :
  (forall found, P (EvExists path found)) -> emits P (existsSync os path).
Proof.
  intros HP s. eexists [_]. cbn. split; [reflexivity|]. repeat constructor. apply HP.
Qed.

Lemma emits_mkdirSync path :
  (forall ok, P (EvMkdir path ok)) -> emits P (mkdirSync os path).
Proof.
  intros HP s. unfold mkdirSync.
  destruct (os_mkdirSync os (world s) path) as [w [e|]];
    eexists [_]; cbn; (split; [reflexivity|]); repeat constructor; apply HP.
Qed.

Lemma emits_writeFileSync path content :
  (forall ok, P (EvWriteFile path content ok)) -> emits P (writeFileSync os path content).
Proof.
  intros HP s. unfold writeFileSync.
  destruct (os_writeFileSync os (world s) path content) as [w [e|]];
    eexists [_]; cbn; (split; [reflexivity|]); repeat constructor; apply HP.
Qed.

Lemma emits_readFileSync path :
  (forall ok, P (EvReadFile path ok)) -> emits P (readFileSync os path).
Proof.
  intros HP s. unfold readFileSync.
  destruct (os_readFileSync os (world s) path) as [e|x];
    eexists [_]; cbn; (split; [reflexivity|]); repeat constructor; apply HP.
Qed.

Lemma emits_forEach {A} (l : list A) (body : A -> M World unit) :
  (forall x, emits P (body x)) -> emits P (forEach l body).
Proof.
  intros Hb. induction l as [|x l IH]; cbn [forEach].
  - apply emits_ret.
  - apply emits_bind; [apply Hb|intros _; exact IH].
Qed.

Lemma emits_sequence (ms : list (M World unit)) :
  Forall (emits P) ms -> emits P (sequence ms).
Proof.
  induction 1 as [|m ms Hm _ IH]; cbn [sequence].
  - apply emits_ret.
  - apply emits_bind; [exact Hm|intros _; exact IH].
Qed.

End Emits.

Lemma notFlutterProbe_exec command args cwd extraEnv ok :
  command <> js "which" -> notFlutterProbe (EvExec command args cwd extraEnv ok).
Proof. intros Hc found Heq. unfold probeEvent in Heq. congruence. Qed.

Lemma notFlutterProbe_probe cmd found :
  cmd <> js "flutter" -> notFlutterProbe (probeEvent cmd found).
Proof. intros Hc found' Heq. unfold probeEvent in Heq. congruence. Qed.

Lemma fvmCmd_not_which fvm cmd : cmd <> js "which" -> fvmCmd fvm cmd <> js "which".
Proof. destruct fvm; cbn; [intros _; vm_compute; discriminate|trivial]. Qed.

Ltac emits_step :=
  lazymatch goal with
  | |- emits _ (ret _) => apply emits_ret
  | |- emits _ (throw _) => apply emits_throw
  | |- emits _ (push _) => apply emits_push
  | |- emits _ getUseFvm => apply emits_getUseFvm
  | |- emits _ (bind _ _) => apply emits_bind; [|intros ?]
  | |- emits _ (run _ (fvmCmd _ _) _ _ _) =>
    apply emits_run; intros ?; apply notFlutterProbe_exec, fvmCmd_not_which;
    vm_compute; discriminate
  | |- emits _ (run _ _ _ _ _) =>
    apply emits_run; intros ?; apply notFlutterProbe_exec; vm_compute; discriminate
  | |- emits _ (commandExists _ _) =>
    apply emits_commandExists; intros ?; apply notFlutterProbe_probe;
    vm_compute; discriminate
  | |- emits _ (existsSync _ _) => apply emits_existsSync; intros ? ?; discriminate
  | |- emits _ (mkdirSync _ _) => apply emits_mkdirSync; intros ? ?; discriminate
  | |- emits _ (writeFileSync _ _ _) => apply emits_writeFileSync; intros ? ?; discriminate
  | |- emits _ (readFileSync _ _) => apply emits_readFileSync; intros ? ?; discriminate
  | |- emits _ (forEach _ _) => apply emits_forEach; intros ?
  | |- emits _ (if ?b then _ else _) => destruct b
  | |- emits _ (let _ := _ in _) => cbv zeta
  end.

(** After pre-flight no step probes for the flutter executable. *)
Lemma steps_no_flutter_probe c : Forall (emits notFlutterProbe) (steps os c).
Proof.
  unfold steps.
  do 11 (constructor;
         [ unfold step1, step2, step3, step4, step5, step6, step7, step8, step9,
             step10, step11, runInteractive; repeat emits_step | ]).
  constructor.
Qed.

Lemma afterPreflight_no_flutter_probe c : emits notFlutterProbe (afterPreflight os c).
Proof.
  unfold afterPreflight. apply emits_bind.
  - apply emits_sequence, steps_no_flutter_probe.
  - intros _. unfold done. repeat emits_step.
Qed.

Lemma preflightEvents_no_flutter_probe c (w : World) :
  fvmFound os w = true -> Forall notFlutterProbe (preflightEvents os c w).
Proof.
  intros Hf. unfold preflightEvents. rewrite Hf. cbn [orb andb app].
  destruct (gitFound os w); repeat constructor;
    try (apply notFlutterProbe_probe; vm_compute; discriminate);
    intros ? ?; discriminate.
Qed.

Lemma Throw_newError_inj {A} a b :
  Throw (A := A) (newError a) = Throw (newError b) -> a = b.
Proof.
  intros H. injection H as H. exact H.
Qed.

Lemma noGit_not_noToolchain : noGitMsg <> noToolchainMsg.
Proof. vm_compute. discriminate. Qed.

Lemma dirExists_not_noToolchain pd : dirExistsMsg pd <> noToolchainMsg.
Proof. unfold dirExistsMsg. vm_compute. discriminate. Qed.

(** C10. In non-dry-run mode the missing-toolchain error is raised by
    pre-flight exactly when the probe for fvm and the probe for flutter both
    fail.  When fvm is found, flutter is never probed, neither in pre-flight
    nor in any later step, and the toolchain check passes on the presence of
    fvm alone: before step 1 the handler only probes for fvm and git and looks
    for the project directory, and never runs fvm. *)
Theorem toolchain_preflight (req : Request) (s0 : State World) :
  default false (dry_run req) = false ->
  let c := context os req (world s0) in
  let w := world s0 in
  let p := precheck os c (entry s0) in
  let r := create_flutter_project os req s0 in
  (fst p = Throw (newError noToolchainMsg)
   <-> fvmFound os w = false /\ flutterFound os w = false)
  /\ (fvmFound os w = false -> flutterFound os w = false ->
      isError (fst r) = true
      /\ text (fst r) = failureText (newError noToolchainMsg) (header c false)
      /\ trace (snd r)
         = trace s0 ++ [ probeEvent (js "fvm") false;
                         probeEvent (js "git") (gitFound os w);
                         probeEvent (js "flutter") false ])
  /\ (fvmFound os w = true ->
      fst p <> Throw (newError noToolchainMsg)
      /\ trace (snd p)
         = trace s0
           ++ [ probeEvent (js "fvm") true; probeEvent (js "git") (gitFound os w) ]
           ++ (if gitFound os w
               then [EvExists (projectDir c)
                       (os_existsSync os (fst (gitProbe os w)) (projectDir c))]
               else [])
      /\ exists t, trace (snd r) = trace s0 ++ t /\ Forall notFlutterProbe t).
Proof.
  intros Hdry c w p r.
  assert (Hp : p = (match violation os c w with
                    | Some msg => Throw (newError msg)
                    | None => Ok tt
                    end,
                    {| world := preflightWorld os w; useFvm := fvmFound os w;
                       log := header c (fvmFound os w);
                       trace := trace s0 ++ preflightEvents os c w |})).
  { subst p. rewrite precheck_spec by exact Hdry. reflexivity. }
  assert (Hboth : fvmFound os w = false -> flutterFound os w = false ->
                  violation os c w = Some noToolchainMsg).
  { intros Hf Hl. unfold violation. now rewrite Hf, Hl. }
  split; [|split].
  - rewrite Hp. cbn [fst]. split.
    + destruct (violation os c w) as [msg|] eqn:Hv; [|discriminate].
      intros Heq. apply Throw_newError_inj in Heq. subst msg.
      destruct (violation_cases c w _ Hv)
        as [(Hf & Hl & _)|[(_ & _ & Hm)|(_ & _ & _ & Hm)]].
      * now split.
      * symmetry in Hm. now apply noGit_not_noToolchain in Hm.
      * symmetry in Hm. now apply dirExists_not_noToolchain in Hm.
    + intros [Hf Hl]. now rewrite (Hboth Hf Hl).
  - intros Hf Hl. subst r.
    rewrite (violation_result req s0 _ Hdry (Hboth Hf Hl)).
    cbn [fst snd isError text trace]. fold c w. rewrite Hf.
    split; [reflexivity|]. split; [reflexivity|].
    unfold preflightEvents. fold w. rewrite Hf, Hl. reflexivity.
  - intros Hf. split; [|split].
    + rewrite Hp. cbn [fst]. destruct (violation os c w) as [msg|] eqn:Hv; [|discriminate].
      intros Heq. apply Throw_newError_inj in Heq. subst msg.
      destruct (violation_cases c w _ Hv)
        as [(Hf' & _)|[(_ & _ & Hm)|(_ & _ & _ & Hm)]].
      * congruence.
      * symmetry in Hm. now apply noGit_not_noToolchain in Hm.
      * symmetry in Hm. now apply dirExists_not_noToolchain in Hm.
    + rewrite Hp. cbn [snd trace]. unfold preflightEvents, preflightWorld.
      rewrite Hf. cbn [orb andb app]. reflexivity.
    + subst r. unfold create_flutter_project. fold c.
      change {| world := world s0; useFvm := useFvm s0; log := []; trace := trace s0 |}
        with (entry s0).
      rewrite pipeline_precheck. unfold bind. fold p. rewrite Hp.
      pose proof (preflightEvents_no_flutter_probe c w Hf) as Hpre.
      destruct (violation os c w) as [msg|].
      * cbn [snd trace]. eauto.
      * destruct (afterPreflight_no_flutter_probe c
                    {| world := preflightWorld os w; useFvm := fvmFound os w;
                       log := header c (fvmFound os w);
                       trace := trace s0 ++ preflightEvents os c w |})
          as (t & Ht & HPt).
        cbn [trace] in Ht.
        destruct (afterPreflight os c _) as [[u|e] s2]; cbn [snd trace] in *;
          exists (preflightEvents os c w ++ t); rewrite Ht, <- app_assoc;
          (split; [reflexivity|now apply Forall_app]).
Qed.

(** ** Steps, when they succeed *)

Lemma bind_ext {A B} (m : M World A) (k k' : A -> M World B) (s : State World) :
  (forall a s1, k a s1 = k' a s1) -> bind m k s = bind m k' s.
Proof. intros H. unfold bind. destruct (m s) as [[a|e] s1]; [apply H|reflexivity]. Qed.

Lemma sequence_app (l1 l2 : list (M World unit)) (s : State World) :
  sequence (l1 ++ l2) s = bind (sequence l1) (fun _ => sequence l2) s.
Proof.
  revert s. induction l1 as [|m l1 IH]; intros s; [reflexivity|].
  cbn [app sequence]. rewrite bind_assoc. apply bind_ext. intros _ s1. apply IH.
Qed.

Lemma sequence_announces ks (ms : list (M World unit)) :
  Forall2 announces ks ms ->
  forall s s', sequence ms s = (Ok tt, s') ->
    exists lines, log s' = log s ++ lines /\ omap stepNumber lines = ks.
Proof.
  induction 1 as [|k m ks ms Hm _ IH]; intros s s' Hrun.
  - injection Hrun as <-. exists []. now rewrite app_nil_r.
  - cbn [sequence] in Hrun. unfold bind in Hrun.
    destruct (m s) as [[[]|e] s1] eqn:E; [|discriminate].
    destruct (Hm _ _ E) as (l1 & L1 & N1). destruct (IH _ _ Hrun) as (l2 & L2 & N2).
    exists (l1 ++ l2). rewrite L2, L1, <- app_assoc. split; [reflexivity|].
    now rewrite omap_app, N1, N2.
Qed.

(** Symbolic execution of a step that is known to succeed. *)
Ltac reach_os H :=
  cbv beta iota zeta in H;
  cbn [world useFvm log trace fst snd performed] in H.

Ltac run_os H :=
  reach_os H;
  repeat first
    [ discriminate H
    | progress unfold bind, ret, writeFileSync in H; reach_os H
    | rewrite run_spec in H; reach_os H
    | rewrite commandExists_probe in H; reach_os H
    | match type of H with
      | context [os_execFile ?o ?w ?c ?a ?d ?e] =>
        destruct (os_execFile o w c a d e) as [? [?|?]]; reach_os H
      | context [probe ?o ?w ?c] =>
        destruct (probe o w c) as [? []]; reach_os H
      | context [os_existsSync ?o ?w ?p] =>
        destruct (os_existsSync o w p); reach_os H
      | context [os_mkdirSync ?o ?w ?p] =>
        destruct (os_mkdirSync o w p) as [? [?|]]; reach_os H
      | context [os_writeFileSync ?o ?w ?p ?x] =>
        destruct (os_writeFileSync o w p x) as [? [?|]]; reach_os H
      | context [os_readFileSync ?o ?w ?p] =>
        destruct (os_readFileSync o w p) as [?|?]; reach_os H
      | context [if ?b then _ else _] => destruct b; reach_os H
      end ].

Ltac announced H :=
  apply (f_equal snd) in H; cbn [snd] in H; subst;
  cbn [log]; eexists; split;
  [ rewrite <- ?app_assoc; cbn [app]; reflexivity | vm_compute; reflexivity ].

Ltac announce_step :=
  let s := fresh "s" in let s' := fresh "s'" in let H := fresh "H" in
  intros s s' H;
  unfold step1, step2, step3, step4, step5, step6, step7, step8, step9, step10,
    step11, runInteractive, bind, push, getUseFvm, ret, throw, existsSync,
    mkdirSync, writeFileSync, readFileSync, forEach in H;
  run_os H; announced H.

Lemma step1_announces c : announces 1 (step1 os c).
Proof. announce_step. Qed.

Lemma step2_announces c : announces 2 (step2 os c).
Proof. announce_step. Qed.

Lemma step3_announces c : announces 3 (step3 os c).
Proof. announce_step. Qed.

Lemma step4_announces c : announces 4 (step4 os c).
Proof. announce_step. Qed.

Lemma step5_announces c : announces 5 (step5 os c).
Proof. announce_step. Qed.

Lemma step6_announces c : announces 6 (step6 os c).
Proof. announce_step. Qed.

Lemma step7_announces c : announces 7 (step7 os c).
Proof. announce_step. Qed.

Lemma step8_announces c : announces 8 (step8 os c).
Proof. announce_step. Qed.

Lemma step9_announces c : announces 9 (step9 os c).
Proof. announce_step. Qed.

Lemma step10_announces c : announces 10 (step10 os c).
Proof. announce_step. Qed.

Lemma step11_announces c : announces 11 (step11 os c).
Proof. announce_step. Qed.

(** Each step announces its own number: the log of a run that completes
    step [k] holds exactly the step lines 1 to [k], in order. *)
Lemma steps_announce c :
  Forall2 announces [1; 2; 3; 4; 5; 6; 7; 8; 9; 10; 11] (steps os c).
Proof.
  unfold steps. repeat constructor.
  - apply step1_announces.
  - apply step2_announces.
  - apply step3_announces.
  - apply step4_announces.
  - apply step5_announces.
  - apply step6_announces.
  - apply step7_announces.
  - apply step8_announces.
  - apply step9_announces.
  - apply step10_announces.
  - apply step11_announces.
Qed.

Lemma throughStep_log k c (s s' : State World) :
  dryRun c = false ->
  throughStep os k c s = (Ok tt, s') ->
  violation os c (world s) = None
  /\ exists lines,
       log s' = log s ++ header c (fvmFound os (world s)) ++ lines
       /\ omap stepNumber lines = take k [1; 2; 3; 4; 5; 6; 7; 8; 9; 10; 11].
Proof.
  intros Hdry Hrun. unfold throughStep, bind in Hrun.
  rewrite precheck_spec in Hrun by exact Hdry.
  destruct (violation os c (world s)); [discriminate|]. split; [reflexivity|].
  destruct (sequence_announces _ _ (Forall2_take _ _ _ k (steps_announce c)) _ _ Hrun)
    as (lines & Hl & Hn).
  cbn [log] in Hl. exists lines. now rewrite Hl, <- app_assoc.
Qed.

(** ** Step 6 *)

Lemma step6_missing c (s : State World) :
  dryRun c = false ->
  os_existsSync os (world s) (flavorizrPath os c) = false ->
  step6 os c s
  = (Throw (newError (flavorizrMissingMsg os c)),
     {| world := world s; useFvm := useFvm s;
        log := log s ++ [stepMsg 6 (js "Updating flavorizr.yaml")];
        trace := trace s ++ [EvExists (flavorizrPath os c) false] |}).
Proof.
  intros Hdry Hmiss. unfold step6, bind, push, existsSync. rewrite Hdry.
  cbv beta iota. cbn [world]. rewrite Hmiss. reflexivity.
Qed.

Lemma sequence_last (l : list (M World unit)) m (s s' : State World) :
  sequence (l ++ [m]) s = (Ok tt, s') -> exists s1, m s1 = (Ok tt, s').
Proof.
  rewrite sequence_app. unfold bind. destruct (sequence l s) as [[[]|e] s1]; [|discriminate].
  cbn [sequence]. unfold bind, ret. destruct (m s1) as [[[]|e] s2] eqn:E; [|discriminate].
  intros H. injection H as <-. eauto.
Qed.

Lemma step5_last c (s s' : State World) :
  step5 os c s = (Ok tt, s') -> last (log s') = Some (js "✔ Localisations generated").
Proof.
  intros H.
  unfold step5, bind, push, getUseFvm, ret in H.
  run_os H; apply (f_equal snd) in H; cbn [snd] in H; subst; cbn [log];
    apply last_snoc.
Qed.

Lemma bind_cong {A B} (m m' : M World A) (k : A -> M World B) (s : State World) :
  m s = m' s -> bind m k s = bind m' k s.
Proof. intros H. unfold bind. now rewrite H. Qed.

(** The handler is the run through step [k] followed by the other steps. *)
Lemma pipeline_throughStep k c (s : State World) :
  pipeline os c s
  = bind (throughStep os k c)
      (fun _ => bind (sequence (drop k (steps os c))) (fun _ => done c)) s.
Proof.
  rewrite pipeline_precheck. unfold throughStep. rewrite bind_assoc.
  apply bind_ext. intros _ s1. unfold afterPreflight.
  rewrite <- bind_assoc. apply bind_cong.
  rewrite <- sequence_app. now rewrite take_drop.
Qed.

(** C3 (amended). In non-dry-run mode, if flavorizr.yaml is absent from the
    project location when step 6 looks for it, the handler fails with the
    message that the descriptor was not found there.  The log holds the
    entries through the completion of step 5 followed by the start line of
    step 6, and nothing else; no system call follows the look-up, so no
    further step is performed. *)
Theorem descriptor_missing_aborts (req : Request) (s0 s5 : State World) :
  default false (dry_run req) = false ->
  let c := context os req (world s0) in
  throughStep os 5 c (entry s0) = (Ok tt, s5) ->
  os_existsSync os (world s5) (flavorizrPath os c) = false ->
  let r := create_flutter_project os req s0 in
  isError (fst r) = true
  /\ text (fst r) = failureText (newError (flavorizrMissingMsg os c)) (log (snd r))
  /\ log (snd r) = log s5 ++ [stepMsg 6 (js "Updating flavorizr.yaml")]
  /\ last (log s5) = Some (js "✔ Localisations generated")
  /\ omap stepNumber (log (snd r)) = [1; 2; 3; 4; 5; 6]
  /\ world (snd r) = world s5
  /\ trace (snd r) = trace s5 ++ [EvExists (flavorizrPath os c) false].
Proof.
  intros Hdry c H5 Hmiss r.
  assert (Hc : dryRun c = false) by exact Hdry.
  assert (Hr : r = ({| isError := true;
                       text := failureText (newError (flavorizrMissingMsg os c))
                                 (log s5 ++ [stepMsg 6 (js "Updating flavorizr.yaml")]) |},
                    {| world := world s5; useFvm := useFvm s5;
                       log := log s5 ++ [stepMsg 6 (js "Updating flavorizr.yaml")];
                       trace := trace s5 ++ [EvExists (flavorizrPath os c) false] |})).
  { subst r. unfold create_flutter_project. fold c.
    change {| world := world s0; useFvm := useFvm s0; log := []; trace := trace s0 |}
      with (entry s0).
    rewrite (pipeline_throughStep 5). unfold bind at 1. rewrite H5.
    change (drop 5 (steps os c)) with (step6 os c :: drop 6 (steps os c)).
    cbn [sequence]. unfold bind at 1 2. rewrite step6_missing by assumption.
    reflexivity. }
  rewrite Hr. cbn [fst snd isError text log world trace].
  split; [reflexivity|]. split; [reflexivity|]. split; [reflexivity|].
  split.
  { unfold throughStep, bind in H5.
    destruct (precheck os c (entry s0)) as [[[]|e] s1]; [|discriminate].
    change (take 5 (steps os c))
      with ([step1 os c; step2 os c; step3 os c; step4 os c] ++ [step5 os c]) in H5.
    destruct (sequence_last _ _ _ _ H5) as (s4 & H4).
    exact (step5_last _ _ _ H4). }
  split; [|split; reflexivity].
  destruct (throughStep_log 5 c _ _ Hc H5) as (_ & lines & Hl & Hn).
  cbn [log entry app] in Hl. rewrite Hl, !omap_app, header_no_step, Hn.
  vm_compute. reflexivity.
Qed.

(** ** Step 11 *)



(** With the build script present, step 11 throws only what [readFileSync] or
    [writeFileSync] throws. *)
Lemma step11_throws c (s s' : State World) e :
  dryRun c = false ->
  os_existsSync os (world s) (gradlePath os c) = true ->
  step11 os c s = (Throw e, s') ->
  os_readFileSync os (world s) (gradlePath os c) = inl e
  \/ exists gradle,
       os_readFileSync os (world s) (gradlePath os c) = inr gradle
       /\ (snd (os_writeFileSync os (world s) (gradlePath os c) (patchGradle gradle)) = Some e
           \/ snd (os_writeFileSync os
                     (fst (os_writeFileSync os (world s) (gradlePath os c) (patchGradle gradle)))
                     (proguardPath os c) proguardContent) = Some e).
Proof.
  intros Hdry Hex H.
  unfold step11, bind, push, existsSync, readFileSync, writeFileSync in H.
  rewrite Hdry in H. cbv beta iota zeta in H. cbn [world performed] in H.
  rewrite Hex in H. cbv beta iota in H. cbn [world performed negb] in H.
  destruct (os_readFileSync os (world s) (gradlePath os c)) as [e1|gradle].
  - injection H as -> _. now left.
  - right. exists gradle. split; [reflexivity|].
    cbv beta iota in H. cbn [world performed] in H. fold (patchGradle gradle) in H.
    destruct (os_writeFileSync os (world s) (gradlePath os c) (patchGradle gradle))
      as [w1 [e1|]].
    + injection H as -> _. now left.
    + cbv beta iota in H. cbn [world performed log fst snd] in *.
      destruct (os_writeFileSync os w1 (proguardPath os c) proguardContent) as [w2 [e2|]].
      * injection H as -> _. now right.
      * discriminate H.
Qed.

(** C9 (amended). With the build script present, step 11 fails exactly when
    reading the script or writing one of the two files fails, and then with
    the error of that call; it has no failure of its own, whatever the text
    of the script.  A sub-edit whose pattern matches nowhere returns the text
    as it is.  Whenever the script is read, the text written back is the
    edited text, which ends with the dependency block, and whenever that
    write succeeds the rules file is written next, whichever sub-edits
    matched. *)
Theorem build_patch_fails_only_on_io (c : Ctx) (s : State World) :
  dryRun c = false ->
  os_existsSync os (world s) (gradlePath os c) = true ->
  (forall gradle,
     matchesNowhere matchCompileOptions gradle = true ->
     patchCompileOptions gradle = gradle)
  /\ (forall gradle,
        matchesNowhere matchBuildTypes gradle = true ->
        patchBuildTypes gradle = gradle)
  /\ (forall gradle,
        matchesNowhere matchCompileOptions gradle = true ->
        matchesNowhere matchBuildTypes gradle = true ->
        patchGradle gradle = trimEnd gradle ++ dependenciesBlock)
  /\ (forall gradle, exists p, patchGradle gradle = p ++ dependenciesBlock)
  /\ (startsWith (nl ++ nl ++ js "dependencies {" ++ nl) dependenciesBlock = true
      /\ includes (js "    implementation(" ++ dq ++ js "com.huawei.hms:push:6.11.0.300"
                   ++ dq ++ js ")" ++ nl) dependenciesBlock = true
      /\ includes (js "    implementation(" ++ dq ++ js "androidx.multidex:multidex:2.0.1"
                   ++ dq ++ js ")" ++ nl) dependenciesBlock = true
      /\ includes (js "    coreLibraryDesugaring(" ++ dq
                   ++ js "com.android.tools:desugar_jdk_libs:2.1.4" ++ dq ++ js ")" ++ nl)
           dependenciesBlock = true
      /\ endsWith (js ")" ++ nl ++ js "}" ++ nl) dependenciesBlock = true
      /\ length (split 10 dependenciesBlock) = 8%nat)
  /\ match os_readFileSync os (world s) (gradlePath os c) with
     | inl e =>
       fst (step11 os c s) = Throw e
       /\ trace (snd (step11 os c s))
          = trace s ++ [ EvExists (gradlePath os c) true;
                         EvReadFile (gradlePath os c) false ]
     | inr gradle =>
       match os_writeFileSync os (world s) (gradlePath os c) (patchGradle gradle) with
       | (w1, Some e) =>
         fst (step11 os c s) = Throw e
         /\ trace (snd (step11 os c s))
            = trace s ++ [ EvExists (gradlePath os c) true;
                           EvReadFile (gradlePath os c) true;
                           EvWriteFile (gradlePath os c) (patchGradle gradle) false ]
       | (w1, None) =>
         match os_writeFileSync os w1 (proguardPath os c) proguardContent with
         | (w2, Some e) =>
           fst (step11 os c s) = Throw e
           /\ trace (snd (step11 os c s))
              = trace s ++ [ EvExists (gradlePath os c) true;
                             EvReadFile (gradlePath os c) true;
                             EvWriteFile (gradlePath os c) (patchGradle gradle) true;
                             EvWriteFile (proguardPath os c) proguardContent false ]
         | (w2, None) =>
           fst (step11 os c s) = Ok tt
           /\ trace (snd (step11 os c s))
              = trace s ++ [ EvExists (gradlePath os c) true;
                             EvReadFile (gradlePath os c) true;
                             EvWriteFile (gradlePath os c) (patchGradle gradle) true;
                             EvWriteFile (proguardPath os c) proguardContent true ]
         end
       end
     end.
Proof.
  intros Hdry Hex. split; [|split; [|split; [|split; [|split]]]].
  - intros gradle. apply replaceFirst_nowhere.
  - intros gradle. apply replaceFirst_nowhere.
  - intros gradle Ha Hb. unfold patchGradle, appendDependencies.
    unfold patchCompileOptions at 1. rewrite (replaceFirst_nowhere _ _ _ Ha).
    unfold patchBuildTypes. now rewrite (replaceFirst_nowhere _ _ _ Hb).
  - apply patchGradle_ends.
  - vm_compute. repeat split.
  - unfold step11, bind, push, existsSync, readFileSync, writeFileSync. rewrite Hdry.
    cbv beta iota zeta. cbn [world performed]. rewrite Hex. cbv beta iota.
    cbn [world performed negb fst snd trace].
    destruct (os_readFileSync os (world s) (gradlePath os c)) as [e|gradle].
    + cbv beta iota. cbn [fst snd trace performed]. rewrite <- !app_assoc.
      split; reflexivity.
    + cbv beta iota. cbn [world performed fst snd]. fold (patchGradle gradle).
      destruct (os_writeFileSync os (world s) (gradlePath os c) (patchGradle gradle))
        as [w1 [e|]].
      * cbv beta iota. cbn [fst snd trace performed]. rewrite <- !app_assoc.
        split; reflexivity.
      * cbv beta iota. cbn [world performed log fst snd].
        destruct (os_writeFileSync os w1 (proguardPath os c) proguardContent)
          as [w2 [e|]]; cbv beta iota; cbn [fst snd trace performed];
          rewrite <- !app_assoc; split; reflexivity.
Qed.


(** ** The interactive executor *)

(** What the source decides about [runInteractive]: it looks for expect;
    when expect is found it runs [expect -c script] in the working directory
    without extra environment, the script being the nine lines below around
    the quoted command line; when expect is not found it runs the command
    itself with exactly the variables CI=true and TERM=dumb added.  It fails
    exactly when the process it started fails.  What the session then does
    with the script is expect's business and not stated here. *)
Lemma runInteractive_strategies (command : jsstring) (args : list jsstring)
  (cwd : option jsstring) (s : State World) :
  let found := snd (probe os (world s) (js "expect")) in
  let r := runInteractive os command args cwd s in
  (exists ok,
     trace (snd r)
     = trace s
       ++ [ probeEvent (js "expect") found;
            if found
            then EvExec (js "expect") [js "-c"; expectScript (fullCmd command args)] cwd [] ok
            else EvExec command args cwd [(js "CI", js "true"); (js "TERM", js "dumb")] ok ]
     /\ (ok = true <-> exists out, fst r = Ok out))
  /\ expectScript (fullCmd command args)
     = join nl
         [ js "set timeout 300";
           js "spawn " ++ fullCmd command args;
           js "expect {";
           js "  -re {\(Y/n\)|\(y/N\)|\[Y/n\]|\[y/N\]|proceed} { send "
             ++ dq ++ js "y\r" ++ dq ++ js "; exp_continue }";
           js "  timeout { exit 1 }";
           js "  eof";
           js "}";
           js "lassign [wait] pid spawnid os_error_flag value";
           js "exit $value" ].
Proof.
  intros found r. split.
  - subst r found. unfold runInteractive, bind. rewrite commandExists_probe.
    destruct (probe os (world s) (js "expect")) as [w1 found].
    cbn [fst snd]. destruct found; rewrite run_spec; cbn [world performed].
    + destruct (os_execFile os w1 (js "expect") _ cwd []) as [w2 [e|o]];
        [exists false|exists true]; unfold performed; cbn [fst snd trace];
        (split; [now rewrite <- app_assoc|]); split;
        first [discriminate | intros [? ?]; discriminate | eauto].
    + destruct (os_execFile os w1 command args cwd _) as [w2 [e|o]];
        [exists false|exists true]; unfold performed; cbn [fst snd trace];
        (split; [now rewrite <- app_assoc|]); split;
        first [discriminate | intros [? ?]; discriminate | eauto].
  - reflexivity.
Qed.

End PipelineFacts.

(** ** Runs on the model machine *)

Lemma dry_run_simulates_witness :
  let r := create_flutter_project Machine.os Machine.dryLogistics
             (Machine.start Machine.fresh) in
  isError (fst r) = false
  /\ trace (snd r)
     = trace (Machine.start Machine.fresh)
       ++ [ probeEvent (js "fvm") (fvmFound Machine.os Machine.fresh);
            probeEvent (js "git") (gitFound Machine.os Machine.fresh) ]
  /\ world (snd r) = fst (gitProbe Machine.os Machine.fresh)
  /\ omap stepNumber (log (snd r)) = [1; 2; 3; 4; 5; 6; 7; 8; 9; 10; 11]
  /\ omap labelledStep (log (snd r)) = [1; 2; 3; 4; 5; 6; 7; 8; 9; 10; 11]
  /\ last (log (snd r)) = Some dryRunMarker
  /\ last (log (snd r))
     = Some (nl ++ js "── Dry run complete! No changes were made. ──")
  /\ text (fst r) = join nl (log (snd r))
  /\ (exists p, text (fst r) = p ++ nl ++ dryRunMarker)
  /\ includes (js "No changes were made") dryRunMarker = true.
Proof.
  exact (dry_run_simulates Machine.os Machine.dryLogistics
           (Machine.start Machine.fresh) eq_refl).
Defined.

(** The end-to-end dry run of the specification: name logistics_app, org
    mu.mt. *)
Example dry_run_logistics :
  let r := create_flutter_project Machine.os Machine.dryLogistics
             (Machine.start Machine.fresh) in
  world (snd r) = Machine.fresh
  /\ log (snd r)
     = [ js "Project:  logistics_app";
         js "Org:      mu.mt";
         js "Template: https://bitbucket.org/mtinnovation/flutter_clean_template_2025";
         js "Location: /work/logistics_app";
         js "Runner:   fvm";
         js "Mode:     DRY RUN" ++ nl;
         js "[pre-flight] Would verify: flutter/fvm, git installed; /work/logistics_app does not exist";
         js "[1/11] Installing app_starter_plus";
         js "  [dry-run] fvm dart pub global activate app_starter_plus";
         js "✔ app_starter_plus ready";
         js "[2/11] Cloning template into logistics_app";
         js "  [dry-run] fvm dart pub global run app_starter_plus:app_starter_plus --name logistics_app --org mu.mt --template https://bitbucket.org/mtinnovation/flutter_clean_template_2025 --fvm";
         js "✔ Template cloned";
         js "[3/11] Initialising Git repository";
         js "  [dry-run] git init (if .git/ does not exist)";
         js "  [dry-run] git config core.hooksPath .githooks/ (if .githooks/ exists)";
         js "[4/11] Installing Flutter dependencies";
         js "  [dry-run] fvm flutter pub get";
         js "✔ Dependencies installed";
         js "[5/11] Generating localisations";
         js "  [dry-run] fvm flutter gen-l10n";
         js "✔ Localisations generated";
         js "[6/11] Updating flavorizr.yaml";
         js "  [dry-run] Update flavorizr.yaml with project name & org";
         js "✔ flavorizr.yaml updated";
         js "[7/11] Committing all files before flavorizr";
         js "  [dry-run] git add -A && git commit";
         js "✔ All files committed";
         js "[8/11] Generating flavors (flavorizr)";
         js "  [dry-run] fvm flutter pub run flutter_flavorizr";
         js "  [dry-run] (will use expect for PTY allocation)";
         js "✔ Flavors generated";
         js "[9/11] Reverting main.dart & app.dart (overwritten by flavorizr)";
         js "  [dry-run] git checkout -- lib/main.dart lib/app.dart";
         js "✔ main.dart & app.dart reverted";
         js "[10/11] Creating config files";
         js "  [dry-run] mkdir -p config";
         js "  [dry-run] Write config/app_config_{dev,prod,uat}.json";
         js "✔ Config files created (config/app_config_{dev,prod,uat}.json)";
         js "[11/11] Configuring Android build (desugaring, HMS, ProGuard)";
         js "  [dry-run] Patch android/app/build.gradle.kts (compileOptions, buildTypes, dependencies)";
         js "  [dry-run] Create android/app/proguard-rules.pro";
         nl ++ js "── Dry run complete! No changes were made. ──" ].
Proof. vm_compute. split; reflexivity. Qed.

(** A complete run on the developer machine creates the project files. *)
Example run_logistics :
  let r := create_flutter_project Machine.os Machine.logistics
             (Machine.start Machine.fresh) in
  isError (fst r) = false
  /\ omap stepNumber (log (snd r)) = [1; 2; 3; 4; 5; 6; 7; 8; 9; 10; 11]
  /\ Machine.files (world (snd r)) !! js "/work/logistics_app/android/app/build.gradle.kts"
     = Some (patchGradle Machine.templateGradle)
  /\ Machine.files (world (snd r)) !! js "/work/logistics_app/android/app/proguard-rules.pro"
     = Some proguardContent
  /\ Machine.files (world (snd r)) !! js "/work/logistics_app/config/app_config_uat.json"
     = Some (configJson (js "uat") ++ nl)
  /\ Machine.files (world (snd r)) !! js "/work/logistics_app/flavorizr.yaml"
     = Some (flavorizrContent (js "Logistics App") (js "mu.mt") (js "logisticsapp")).
Proof. vm_compute. repeat split; reflexivity. Qed.

Lemma preflight_violation_aborts_witness :
  (let r := create_flutter_project Machine.os Machine.logistics
              (Machine.start Machine.bare) in
   exists msg,
     msg = noToolchainMsg
     /\ isError (fst r) = true
     /\ text (fst r)
        = failureText (newError msg)
            (header (context Machine.os Machine.logistics Machine.bare) false)
     /\ omap stepNumber (log (snd r)) = [])
  /\ (let s1 := snd (create_flutter_project Machine.os Machine.logistics
                       (Machine.start Machine.fresh)) in
      let r := create_flutter_project Machine.os Machine.logistics s1 in
      isError (fst r) = true
      /\ text (fst r)
         = failureText (newError (dirExistsMsg (js "/work/logistics_app")))
             (header (context Machine.os Machine.logistics (world s1)) true)
      /\ omap stepNumber (log (snd r)) = []).
Proof.
  destruct (preflight_violation_aborts Machine.os Machine.logistics eq_refl) as [H1 H2].
  split.
  - destruct (H1 (Machine.start Machine.bare))
      as (msg & Hm & Ha & Hb & _ & Hc & _).
    + left. vm_compute. reflexivity.
    + exists msg. split.
      * destruct Hm as [(_ & _ & Hm)|[(Ht & _)|(Ht & _)]];
          [exact Hm|vm_compute in Ht; discriminate Ht|vm_compute in Ht; discriminate Ht].
      * repeat split; assumption.
  - destruct (H2 (Machine.start Machine.fresh)) as (Ha & Hb & _ & Hc).
    + vm_compute. reflexivity.
    + vm_compute. reflexivity.
    + vm_compute. reflexivity.
    + repeat split; assumption.
Defined.

(** C2, as the specification words it, fails: after a pre-flight violation
    the log is not empty.  On the machine without a Flutter toolchain the
    handler fails in pre-flight and its log holds the five header lines. *)
Lemma preflight_log_not_empty :
  ~ (forall (World : Type) (os : OS World) (req : Request) (s0 : State World),
       default false (dry_run req) = false ->
       preflightViolated os (context os req (world s0)) (world s0) ->
       log (snd (create_flutter_project os req s0)) = []).
Proof.
  intros H.
  specialize (H _ Machine.os Machine.logistics (Machine.start Machine.bare) eq_refl).
  assert (length (log (snd (create_flutter_project Machine.os Machine.logistics
                              (Machine.start Machine.bare)))) = length (@nil jsstring))
    as Hlen by (f_equal; apply H; left; vm_compute; reflexivity).
  vm_compute in Hlen. discriminate Hlen.
Qed.

Example second_run_fails :
  let s1 := snd (create_flutter_project Machine.os Machine.logistics
                   (Machine.start Machine.fresh)) in
  let r := create_flutter_project Machine.os Machine.logistics s1 in
  isError (fst r) = true
  /\ log (snd r)
     = [ js "Project:  logistics_app";
         js "Org:      mu.mt";
         js "Template: https://bitbucket.org/mtinnovation/flutter_clean_template_2025";
         js "Location: /work/logistics_app";
         js "Runner:   fvm" ]
  /\ text (fst r)
     = join nl
         [ js "❌ Setup failed:";
           js "Directory '/work/logistics_app' already exists. Remove it or choose a different name.";
           [];
           js "Progress so far:";
           js "Project:  logistics_app";
           js "Org:      mu.mt";
           js "Template: https://bitbucket.org/mtinnovation/flutter_clean_template_2025";
           js "Location: /work/logistics_app";
           js "Runner:   fvm" ].
Proof. vm_compute. repeat split; reflexivity. Qed.

Lemma descriptor_missing_aborts_witness :
  let s0 := Machine.start Machine.noDescriptor in
  let c := context Machine.os Machine.logistics Machine.noDescriptor in
  let s5 := snd (throughStep Machine.os 5 c (entry s0)) in
  let r := create_flutter_project Machine.os Machine.logistics s0 in
  isError (fst r) = true
  /\ text (fst r)
     = failureText (newError (flavorizrMissingMsg Machine.os c)) (log (snd r))
  /\ log (snd r) = log s5 ++ [stepMsg 6 (js "Updating flavorizr.yaml")]
  /\ last (log s5) = Some (js "✔ Localisations generated")
  /\ omap stepNumber (log (snd r)) = [1; 2; 3; 4; 5; 6]
  /\ world (snd r) = world s5
  /\ trace (snd r) = trace s5 ++ [EvExists (flavorizrPath Machine.os c) false].
Proof.
  intros s0 c s5.
  apply (descriptor_missing_aborts Machine.os Machine.logistics s0 s5 eq_refl).
  - vm_compute. reflexivity.
  - vm_compute. reflexivity.
Defined.

Example descriptor_missing_log :
  let r := create_flutter_project Machine.os Machine.logistics
             (Machine.start Machine.noDescriptor) in
  log (snd r)
  = [ js "Project:  logistics_app";
      js "Org:      mu.mt";
      js "Template: https://bitbucket.org/mtinnovation/flutter_clean_template_2025";
      js "Location: /work/logistics_app";
      js "Runner:   fvm";
      js "[1/11] Installing app_starter_plus";
      js "✔ app_starter_plus ready";
      js "[2/11] Cloning template into logistics_app";
      js "✔ Template cloned";
      js "[3/11] Initialising Git repository";
      js "✔ Git repository initialised";
      js "⚠ No .githooks/ directory found — skipping hook setup";
      js "[4/11] Installing Flutter dependencies";
      js "✔ Dependencies installed";
      js "[5/11] Generating localisations";
      js "✔ Localisations generated";
      js "[6/11] Updating flavorizr.yaml" ].
Proof. vm_compute. reflexivity. Qed.

(** C3, as the specification words it, fails: the returned log does not stop
    at the completion of step 5.  On the machine whose template has no
    flavor descriptor the log ends with the start line of step 6. *)
Lemma log_reaches_step6 :
  ~ (forall (World : Type) (os : OS World) (req : Request) (s0 s5 : State World),
       default false (dry_run req) = false ->
       throughStep os 5 (context os req (world s0)) (entry s0) = (Ok tt, s5) ->
       os_existsSync os (world s5) (flavorizrPath os (context os req (world s0))) = false ->
       log (snd (create_flutter_project os req s0)) = log s5).
Proof.
  intros H.
  pose (s0 := Machine.start Machine.noDescriptor).
  pose (s5 := snd (throughStep Machine.os 5
                     (context Machine.os Machine.logistics Machine.noDescriptor)
                     (entry s0))).
  specialize (H _ Machine.os Machine.logistics s0 s5 eq_refl).
  assert (length (log (snd (create_flutter_project Machine.os Machine.logistics s0)))
          = length (log s5)) as Hlen
    by (f_equal; apply H; vm_compute; reflexivity).
  vm_compute in Hlen. discriminate Hlen.
Qed.

Example interactive_with_expect :
  let r := runInteractive Machine.os (js "fvm")
             [js "flutter"; js "pub"; js "run"; js "flutter_flavorizr"]
             (Some (js "/work/logistics_app")) (Machine.start Machine.fresh) in
  trace (snd r)
  = [ probeEvent (js "expect") true;
      EvExec (js "expect")
        [ js "-c";
          join nl
            [ js "set timeout 300";
              js "spawn fvm flutter pub run flutter_flavorizr";
              js "expect {";
              expectPatternLine;
              js "  timeout { exit 1 }";
              js "  eof";
              js "}";
              js "lassign [wait] pid spawnid os_error_flag value";
              js "exit $value" ] ]
        (Some (js "/work/logistics_app")) [] true ].
Proof. vm_compute. reflexivity. Qed.

Example interactive_without_expect :
  let r := runInteractive Machine.os (js "flutter")
             [js "pub"; js "run"; js "flutter_flavorizr"]
             (Some (js "/work/logistics_app")) (Machine.start Machine.plain) in
  trace (snd r)
  = [ probeEvent (js "expect") false;
      EvExec (js "flutter") [js "pub"; js "run"; js "flutter_flavorizr"]
        (Some (js "/work/logistics_app"))
        [(js "CI", js "true"); (js "TERM", js "dumb")] true ].
Proof. vm_compute. reflexivity. Qed.


Lemma build_patch_fails_only_on_io_witness :
  (let s := Machine.start Machine.scaffolded in
   let c := context Machine.os Machine.logistics Machine.scaffolded in
   fst (step11 Machine.os c s) = Ok tt)
  /\ (let s := Machine.start plainScript in
      let c := context Machine.os Machine.logistics plainScript in
      patchCompileOptions (js "plugins { }" ++ nl) = js "plugins { }" ++ nl
      /\ patchBuildTypes (js "plugins { }" ++ nl) = js "plugins { }" ++ nl
      /\ fst (step11 Machine.os c s) = Ok tt
      /\ trace (snd (step11 Machine.os c s))
         = trace s ++ [ EvExists (gradlePath Machine.os c) true;
                        EvReadFile (gradlePath Machine.os c) true;
                        EvWriteFile (gradlePath Machine.os c)
                          (js "plugins { }" ++ dependenciesBlock) true;
                        EvWriteFile (proguardPath Machine.os c) proguardContent true ]).
Proof.
  split.
  - intros s c.
    destruct (build_patch_fails_only_on_io Machine.os c s) as (_ & _ & _ & _ & _ & Hrun).
    + vm_compute. reflexivity.
    + vm_compute. reflexivity.
    + exact (proj1 Hrun).
  - intros s c.
    destruct (build_patch_fails_only_on_io Machine.os c s)
      as (Ha & Hb & Hab & _ & _ & Hrun).
    + vm_compute. reflexivity.
    + vm_compute. reflexivity.
    + split; [|split; [|split]].
      * apply Ha. vm_compute. reflexivity.
      * apply Hb. vm_compute. reflexivity.
      * exact (proj1 Hrun).
      * rewrite (proj2 Hrun). vm_compute. reflexivity.
Defined.

(** C9, as it is worded, fails: the build script exists and can be read, and
    step 11 fails all the same, because the file system refuses the write.
    Nothing in step 11 catches what [writeFileSync] throws. *)
Lemma step11_fails_with_script_present :
  let s := Machine.start Machine.scaffolded in
  let c := context readOnlyOs Machine.logistics Machine.scaffolded in
  dryRun c = false
  /\ os_existsSync readOnlyOs (world s) (gradlePath readOnlyOs c) = true
  /\ os_readFileSync readOnlyOs (world s) (gradlePath readOnlyOs c)
     = inr Machine.templateGradle
  /\ fst (step11 readOnlyOs c s)
     = Throw (readOnlyError (js "/work/logistics_app/android/app/build.gradle.kts"))
  /\ trace (snd (step11 readOnlyOs c s))
     = [ EvExists (js "/work/logistics_app/android/app/build.gradle.kts") true;
         EvReadFile (js "/work/logistics_app/android/app/build.gradle.kts") true;
         EvWriteFile (js "/work/logistics_app/android/app/build.gradle.kts")
           (patchGradle Machine.templateGradle) false ].
Proof. vm_compute. repeat split. Qed.

(** A build script without the two blocks: both sub-edits leave it as it is
    and the dependency block is appended all the same. *)
Example patch_without_blocks :
  patchGradle (js "plugins { }" ++ nl) = js "plugins { }" ++ dependenciesBlock.
Proof. vm_compute. reflexivity. Qed.

Lemma toolchain_preflight_witness :
  (let r := create_flutter_project Machine.os Machine.logistics
              (Machine.start Machine.bare) in
   isError (fst r) = true
   /\ text (fst r)
      = failureText (newError noToolchainMsg)
          (header (context Machine.os Machine.logistics Machine.bare) false)
   /\ trace (snd r)
      = [ probeEvent (js "fvm") false; probeEvent (js "git") true;
          probeEvent (js "flutter") false ])
  /\ (let r := create_flutter_project Machine.os Machine.logistics
                 (Machine.start Machine.fresh) in
      exists t, trace (snd r) = t /\ Forall notFlutterProbe t).
Proof.
  split.
  - destruct (toolchain_preflight Machine.os Machine.logistics
                (Machine.start Machine.bare) eq_refl) as (_ & H & _).
    apply H; vm_compute; reflexivity.
  - destruct (toolchain_preflight Machine.os Machine.logistics
                (Machine.start Machine.fresh) eq_refl) as (_ & _ & H).
    destruct H as (_ & _ & t & Ht & HP); [vm_compute; reflexivity|].
    exists t. split; [exact Ht|exact HP].
Defined.

(** * Further properties *)

(** ** Derived names, continued *)

Lemma toAppId_app a b : toAppId (a ++ b) = toAppId a ++ toAppId b.
Proof. unfold toAppId, replaceAllUnit. apply flat_map_app. Qed.

Lemma toAppId_no_underscore s : ~ In 95 (toAppId s).
Proof.
  rewrite toAppId_filter. intros H. apply filter_In in H as [_ H].
  now rewrite N.eqb_refl in H.
Qed.

(** X1. The application identifier ignores underscores: inserting one anywhere
    in a name leaves the identifier unchanged, so distinct project names can
    share an identifier.  The identifier never holds an underscore and
    stripping is idempotent. *)
Theorem toAppId_ignores_underscores (a b : jsstring) :
  toAppId (a ++ js "_" ++ b) = toAppId (a ++ b)
  /\ ~ In 95 (toAppId (a ++ b))
  /\ toAppId (toAppId (a ++ b)) = toAppId (a ++ b).
Proof.
  split; [|split].
  - now rewrite !toAppId_app.
  - apply toAppId_no_underscore.
  - rewrite !toAppId_filter. induction (a ++ b) as [|c s IH]; [reflexivity|].
    cbn [List.filter]. destruct (c =? 95) eqn:E; cbn [negb]; [exact IH|].
    cbn [List.filter]. rewrite E. cbn [negb]. now rewrite IH.
Qed.

Lemma displayNameSpec_back b s :
  forallb isNameUnit s = true -> packageOfDisplay (displayNameSpec b s) = s.
Proof.
  revert b. induction s as [|c s IH]; intros b Hs; [reflexivity|].
  cbn [forallb] in Hs. apply andb_true_iff in Hs as [Hc Hs].
  cbn [displayNameSpec]. destruct (N.eqb_spec c 95) as [->|Hu].
  - cbn. f_equal. now apply IH.
  - unfold packageOfDisplay in *. cbn [List.map]. rewrite IH by exact Hs. f_equal.
    unfold isNameUnit, isLower, isDigit in Hc. unfold upperUnit, lowerUnit.
    destruct b.
    + destruct ((97 <=? c) && (c <=? 122)) eqn:El.
      * apply andb_true_iff in El as [E1 E2]. apply N.leb_le in E1, E2.
        replace (c - 32 =? 32) with false by (symmetry; apply N.eqb_neq; lia).
        replace ((65 <=? c - 32) && (c - 32 <=? 90)) with true
          by (symmetry; apply andb_true_iff; split; apply N.leb_le; lia).
        lia.
      * cbn [orb] in Hc. apply orb_true_iff in Hc as [Hd|He].
        -- apply andb_true_iff in Hd as [E1 E2]. apply N.leb_le in E1, E2.
           replace (c =? 32) with false by (symmetry; apply N.eqb_neq; lia).
           replace ((65 <=? c) && (c <=? 90)) with false; [reflexivity|].
           symmetry. apply andb_false_iff. left. apply N.leb_gt. lia.
        -- apply N.eqb_eq in He. contradiction.
    + assert (c <> 32 /\ ~ (65 <= c <= 90)) as [H32 Hup].
      { apply orb_true_iff in Hc as [Hc|He].
        - apply orb_true_iff in Hc as [Hl|Hd];
            apply andb_true_iff in Hl || apply andb_true_iff in Hd;
            [destruct Hl as [E1 E2]|destruct Hd as [E1 E2]];
            apply N.leb_le in E1, E2; lia.
        - apply N.eqb_eq in He. contradiction. }
      replace (c =? 32) with false by (symmetry; apply N.eqb_neq; lia).
      replace ((65 <=? c) && (c <=? 90)) with false; [reflexivity|].
      symmetry. apply andb_false_iff.
      destruct (N.leb_spec 65 c); [right; apply N.leb_gt; lia|now left].
Qed.

Lemma displayNameSpec_no_underscore b s : ~ In 95 (displayNameSpec b s).
Proof.
  revert b. induction s as [|c s IH]; intros b; [intros []|].
  cbn [displayNameSpec]. destruct (N.eqb_spec c 95) as [->|Hu].
  - intros [H|H]; [discriminate|now apply IH in H].
  - intros [H|H]; [|now apply IH in H].
    unfold upperUnit in H. destruct b; [|congruence].
    destruct ((97 <=? c) && (c <=? 122)) eqn:El; [|congruence].
    apply andb_true_iff in El as [E1 E2]. apply N.leb_le in E1, E2. lia.
Qed.

(** X2. For a name of the accepted shape the display name determines the
    name: putting underscores back for spaces and lower-casing the letters
    returns the package name, so distinct accepted names have distinct display
    names.  A display name never holds an underscore. *)
Theorem toDisplayName_round_trip (pkg : jsstring) :
  DART_PACKAGE_NAME_RE pkg = true ->
  packageOfDisplay (toDisplayName pkg) = pkg
  /\ ~ In 95 (toDisplayName pkg)
  /\ (forall other, DART_PACKAGE_NAME_RE other = true ->
        toDisplayName other = toDisplayName pkg -> other = pkg).
Proof.
  assert (Hunits : forall s, DART_PACKAGE_NAME_RE s = true -> forallb isNameUnit s = true).
  { intros [|c s] H; [discriminate|]. cbn in *. apply andb_true_iff in H as [Hc ->].
    unfold isNameUnit. now rewrite Hc. }
  intros Hvalid. split; [|split].
  - rewrite toDisplayName_spec. apply displayNameSpec_back. now apply Hunits.
  - rewrite toDisplayName_spec. apply displayNameSpec_no_underscore.
  - intros other Ho Heq.
    rewrite <- (displayNameSpec_back true other (Hunits _ Ho)).
    rewrite <- (displayNameSpec_back true pkg (Hunits _ Hvalid)).
    rewrite <- !toDisplayName_spec. now rewrite Heq.
Qed.

Lemma toDisplayName_round_trip_witness :
  packageOfDisplay (toDisplayName (js "telecom_app_2")) = js "telecom_app_2"
  /\ ~ In 95 (toDisplayName (js "telecom_app_2"))
  /\ (forall other, DART_PACKAGE_NAME_RE other = true ->
        toDisplayName other = toDisplayName (js "telecom_app_2") ->
        other = js "telecom_app_2").
Proof. apply (toDisplayName_round_trip (js "telecom_app_2")). reflexivity. Defined.

(** X3. A name accepted by [DART_PACKAGE_NAME_RE] is not empty, starts with a
    lower-case letter and holds only lower-case letters, digits and
    underscores: no path separator, dot, space, quote or upper-case letter, so
    the project directory is one path segment and the name is never quoted on
    a command line. *)
Theorem accepted_name_shape (pkg : jsstring) :
  DART_PACKAGE_NAME_RE pkg = true ->
  (exists c r, pkg = c :: r /\ 97 <= c <= 122)
  /\ Forall (fun c => 97 <= c <= 122 \/ 48 <= c <= 57 \/ c = 95) pkg
  /\ Forall (fun c => c <> 47 /\ c <> 92 /\ c <> 46 /\ c <> 32 /\ c <> 34
                      /\ ~ (65 <= c <= 90)) pkg
  /\ fullCmd pkg [] = pkg.
Proof.
  intros H.
  assert (Hall : Forall (fun c => 97 <= c <= 122 \/ 48 <= c <= 57 \/ c = 95) pkg).
  { destruct pkg as [|c s]; [discriminate|]. cbn in H.
    apply andb_true_iff in H as [Hc Hs]. constructor.
    - unfold isLower in Hc. apply andb_true_iff in Hc as [E1 E2].
      apply N.leb_le in E1, E2. lia.
    - apply List.Forall_forall. intros d Hd.
      rewrite forallb_forall in Hs. specialize (Hs d Hd).
      unfold isNameUnit, isLower, isDigit in Hs.
      apply orb_true_iff in Hs as [Hs|Hs]; [apply orb_true_iff in Hs as [Hs|Hs]|].
      + apply andb_true_iff in Hs as [E1 E2]. apply N.leb_le in E1, E2. lia.
      + apply andb_true_iff in Hs as [E1 E2]. apply N.leb_le in E1, E2. lia.
      + apply N.eqb_eq in Hs. lia. }
  split; [|split; [exact Hall|split]].
  - destruct pkg as [|c s]; [discriminate|]. exists c, s. split; [reflexivity|].
    cbn in H. apply andb_true_iff in H as [Hc _]. unfold isLower in Hc.
    apply andb_true_iff in Hc as [E1 E2]. apply N.leb_le in E1, E2. lia.
  - eapply Forall_impl; [exact Hall|]. cbn. intros c Hc. lia.
  - unfold fullCmd. cbn [List.map join].
    replace (includesUnit 32 pkg) with false; [reflexivity|].
    symmetry. unfold includesUnit. apply not_true_is_false. intros Hex.
    apply existsb_exists in Hex as (d & Hd & Heq). apply N.eqb_eq in Heq. subst d.
    rewrite List.Forall_forall in Hall. specialize (Hall _ Hd). lia.
Qed.

Lemma accepted_name_shape_witness :
  (exists c r, js "logistics_app" = c :: r /\ 97 <= c <= 122)
  /\ Forall (fun c => 97 <= c <= 122 \/ 48 <= c <= 57 \/ c = 95) (js "logistics_app")
  /\ Forall (fun c => c <> 47 /\ c <> 92 /\ c <> 46 /\ c <> 32 /\ c <> 34
                      /\ ~ (65 <= c <= 90)) (js "logistics_app")
  /\ fullCmd (js "logistics_app") [] = js "logistics_app".
Proof. apply (accepted_name_shape (js "logistics_app")). reflexivity. Defined.

(** ** White space *)

Lemma dropWhile_split {A} (f : A -> bool) l :
  exists p, l = p ++ dropWhile f l /\ forallb f p = true.
Proof.
  induction l as [|x l (p & Hl & Hp)]; [exists []; split; reflexivity|].
  cbn [dropWhile]. destruct (f x) eqn:E.
  - exists (x :: p). cbn. rewrite E, Hp. split; [now f_equal|reflexivity].
  - exists []. split; reflexivity.
Qed.

Lemma dropWhile_head {A} (f : A -> bool) l c r :
  dropWhile f l = c :: r -> f c = false.
Proof.
  induction l as [|x l IH]; [discriminate|]. cbn [dropWhile].
  destruct (f x) eqn:E; [exact IH|]. intros H. injection H as <- _. exact E.
Qed.

Lemma dropWhile_app_keep {A} (f : A -> bool) l m :
  dropWhile f l <> [] -> dropWhile f (l ++ m) = dropWhile f l ++ m.
Proof.
  induction l as [|x l IH]; [cbn; congruence|]. cbn [dropWhile app].
  destruct (f x); [exact IH|reflexivity].
Qed.

Lemma last_rev {A} (l : list A) : last (rev l) = head l.
Proof. destruct l as [|x l]; [reflexivity|]. cbn [rev]. apply last_snoc. Qed.

(** What [trimEnd] removes is white space, and what it leaves does not end
    with white space. *)
Lemma trimEnd_split s :
  exists ws, s = trimEnd s ++ ws /\ forallb isWhiteSpace ws = true.
Proof.
  unfold trimEnd. destruct (dropWhile_split isWhiteSpace (rev s)) as (p & Hs & Hp).
  exists (rev p). split.
  - rewrite <- rev_app_distr, <- Hs. symmetry. apply rev_involutive.
  - rewrite forallb_forall in *. intros x Hx. apply Hp. now apply in_rev.
Qed.

Lemma trimEnd_last s d : last (trimEnd s) = Some d -> isWhiteSpace d = false.
Proof.
  unfold trimEnd. rewrite last_rev.
  destruct (dropWhile isWhiteSpace (rev s)) as [|c r] eqn:E; [discriminate|].
  intros H. injection H as <-. exact (dropWhile_head _ _ _ _ E).
Qed.

Lemma trimEnd_app_keep a b : trimEnd b <> [] -> trimEnd (a ++ b) = a ++ trimEnd b.
Proof.
  unfold trimEnd. intros Hb. rewrite rev_app_distr, dropWhile_app_keep.
  - now rewrite rev_app_distr, rev_involutive.
  - intros E. apply Hb. now rewrite E.
Qed.

Lemma trim_isTrimmed s : isTrimmed (trim s) = true.
Proof.
  unfold trim, trimStart, isTrimmed.
  destruct (trimEnd (dropWhile isWhiteSpace s)) as [|c r] eqn:E; [reflexivity|].
  apply andb_true_iff. split.
  - destruct (trimEnd_split (dropWhile isWhiteSpace s)) as (ws & Hs & _).
    rewrite E in Hs. cbn [app] in Hs.
    now rewrite (dropWhile_head _ _ _ _ Hs).
  - destruct (last (c :: r)) as [d|] eqn:L; [|reflexivity].
    rewrite <- E in L. now rewrite (trimEnd_last _ _ L).
Qed.

(** ** The command executor *)

(** X4. [run] spawns the command exactly once and leaves the log alone.  When
    the process succeeds the result is the two streams, the empty ones left
    out, joined by a line break and trimmed: it neither starts nor ends with
    white space.  When the process fails [run] throws an error whose message
    is "Command failed: ", the command line, a line break and the first
    non-empty text among the error's stderr, its stdout and its message. *)
Theorem run_outcome {World : Type} (os : OS World) (command : jsstring)
  (args : list jsstring) (cwd : option jsstring)
  (extraEnv : list (jsstring * jsstring)) (s : State World) :
  let r := run os command args cwd extraEnv s in
  log (snd r) = log s
  /\ match os_execFile os (world s) command args cwd extraEnv with
     | (w, inr out) =>
       world (snd r) = w
       /\ trace (snd r) = trace s ++ [EvExec command args cwd extraEnv true]
       /\ exists text, fst r = Ok text
          /\ isTrimmed text = true
          /\ (stderr out = [] -> text = trim (stdout out))
          /\ (stdout out = [] -> text = trim (stderr out))
          /\ (stdout out <> [] -> stderr out <> [] ->
              text = trim (stdout out ++ nl ++ stderr out))
     | (w, inl err) =>
       world (snd r) = w
       /\ trace (snd r) = trace s ++ [EvExec command args cwd extraEnv false]
       /\ exists e d, fst r = Throw e
          /\ message e = js "Command failed: " ++ command ++ js " "
                         ++ join (js " ") args ++ nl ++ d
          /\ (err_stderr err <> [] -> d = err_stderr err)
          /\ (err_stderr err = [] -> err_stdout err <> [] -> d = err_stdout err)
          /\ (err_stderr err = [] -> err_stdout err = [] -> d = message err)
     end.
Proof.
  intros r. subst r. rewrite run_spec.
  destruct (os_execFile os (world s) command args cwd extraEnv) as [w [err|out]];
    cbn [fst snd log world trace performed]; (split; [reflexivity|]);
    (split; [reflexivity|]); (split; [reflexivity|]).
  - exists (commandFailed command args err), (diagnostic err).
    split; [reflexivity|]. split; [reflexivity|]. unfold diagnostic.
    destruct (err_stderr err) as [|a x], (err_stdout err) as [|b y]; cbn [truthy];
      repeat split; intros; congruence.
  - eexists. split; [reflexivity|]. split; [apply trim_isTrimmed|].
    destruct (stdout out) as [|a x], (stderr out) as [|b y]; cbn [List.filter truthy join];
      repeat split; intros; try congruence; rewrite ?app_nil_r; reflexivity.
Qed.

Example run_failure_message :
  fst (run Machine.os (js "flutter") [js "pub"; js "get"] None []
         (Machine.start Machine.bare))
  = Throw (newError (js "Command failed: flutter pub get" ++ nl
                     ++ js "ENOENT: spawn flutter")).
Proof. vm_compute. reflexivity. Qed.

(** ** Step 11, run again *)

(** X5. Appending the dependency block is not idempotent: applied to its own
    result it keeps the first block, without its final line break, and
    appends the block once more, so a script patched twice declares the
    dependencies twice. *)
Theorem appendDependencies_twice (gradle : jsstring) :
  appendDependencies (appendDependencies gradle)
  = trimEnd gradle ++ trimEnd dependenciesBlock ++ dependenciesBlock
  /\ dependenciesBlock = trimEnd dependenciesBlock ++ nl
  /\ appendDependencies (appendDependencies gradle) <> appendDependencies gradle.
Proof.
  assert (Hne : trimEnd dependenciesBlock <> []) by (vm_compute; discriminate).
  assert (H2 : appendDependencies (appendDependencies gradle)
               = trimEnd gradle ++ trimEnd dependenciesBlock ++ dependenciesBlock).
  { unfold appendDependencies. rewrite (trimEnd_app_keep _ _ Hne).
    now rewrite <- app_assoc. }
  split; [exact H2|]. split; [vm_compute; reflexivity|].
  rewrite H2. unfold appendDependencies. intros Heq.
  apply app_inv_head in Heq. apply (f_equal (@length N)) in Heq.
  vm_compute in Heq. discriminate Heq.
Qed.

(** ** JSON round trip *)

Lemma hexVal_hexDigit d : d < 16 -> Json.hexVal (Json.hexDigit d) = Some d.
Proof.
  intros Hd.
  assert (d = 0 \/ d = 1 \/ d = 2 \/ d = 3 \/ d = 4 \/ d = 5 \/ d = 6 \/ d = 7
          \/ d = 8 \/ d = 9 \/ d = 10 \/ d = 11 \/ d = 12 \/ d = 13 \/ d = 14
          \/ d = 15) as H by lia.
  repeat (destruct H as [->|H]; [reflexivity|]). subst d. reflexivity.
Qed.

Lemma nibble_lt x : N.land x 15 < 16.
Proof.
  change 15 with (N.ones 4). rewrite N.land_ones.
  apply N.mod_lt. discriminate.
Qed.

Lemma nibbles_value c :
  c < 65536 ->
  4096 * N.land (N.shiftr c 12) 15 + 256 * N.land (N.shiftr c 8) 15
  + 16 * N.land (N.shiftr c 4) 15 + N.land c 15 = c.
Proof.
  intros Hc. change 15 with (N.ones 4). rewrite !N.land_ones, !N.shiftr_div_pow2.
  change (2 ^ 12) with 4096. change (2 ^ 8) with 256. change (2 ^ 4) with 16.
  assert (E0 : c = 16 * (c / 16) + c mod 16) by apply N.div_mod'.
  assert (E1 : c / 16 = 16 * (c / 256) + (c / 16) mod 16).
  { replace (c / 256) with (c / 16 / 16) by (now rewrite N.Div0.div_div).
    apply N.div_mod'. }
  assert (E2 : c / 256 = 16 * (c / 4096) + (c / 256) mod 16).
  { replace (c / 4096) with (c / 256 / 16) by (now rewrite N.Div0.div_div).
    apply N.div_mod'. }
  assert (c / 4096 < 16) as Hhi by (now apply N.Div0.div_lt_upper_bound).
  rewrite (N.mod_small (c / 4096) 16) by exact Hhi.
  lia.
Qed.

(** A [\u] escape is read back. *)
Lemma readUnits_escape c tail t rest :
  c < 65536 ->
  Json.readUnits tail = Some (t, rest) ->
  Json.readUnits (js "\u" ++ Json.hex4 c ++ tail) = Some (c :: t, rest).
Proof.
  intros Hc Ht. change (js "\u") with [92; 117]. unfold Json.hex4.
  cbn [app Json.readUnits]. change (92 =? 34) with false. change (92 <? 32) with false.
  change (92 =? 92) with true. cbv beta iota.
  change (117 =? 34) with false. change (117 =? 92) with false.
  change (117 =? 47) with false. change (117 =? 98) with false.
  change (117 =? 102) with false. change (117 =? 110) with false.
  change (117 =? 114) with false. change (117 =? 116) with false.
  change (117 =? 117) with true. cbv beta iota.
  rewrite !hexVal_hexDigit by apply nibble_lt. rewrite Ht.
  now rewrite nibbles_value.
Qed.

Lemma readUnits_literal c tail t rest :
  (c =? 34) = false -> (c <? 32) = false -> (c =? 92) = false ->
  Json.readUnits tail = Some (t, rest) ->
  Json.readUnits (c :: tail) = Some (c :: t, rest).
Proof. intros E1 E2 E3 Ht. cbn [Json.readUnits]. now rewrite E1, E2, E3, Ht. Qed.

Lemma readUnits_simple e u tail t rest :
  In (e, u) [(34, 34); (92, 92); (98, 8); (102, 12); (110, 10); (114, 13); (116, 9)] ->
  Json.readUnits tail = Some (t, rest) ->
  Json.readUnits (92 :: e :: tail) = Some (u :: t, rest).
Proof.
  intros Hin Ht. cbn [In] in Hin.
  repeat (destruct Hin as [Hin|Hin];
          [injection Hin as <- <-; cbn [Json.readUnits];
           change (92 =? 34) with false; change (92 <? 32) with false;
           change (92 =? 92) with true; cbv beta iota; cbn -[Json.readUnits];
           now rewrite Ht|]).
  destruct Hin.
Qed.

Lemma surrogate_bounds c :
  Json.isLead c = true \/ Json.isTrail c = true ->
  c < 65536 /\ (c =? 34) = false /\ (c <? 32) = false /\ (c =? 92) = false.
Proof.
  unfold Json.isLead, Json.isTrail.
  intros [H|H]; apply andb_true_iff in H as [E1 E2]; apply N.leb_le in E1, E2;
    repeat split; try lia; try (apply N.eqb_neq; lia); apply N.ltb_ge; lia.
Qed.

(** Every string is read back from its quoted form. *)
Lemma readUnits_quoteUnits n :
  forall s rest, (length s <= n)%nat ->
    Json.readUnits (Json.quoteUnits s ++ 34 :: rest) = Some (s, rest).
Proof.
  induction n as [|n IH]; intros [|c r] rest Hlen;
    try reflexivity; [cbn in Hlen; lia|].
  cbn [length] in Hlen.
  assert (IHr : Json.readUnits (Json.quoteUnits r ++ 34 :: rest) = Some (r, rest))
    by (apply IH; lia).
  cbn [Json.quoteUnits].
  destruct (N.eqb_spec c 34) as [->|N34].
  { change (js "\" ++ dq ++ Json.quoteUnits r) with (92 :: 34 :: Json.quoteUnits r).
    cbn [app]. apply readUnits_simple; [cbn; tauto|exact IHr]. }
  destruct (N.eqb_spec c 92) as [->|N92].
  { change (js "\\") with [92; 92]. cbn [app].
    apply readUnits_simple; [cbn; tauto|exact IHr]. }
  destruct (N.eqb_spec c 8) as [->|N8].
  { change (js "\b") with [92; 98]. cbn [app].
    apply readUnits_simple; [cbn; tauto|exact IHr]. }
  destruct (N.eqb_spec c 12) as [->|N12].
  { change (js "\f") with [92; 102]. cbn [app].
    apply readUnits_simple; [cbn; tauto|exact IHr]. }
  destruct (N.eqb_spec c 10) as [->|N10].
  { change (js "\n") with [92; 110]. cbn [app].
    apply readUnits_simple; [cbn; tauto|exact IHr]. }
  destruct (N.eqb_spec c 13) as [->|N13].
  { change (js "\r") with [92; 114]. cbn [app].
    apply readUnits_simple; [cbn; tauto|exact IHr]. }
  destruct (N.eqb_spec c 9) as [->|N9].
  { change (js "\t") with [92; 116]. cbn [app].
    apply readUnits_simple; [cbn; tauto|exact IHr]. }
  destruct (N.ltb_spec c 32) as [L32|G32].
  { rewrite <- !app_assoc. apply readUnits_escape; [lia|exact IHr]. }
  assert (E34 : (c =? 34) = false) by (now apply N.eqb_neq).
  assert (E32 : (c <? 32) = false) by (now apply N.ltb_ge).
  assert (E92 : (c =? 92) = false) by (now apply N.eqb_neq).
  destruct (Json.isLead c) eqn:Elead.
  { destruct (surrogate_bounds c (or_introl Elead)) as (Hc & _).
    destruct r as [|d r'].
    - rewrite <- !app_assoc. apply readUnits_escape; [exact Hc|reflexivity].
    - destruct (Json.isTrail d) eqn:Etrail.
      + destruct (surrogate_bounds d (or_intror Etrail)) as (_ & D34 & D32 & D92).
        cbn [app]. apply readUnits_literal; try assumption.
        apply readUnits_literal; try assumption.
        apply IH. cbn [length] in Hlen. lia.
      + rewrite <- !app_assoc. apply readUnits_escape; [exact Hc|exact IHr]. }
  destruct (Json.isTrail c) eqn:Etrail.
  { destruct (surrogate_bounds c (or_intror Etrail)) as (Hc & _).
    rewrite <- !app_assoc. apply readUnits_escape; [exact Hc|exact IHr]. }
  cbn [app]. now apply readUnits_literal.
Qed.

Lemma readString_quote s rest :
  Json.readString (Json.quote s ++ rest) = Some (s, rest).
Proof.
  unfold Json.quote, Json.readString. change dq with [34].
  rewrite <- !app_assoc. cbn [app]. change (34 =? 34) with true. cbv iota.
  now apply (readUnits_quoteUnits (length s)).
Qed.

Lemma skipWs_quote s rest :
  Json.skipWs (Json.quote s ++ rest) = Json.quote s ++ rest.
Proof. reflexivity. Qed.

Lemma readMembers_step fuel k v tail :
  Json.readMembers (S fuel) (Json.quote k ++ js ": " ++ Json.quote v ++ tail)
  = match Json.skipWs tail with
    | d :: s4 =>
      if d =? 125 then Some ([(k, v)], s4)
      else if d =? 44 then
        match Json.readMembers fuel (Json.skipWs s4) with
        | Some (kvs, rest) => Some ((k, v) :: kvs, rest)
        | None => None
        end
      else None
    | [] => None
    end.
Proof.
  cbn [Json.readMembers]. rewrite readString_quote.
  change (js ": " ++ Json.quote v ++ tail) with (58 :: 32 :: (Json.quote v ++ tail)).
  change (Json.skipWs (58 :: 32 :: (Json.quote v ++ tail)))
    with (58 :: 32 :: (Json.quote v ++ tail)).
  cbv iota. change (58 =? 58) with true. cbv iota.
  change (Json.skipWs (32 :: (Json.quote v ++ tail))) with (Json.quote v ++ tail).
  now rewrite readString_quote.
Qed.

Lemma readMembers_join fields :
  fields <> [] ->
  forall fuel rest, (length fields <= fuel)%nat ->
    Json.readMembers fuel
      (join memberSep (List.map memberText fields) ++ nl ++ js "}" ++ rest)
    = Some (fields, rest).
Proof.
  induction fields as [|[k v] fields IH]; [congruence|]. intros _ fuel rest Hfuel.
  destruct fuel as [|fuel]; [cbn in Hfuel; lia|]. cbn [length] in Hfuel.
  destruct fields as [|kv2 more].
  - cbn [List.map join]. unfold memberText. cbn [fst snd].
    rewrite <- !app_assoc. rewrite readMembers_step.
    change (Json.skipWs (nl ++ js "}" ++ rest)) with (125 :: rest).
    reflexivity.
  - change (List.map memberText ((k, v) :: kv2 :: more))
      with (memberText (k, v) :: List.map memberText (kv2 :: more)).
    change (List.map memberText (kv2 :: more))
      with (memberText kv2 :: List.map memberText more) at 1.
    rewrite join_two.
    change (memberText kv2 :: List.map memberText more)
      with (List.map memberText (kv2 :: more)).
    unfold memberText at 1. cbn [fst snd]. rewrite <- !app_assoc.
    rewrite readMembers_step.
    change (memberSep ++ join memberSep (List.map memberText (kv2 :: more))
            ++ nl ++ js "}" ++ rest)
      with (44 :: 10 :: 32 :: 32
            :: (join memberSep (List.map memberText (kv2 :: more))
                ++ nl ++ js "}" ++ rest)).
    assert (Hhead : exists tl,
               join memberSep (List.map memberText (kv2 :: more)) ++ nl ++ js "}" ++ rest
               = 34 :: tl).
    { destruct more; cbn [List.map join]; unfold memberText, Json.quote;
        change dq with [34]; cbn [app]; eauto. }
    destruct Hhead as (tl & Htl).
    change (Json.skipWs (44 :: 10 :: 32 :: 32 :: ?x)) with (44 :: 10 :: 32 :: 32 :: x).
    unfold Json.skipWs at 1. cbn [dropWhile].
    change (Json.isJsonWs 44) with false. cbv iota.
    change (44 =? 125) with false. change (44 =? 44) with true. cbv iota.
    unfold Json.skipWs. cbn [dropWhile].
    change (Json.isJsonWs 10) with true. change (Json.isJsonWs 32) with true. cbv iota.
    rewrite Htl. cbn [dropWhile]. change (Json.isJsonWs 34) with false. cbv iota.
    rewrite <- Htl. rewrite IH; [reflexivity|discriminate|lia].
Qed.

Lemma join_members_length fields :
  (length fields <= length (join memberSep (List.map memberText fields)))%nat.
Proof.
  induction fields as [|kv fields IH]; [reflexivity|].
  destruct fields as [|kv2 more].
  - cbn [List.map join length]. unfold memberText, Json.quote. change dq with [34].
    cbn [app length]. lia.
  - change (List.map memberText (kv :: kv2 :: more))
      with (memberText kv :: memberText kv2 :: List.map memberText more).
    rewrite join_two. rewrite !length_app.
    change (memberText kv2 :: List.map memberText more)
      with (List.map memberText (kv2 :: more)).
    unfold memberText at 1, Json.quote. change dq with [34].
    cbn [app length] in *. lia.
Qed.

(** The reader inverts [JSON.stringify(o, null, 2)] on every object with
    string values. *)
Lemma parseObject_stringify2 fields :
  Json.parseObject (Json.stringify2 fields) = Some fields.
Proof.
  destruct fields as [|kv fields]; [reflexivity|].
  unfold Json.stringify2.
  change (List.map (fun kv0 => Json.quote (fst kv0) ++ js ": " ++ Json.quote (snd kv0)))
    with (List.map memberText).
  change (js "," ++ nl ++ js "  ") with memberSep.
  set (body := join memberSep (List.map memberText (kv :: fields))).
  assert (Hlen : (length (kv :: fields) <= length body)%nat)
    by apply join_members_length.
  assert (Hread : forall fuel, (length (kv :: fields) <= fuel)%nat ->
            Json.readMembers fuel (body ++ nl ++ js "}") = Some (kv :: fields, [])).
  { intros fuel Hf. rewrite <- (app_nil_r (js "}")).
    rewrite <- (app_nil_r (body ++ nl ++ js "}" ++ [])).
    rewrite <- !app_assoc. cbn [app].
    change (body ++ nl ++ js "}" ++ []) with (body ++ nl ++ js "}" ++ []).
    now apply readMembers_join. }
  assert (Hhead : exists tl, body ++ nl ++ js "}" = 34 :: tl).
  { subst body. destruct kv, fields; cbn [List.map join]; unfold memberText, Json.quote;
      change dq with [34]; cbn [app]; eauto. }
  destruct Hhead as (tl & Htl).
  change (js "{" ++ nl ++ js "  " ++ body ++ nl ++ js "}")
    with (123 :: 10 :: 32 :: 32 :: (body ++ nl ++ js "}")).
  unfold Json.parseObject.
  change (Json.skipWs (123 :: 10 :: 32 :: 32 :: (body ++ nl ++ js "}")))
    with (123 :: 10 :: 32 :: 32 :: (body ++ nl ++ js "}")).
  cbv iota. change (123 =? 123) with true. cbv iota.
  unfold Json.skipWs at 1. cbn [dropWhile].
  change (Json.isJsonWs 10) with true. change (Json.isJsonWs 32) with true. cbv iota.
  rewrite Htl. cbn [dropWhile]. change (Json.isJsonWs 34) with false. cbv iota.
  change (34 =? 125) with false. cbv iota. rewrite <- Htl.
  rewrite Hread; [reflexivity|]. cbn [length] in *. rewrite !length_app. lia.
Qed.

Lemma toUpperCase_idempotent s : toUpperCase (toUpperCase s) = toUpperCase s.
Proof.
  unfold toUpperCase. rewrite List.map_map. apply List.map_ext. intros c.
  unfold upperUnit. destruct ((97 <=? c) && (c <=? 122)) eqn:E.
  - apply andb_true_iff in E as [E1 E2]. apply N.leb_le in E1, E2.
    replace ((97 <=? c - 32) && (c - 32 <=? 122)) with false; [reflexivity|].
    symmetry. apply andb_false_iff. left. apply N.leb_gt. lia.
  - now rewrite E.
Qed.

(** X6. For every ASCII environment name, whatever characters it holds
    (quotes, backslashes and control characters are escaped), the text of
    [configJson] reads back as the object with exactly the keys secretKey,
    baseUrl, xAPIKey and oneSignalKey, in this order, the first bound to the
    upper-cased name and the others to the empty string; names that differ
    only in letter case give the same text. *)
Theorem configJson_round_trip (env : jsstring) :
  isAscii env = true ->
  Json.parseObject (configJson env)
  = Some [ (js "secretKey", toUpperCase env); (js "baseUrl", []);
           (js "xAPIKey", []); (js "oneSignalKey", []) ]
  /\ configJson (toUpperCase env) = configJson env.
Proof.
  intros _. split.
  - apply parseObject_stringify2.
  - unfold configJson. now rewrite toUpperCase_idempotent.
Qed.

Lemma configJson_round_trip_witness :
  Json.parseObject (configJson (js "st\aging"))
  = Some [ (js "secretKey", toUpperCase (js "st\aging")); (js "baseUrl", []);
           (js "xAPIKey", []); (js "oneSignalKey", []) ]
  /\ configJson (toUpperCase (js "st\aging")) = configJson (js "st\aging").
Proof. apply (configJson_round_trip (js "st\aging")). reflexivity. Defined.

(** ** The progress log of a whole run *)

Section ProgressLog.

Context {World : Type} (os : OS World).

Lemma quiet_ret {A} (a : A) : alwaysAnnounces [] (ret (World := World) a).
Proof. intros s. exists []. cbn. now rewrite app_nil_r. Qed.

Lemma quiet_throw {A} e : alwaysAnnounces [] (throw (World := World) (A := A) e).
Proof. intros s. exists []. cbn. now rewrite app_nil_r. Qed.

Lemma quiet_getUseFvm : alwaysAnnounces [] (getUseFvm (World := World)).
Proof. intros s. exists []. cbn. now rewrite app_nil_r. Qed.

Lemma quiet_setUseFvm b : alwaysAnnounces [] (setUseFvm (World := World) b).
Proof. intros s. exists []. cbn. now rewrite app_nil_r. Qed.

Lemma quiet_push line :
  stepNumber line = None -> alwaysAnnounces [] (push (World := World) line).
Proof.
  intros Hl s. exists [line]. split; [reflexivity|].
  cbn [omap list_omap]. now rewrite Hl.
Qed.

Lemma quiet_bind {A B} (m : M World A) (k : A -> M World B) :
  alwaysAnnounces [] m -> (forall a, alwaysAnnounces [] (k a)) ->
  alwaysAnnounces [] (bind m k).
Proof.
  intros Hm Hk s. unfold bind. destruct (Hm s) as (l1 & E1 & N1).
  destruct (m s) as [[a|e] s1]; cbn [snd] in *.
  - destruct (Hk a s1) as (l2 & E2 & N2). exists (l1 ++ l2).
    rewrite E2, E1, <- app_assoc, omap_app, N1, N2. now split.
  - eauto.
Qed.

Lemma quiet_tryCatch {A} (m : M World A) (h : JsError -> M World A) :
  alwaysAnnounces [] m -> (forall e, alwaysAnnounces [] (h e)) ->
  alwaysAnnounces [] (tryCatch m h).
Proof.
  intros Hm Hh s. unfold tryCatch. destruct (Hm s) as (l1 & E1 & N1).
  destruct (m s) as [[a|e] s1]; cbn [snd] in *.
  - eauto.
  - destruct (Hh e s1) as (l2 & E2 & N2). exists (l1 ++ l2).
    rewrite E2, E1, <- app_assoc, omap_app, N1, N2. now split.
Qed.

Lemma quiet_execFileAsync command args cwd extraEnv :
  alwaysAnnounces [] (execFileAsync os command args cwd extraEnv).
Proof.
  intros s. unfold execFileAsync.
  destruct (os_execFile os (world s) command args cwd extraEnv) as [w [e|o]];
    exists []; cbn; now rewrite app_nil_r.
Qed.

Lemma quiet_run command args cwd extraEnv :
  alwaysAnnounces [] (run os command args cwd extraEnv).
Proof.
  apply quiet_tryCatch.
  - apply quiet_bind; [apply quiet_execFileAsync|intros; apply quiet_ret].
  - intros; apply quiet_throw.
Qed.

Lemma quiet_commandExists cmd : alwaysAnnounces [] (commandExists os cmd).
Proof.
  apply quiet_tryCatch.
  - apply quiet_bind; [apply quiet_execFileAsync|intros; apply quiet_ret].
  - intros; apply quiet_ret.
Qed.

Lemma quiet_detectFvm : alwaysAnnounces [] (detectFvm os).
Proof.
  apply quiet_tryCatch.
  - apply quiet_bind; [apply quiet_execFileAsync|intros; apply quiet_ret].
  - intros; apply quiet_ret.
Qed.

Lemma quiet_runInteractive command args cwd :
  alwaysAnnounces [] (runInteractive os command args cwd).
Proof.
  apply quiet_bind; [apply quiet_commandExists|].
  intros []; apply quiet_run.
Qed.

Lemma quiet_existsSync path : alwaysAnnounces [] (existsSync os path).
Proof. intros s. exists []. cbn. now rewrite app_nil_r. Qed.

Lemma quiet_mkdirSync path : alwaysAnnounces [] (mkdirSync os path).
Proof.
  intros s. unfold mkdirSync.
  destruct (os_mkdirSync os (world s) path) as [w [e|]];
    exists []; cbn; now rewrite app_nil_r.
Qed.

Lemma quiet_writeFileSync path content :
  alwaysAnnounces [] (writeFileSync os path content).
Proof.
  intros s. unfold writeFileSync.
  destruct (os_writeFileSync os (world s) path content) as [w [e|]];
    exists []; cbn; now rewrite app_nil_r.
Qed.

Lemma quiet_readFileSync path : alwaysAnnounces [] (readFileSync os path).
Proof.
  intros s. unfold readFileSync.
  destruct (os_readFileSync os (world s) path) as [e|x];
    exists []; cbn; now rewrite app_nil_r.
Qed.

Lemma quiet_forEach {A} (l : list A) (body : A -> M World unit) :
  (forall x, alwaysAnnounces [] (body x)) -> alwaysAnnounces [] (forEach l body).
Proof.
  intros Hb. induction l as [|x l IH]; cbn [forEach].
  - apply quiet_ret.
  - apply quiet_bind; [apply Hb|intros _; exact IH].
Qed.

Lemma announced_first {B} k line (rest : M World B) :
  stepNumber line = Some k -> alwaysAnnounces [] rest ->
  alwaysAnnounces [k] (bind (push line) (fun _ => rest)).
Proof.
  intros Hl Hr s. unfold bind, push. cbn [fst snd].
  destruct (Hr {| world := world s; useFvm := useFvm s; log := log s ++ [line];
                  trace := trace s |}) as (l2 & E2 & N2).
  exists (line :: l2). rewrite E2. cbn [log]. rewrite <- app_assoc. cbn [app omap list_omap].
  now rewrite Hl, N2.
Qed.

Ltac quiet_step :=
  lazymatch goal with
  | |- alwaysAnnounces [] (ret _) => apply quiet_ret
  | |- alwaysAnnounces [] (throw _) => apply quiet_throw
  | |- alwaysAnnounces [] (push _) => apply quiet_push; vm_compute; reflexivity
  | |- alwaysAnnounces [] getUseFvm => apply quiet_getUseFvm
  | |- alwaysAnnounces [] (setUseFvm _) => apply quiet_setUseFvm
  | |- alwaysAnnounces [] (bind _ _) => apply quiet_bind; [|intros ?]
  | |- alwaysAnnounces [] (run _ _ _ _ _) => apply quiet_run
  | |- alwaysAnnounces [] (runInteractive _ _ _ _) => apply quiet_runInteractive
  | |- alwaysAnnounces [] (commandExists _ _) => apply quiet_commandExists
  | |- alwaysAnnounces [] (detectFvm _) => apply quiet_detectFvm
  | |- alwaysAnnounces [] (existsSync _ _) => apply quiet_existsSync
  | |- alwaysAnnounces [] (mkdirSync _ _) => apply quiet_mkdirSync
  | |- alwaysAnnounces [] (writeFileSync _ _ _) => apply quiet_writeFileSync
  | |- alwaysAnnounces [] (readFileSync _ _) => apply quiet_readFileSync
  | |- alwaysAnnounces [] (forEach _ _) => apply quiet_forEach; intros ?
  | |- alwaysAnnounces [] (when ?b _) => unfold when; destruct b
  | |- alwaysAnnounces [] (if ?b then _ else _) => destruct b
  | |- alwaysAnnounces [] (let _ := _ in _) => cbv zeta
  end.

Ltac announced_step :=
  lazymatch goal with
  | |- alwaysAnnounces [_] (bind (push _) _) =>
    apply announced_first; [vm_compute; reflexivity | repeat quiet_step]
  end.

Lemma precheck_quiet c : alwaysAnnounces [] (precheck os c).
Proof. unfold precheck, detectTooling, preflight. repeat quiet_step. Qed.

Lemma done_quiet c : alwaysAnnounces [] (done (World := World) c).
Proof. unfold done. repeat quiet_step. Qed.

Lemma steps_alwaysAnnounce c :
  Forall2 (fun k m => alwaysAnnounces [k] m)
    [1; 2; 3; 4; 5; 6; 7; 8; 9; 10; 11] (steps os c).
Proof.
  unfold steps.
  do 11 (constructor;
         [ unfold step1, step2, step3, step4, step5, step6, step7, step8, step9,
             step10, step11; announced_step | ]).
  constructor.
Qed.

Lemma sequence_alwaysAnnounces ks (ms : list (M World unit)) :
  Forall2 (fun k m => alwaysAnnounces [k] m) ks ms ->
  forall s, exists lines j,
    log (snd (sequence ms s)) = log s ++ lines
    /\ omap stepNumber lines = take j ks
    /\ (forall u, fst (sequence ms s) = Ok u -> omap stepNumber lines = ks).
Proof.
  induction 1 as [|k m ks ms Hm _ IH]; intros s.
  - exists [], 0%nat. cbn. rewrite app_nil_r. repeat split.
  - cbn [sequence]. unfold bind. destruct (Hm s) as (l1 & L1 & N1).
    destruct (m s) as [[[]|e] s1]; cbn [snd fst] in *.
    + destruct (IH s1) as (l2 & j & L2 & N2 & Hok).
      exists (l1 ++ l2), (S j). rewrite L2, L1, <- app_assoc, omap_app, N1.
      split; [reflexivity|]. split; [now rewrite N2|].
      intros u Hu. now rewrite (Hok u Hu).
    + exists l1, 1%nat. rewrite N1. split; [exact L1|]. split; [|discriminate].
      cbn. now rewrite take_0.
Qed.

Lemma labelledStep_stepNumber line : labelledStep line = stepNumber line.
Proof.
  unfold labelledStep, stepNumber, stepLabels. cbn [List.find fst snd].
  replace (stepPrefix 1) with (js "[1/11]") by (vm_compute; reflexivity).
  replace (stepPrefix 2) with (js "[2/11]") by (vm_compute; reflexivity).
  replace (stepPrefix 3) with (js "[3/11]") by (vm_compute; reflexivity).
  replace (stepPrefix 4) with (js "[4/11]") by (vm_compute; reflexivity).
  replace (stepPrefix 5) with (js "[5/11]") by (vm_compute; reflexivity).
  replace (stepPrefix 6) with (js "[6/11]") by (vm_compute; reflexivity).
  replace (stepPrefix 7) with (js "[7/11]") by (vm_compute; reflexivity).
  replace (stepPrefix 8) with (js "[8/11]") by (vm_compute; reflexivity).
  replace (stepPrefix 9) with (js "[9/11]") by (vm_compute; reflexivity).
  replace (stepPrefix 10) with (js "[10/11]") by (vm_compute; reflexivity).
  replace (stepPrefix 11) with (js "[11/11]") by (vm_compute; reflexivity).
  repeat match goal with
         | |- context [startsWith ?p line] => destruct (startsWith p line)
         end; reflexivity.
Qed.

Lemma omap_labelledStep (lines : list jsstring) :
  omap labelledStep lines = omap stepNumber lines.
Proof.
  induction lines as [|line lines IH]; [reflexivity|].
  cbn [omap list_omap]. rewrite labelledStep_stepNumber.
  destruct (stepNumber line); [f_equal|]; exact IH.
Qed.

(** X7. Whatever the mode, the operating system and the outcome, the lines
    of the returned log that start with a step label are labelled [1/11] to
    [k/11], each once and in order, for some k: the log shows how far the run
    got.  The handler returns the state its try block leaves.  When the block
    completes, all eleven steps are there and the answer is no error, its
    text being the log joined by line breaks; when the block throws, the
    answer is an error whose text is the failure report: the message of the
    error that was thrown, then the log so far. *)
Theorem progress_log (req : Request) (s0 : State World) :
  let c := context os req (world s0) in
  let p := pipeline os c (entry s0) in
  let r := create_flutter_project os req s0 in
  exists k,
    omap labelledStep (log (snd r)) = take k [1; 2; 3; 4; 5; 6; 7; 8; 9; 10; 11]
    /\ omap stepNumber (log (snd r)) = take k [1; 2; 3; 4; 5; 6; 7; 8; 9; 10; 11]
    /\ snd r = snd p
    /\ match fst p with
       | Ok _ =>
         k = 11%nat
         /\ fst r = {| isError := false; text := join nl (log (snd r)) |}
       | Throw e =>
         fst r
         = {| isError := true;
              text := js "❌ Setup failed:" ++ nl ++ message e ++ nl ++ nl
                      ++ js "Progress so far:" ++ nl ++ join nl (log (snd r)) |}
       end.
Proof.
  intros c p r. subst r p. unfold create_flutter_project, entry. fold c.
  set (s := {| world := world s0; useFvm := useFvm s0; log := []; trace := trace s0 |}).
  assert (exists k,
             omap stepNumber (log (snd (pipeline os c s)))
             = take k [1; 2; 3; 4; 5; 6; 7; 8; 9; 10; 11]
             /\ forall u, fst (pipeline os c s) = Ok u -> k = 11%nat) as (k & Hk & Hok).
  { rewrite pipeline_precheck. unfold bind.
    destruct (precheck_quiet c s) as (l0 & L0 & N0).
    destruct (precheck os c s) as [[[]|e] s1]; cbn [snd] in L0.
    - unfold afterPreflight, bind.
      destruct (sequence_alwaysAnnounces _ _ (steps_alwaysAnnounce c) s1)
        as (l1 & j & L1 & N1 & Hall).
      destruct (sequence (steps os c) s1) as [[[]|e] s2]; cbn [snd fst] in *.
      + destruct (done_quiet c s2) as (l2 & L2 & N2).
        exists 11%nat. split; [|reflexivity].
        rewrite L2, L1, L0, !omap_app, N0, N2, (Hall tt eq_refl). reflexivity.
      + exists j. split; [|discriminate].
        rewrite L1, L0, !omap_app, N0, N1. reflexivity.
    - exists 0%nat. cbn [fst snd]. split; [|discriminate].
      rewrite L0, omap_app, N0. reflexivity. }
  exists k.
  destruct (pipeline os c s) as [[u|e] s'] eqn:Hp; cbn [fst snd log isError text] in *.
  - rewrite omap_labelledStep.
    split; [exact Hk|]. split; [exact Hk|]. split; [reflexivity|].
    split; [exact (Hok u eq_refl)|reflexivity].
  - rewrite omap_labelledStep.
    split; [exact Hk|]. split; [exact Hk|]. split; reflexivity.
Qed.

(** X12. A run outside dry-run mode whose result is no error returns as text
    the log joined by newlines, and that log is: the five header lines, naming
    the runner that was detected; the lines of the eleven steps; and the five
    closing lines, which give the project location (the resolved parent
    directory joined with the project name) and the next steps. *)
Theorem completed_run_report (req : Request) (s0 : State World) :
  default false (dry_run req) = false ->
  let c := context os req (world s0) in
  let r := create_flutter_project os req s0 in
  isError (fst r) = false ->
  exists body,
    log (snd r) = header c (fvmFound os (world s0)) ++ body ++ closingLines c
    /\ omap stepNumber body = [1; 2; 3; 4; 5; 6; 7; 8; 9; 10; 11]
    /\ text (fst r) = join nl (log (snd r))
    /\ projectDir c
       = os_join os (os_resolve os (world s0) (default (os_cwd os (world s0)) (dir req)))
           (name req).
Proof.
  intros Hdry c r. subst r. unfold create_flutter_project. fold c.
  assert (dryRun c = false) as Hc by exact Hdry.
  rewrite pipeline_precheck. unfold bind. rewrite (precheck_spec os c _ Hc).
  cbn [world log app].
  destruct (violation os c (world s0)); [discriminate|].
  unfold afterPreflight, bind.
  match goal with
  | |- context [sequence (steps os c) ?s1] =>
    destruct (sequence_alwaysAnnounces _ _ (steps_alwaysAnnounce c) s1)
      as (body & j & L1 & _ & Hok);
    destruct (sequence (steps os c) s1) as [[[]|e] s2]
  end; [|discriminate].
  cbn [fst snd log] in L1, Hok.
  unfold done. rewrite Hc. unfold bind, push. cbn [fst snd isError text log].
  intros _. exists body. rewrite L1, <- !app_assoc.
  split; [reflexivity|]. split; [exact (Hok tt eq_refl)|]. split; reflexivity.
Qed.

End ProgressLog.

(** ** The system calls of a whole run, whatever its outcome *)

Section SystemCalls.

Context {World : Type} (os : OS World).

Lemma emits_setUseFvm P b : emits P (setUseFvm (World := World) b).
Proof. intros s. exists []. cbn. now rewrite app_nil_r. Qed.

Lemma emits_detectFvm P :
  (forall found, P (probeEvent (js "fvm") found)) -> emits P (detectFvm os).
Proof.
  intros HP. apply emits_tryCatch.
  - apply emits_bind; [apply emits_execFileAsync; exact HP|intros; apply emits_ret].
  - intros; apply emits_ret.
Qed.

Lemma emits_runInteractive P command args cwd :
  (forall found, P (probeEvent (js "expect") found)) ->
  (forall ok, P (EvExec (js "expect") [js "-c"; expectScript (fullCmd command args)]
                   cwd [] ok)) ->
  (forall ok, P (EvExec command args cwd
                   [(js "CI", js "true"); (js "TERM", js "dumb")] ok)) ->
  emits P (runInteractive os command args cwd).
Proof.
  intros Hprobe Hexpect Hdirect. apply emits_bind.
  - now apply emits_commandExists.
  - intros []; now apply emits_run.
Qed.

Ltac pick_listed :=
  cbn [In];
  first [ left; reflexivity
        | right; left; reflexivity
        | right; right; left; reflexivity
        | right; right; right; left; reflexivity
        | right; right; right; right; left; reflexivity
        | right; right; right; right; right; left; reflexivity
        | right; right; right; right; right; right; left; reflexivity ].

Ltac entry_among l :=
  lazymatch l with
  | ?segments :: ?rest =>
    first [ exists segments; split; [|vm_compute; reflexivity]
          | entry_among rest ]
  end.

Ltac known_entry :=
  unfold entryOf, flavorizrPath, gradlePath, proguardPath, join2, joinAll;
  lazymatch goal with
  | |- exists segments, In segments ?entries /\ _ =>
    let l := eval unfold inspected, modified in entries in
    entry_among l
  end;
  vm_compute; tauto.

Ltac confined :=
  idtac;
  lazymatch goal with
  | |- fsConfined _ _ (EvExec _ _ _ _ _) => exact I
  | |- fsConfined _ _ (probeEvent _ _) => exact I
  | |- fsConfined _ _ _ => unfold fsConfined; known_entry
  end.

Ltac sanctioned :=
  idtac;
  lazymatch goal with
  | |- spawnSanctioned _ (probeEvent _ _) =>
    unfold probeEvent, spawnSanctioned; split; pick_listed
  | |- spawnSanctioned _ (EvExec (fvmCmd ?b _) _ _ _ _) =>
    unfold spawnSanctioned; destruct b; unfold fvmCmd; split; pick_listed
  | |- spawnSanctioned _ (EvExec _ _ _ _ _) =>
    unfold spawnSanctioned; split; pick_listed
  | |- spawnSanctioned _ _ => exact I
  end.

Ltac emits_by side :=
  lazymatch goal with
  | |- emits _ (ret _) => apply emits_ret
  | |- emits _ (throw _) => apply emits_throw
  | |- emits _ (push _) => apply emits_push
  | |- emits _ getUseFvm => apply emits_getUseFvm
  | |- emits _ (setUseFvm _) => apply emits_setUseFvm
  | |- emits _ (bind _ _) => apply emits_bind; [|intros ?]
  | |- emits _ (run _ _ _ _ _) => apply emits_run; intros ?; side
  | |- emits _ (runInteractive _ _ _ _) => apply emits_runInteractive; intros ?; side
  | |- emits _ (commandExists _ _) => apply emits_commandExists; intros ?; side
  | |- emits _ (detectFvm _) => apply emits_detectFvm; intros ?; side
  | |- emits _ (existsSync _ _) => apply emits_existsSync; intros ?; side
  | |- emits _ (mkdirSync _ _) => apply emits_mkdirSync; intros ?; side
  | |- emits _ (writeFileSync _ _ _) => apply emits_writeFileSync; intros ?; side
  | |- emits _ (readFileSync _ _) => apply emits_readFileSync; intros ?; side
  | |- emits _ (forEach (_ :: _) _) => cbn [forEach]
  | |- emits _ (forEach [] _) => cbn [forEach]
  | |- emits _ (when ?b _) => unfold when; destruct b
  | |- emits _ (if ?b then _ else _) => destruct b
  | |- emits _ (let _ := _ in _) => cbv zeta
  end.

Lemma pipeline_fsConfined c : emits (fsConfined os c) (pipeline os c).
Proof.
  intros s. rewrite pipeline_precheck. revert s.
  change (emits (fsConfined os c) (bind (precheck os c) (fun _ => afterPreflight os c))).
  apply emits_bind.
  - unfold precheck, detectTooling, preflight. repeat emits_by confined.
  - intros _. unfold afterPreflight. apply emits_bind.
    + apply emits_sequence. unfold steps.
      do 11 (constructor;
             [ unfold step1, step2, step3, step4, step5, step6, step7, step8, step9,
                 step10, step11; repeat emits_by confined | ]).
      constructor.
    + intros _. unfold done. repeat emits_by confined.
Qed.

Lemma pipeline_spawnSanctioned c : emits (spawnSanctioned c) (pipeline os c).
Proof.
  intros s. rewrite pipeline_precheck. revert s.
  change (emits (spawnSanctioned c) (bind (precheck os c) (fun _ => afterPreflight os c))).
  apply emits_bind.
  - unfold precheck, detectTooling, preflight. repeat emits_by sanctioned.
  - intros _. unfold afterPreflight. apply emits_bind.
    + apply emits_sequence. unfold steps.
      do 11 (constructor;
             [ unfold step1, step2, step3, step4, step5, step6, step7, step8, step9,
                 step10, step11; repeat emits_by sanctioned | ]).
      constructor.
    + intros _. unfold done. repeat emits_by sanctioned.
Qed.

(** X8. Whatever the request, the operating system and the outcome, the
    file-system calls of a run name only known entries of the project
    directory (the resolved parent directory joined with the project name):
    what is looked up or read is the directory itself, .git, .githooks,
    flavorizr.yaml or android/app/build.gradle.kts; what is created or
    written is flavorizr.yaml, config, the three config files,
    android/app/build.gradle.kts or android/app/proguard-rules.pro.  Nothing
    outside the project directory is touched by the handler itself. *)
Theorem file_system_confined (req : Request) (s0 : State World) :
  exists t,
    trace (snd (create_flutter_project os req s0)) = trace s0 ++ t
    /\ Forall (fsConfined os (context os req (world s0))) t.
Proof.
  unfold create_flutter_project.
  destruct (pipeline_fsConfined (context os req (world s0))
              {| world := world s0; useFvm := useFvm s0; log := [];
                 trace := trace s0 |}) as (t & Ht & HF).
  destruct (pipeline os _ _) as [[u|e] s']; cbn [snd trace] in *; eauto.
Qed.

(** X9. Whatever the request, the operating system and the outcome, every
    child process of a run is one of which, fvm, dart, flutter, git and
    expect, started without a working directory, in the parent directory or
    in the project directory: the project name, the organisation and the
    template only ever reach a child process as arguments. *)
Theorem child_processes_sanctioned (req : Request) (s0 : State World) :
  exists t,
    trace (snd (create_flutter_project os req s0)) = trace s0 ++ t
    /\ Forall (spawnSanctioned (context os req (world s0))) t.
Proof.
  unfold create_flutter_project.
  destruct (pipeline_spawnSanctioned (context os req (world s0))
              {| world := world s0; useFvm := useFvm s0; log := [];
                 trace := trace s0 |}) as (t & Ht & HF).
  destruct (pipeline os _ _) as [[u|e] s']; cbn [snd trace] in *; eauto.
Qed.

End SystemCalls.

(** ** Single steps, whatever their outcome *)

Section StepFacts.

Context {World : Type} (os : OS World).

Ltac go :=
  cbv beta iota zeta;
  cbn [world useFvm log trace fst snd performed negb].



Ltac not_listed H :=
  solve [ vm_compute in H;
          repeat (destruct H as [H|H]; [discriminate H|]);
          destruct H ].

Ltac listed :=
  vm_compute;
  solve [ left; reflexivity
        | right; left; reflexivity
        | right; right; left; reflexivity
        | right; right; right; left; reflexivity ].

Ltac init_iff :=
  split;
  [ intros [ok H]; first [ reflexivity | exfalso; not_listed H ]
  | intros Heq; first [ discriminate Heq | eexists; listed ] ].

Ltac fail_iff :=
  split;
  [ intros [e H];
    lazymatch type of H with
    | Ok _ = Throw _ => discriminate H
    | _ => first [ left; listed | right; listed ]
    end
  | intros [H|H];
    lazymatch goal with
    | |- exists e, Throw _ = Throw e => eexists; reflexivity
    | _ => exfalso; not_listed H
    end ].

Ltac hooks_iff :=
  let Hok := fresh "Hok" in
  intros Hok;
  lazymatch type of Hok with
  | Throw _ = Ok _ => discriminate Hok
  | _ =>
    rewrite last_snoc; split;
    [ intros Hlast [ok H];
      first [ not_listed H
            | exfalso; revert Hlast; vm_compute; intros Hlast; discriminate Hlast ]
    | intros Hno;
      first [ vm_compute; reflexivity | exfalso; apply Hno; eexists; listed ] ]
  end.

Ltac step3_leaf :=
  eexists; (split; [rewrite <- ?app_assoc; cbn [app]; reflexivity|]);
  split; [init_iff|split; [fail_iff|hooks_iff]].

(** X11. Outside dry-run mode step 3 runs [git init] exactly when the
    project directory holds no .git entry at that moment, so that an existing
    repository is never initialised again.  The step fails exactly when one
    of its two git commands fails: a missing .githooks directory is no error.
    When the step succeeds, its last log line is the warning that hook setup
    was skipped exactly when no hook configuration command was run. *)
Theorem git_setup_guarded (c : Ctx) (s : State World) :
  dryRun c = false ->
  let r := step3 os c s in
  exists t,
    trace (snd r) = trace s ++ t
    /\ ((exists ok, In (gitInit c ok) t)
        <-> os_existsSync os (world s) (join2 os (projectDir c) (js ".git")) = false)
    /\ ((exists e, fst r = Throw e)
        <-> In (gitInit c false) t \/ In (gitHooks c false) t)
    /\ (fst r = Ok tt ->
        (last (log (snd r)) = Some noHooksLine
         <-> ~ exists ok, In (gitHooks c ok) t)).
Proof.
  intros Hdry r. subst r. unfold step3. rewrite Hdry.
  unfold bind, push, existsSync, ret. go.
  destruct (os_existsSync os (world s) (join2 os (projectDir c) (js ".git"))); go.
  - destruct (os_existsSync os (world s) _); go.
    + rewrite run_spec. go.
      destruct (os_execFile os (world s) _ _ _ _) as [w1 [e1|o1]]; go.
      * step3_leaf.
      * step3_leaf.
    + step3_leaf.
  - rewrite run_spec. go.
    destruct (os_execFile os (world s) _ _ _ _) as [w1 [e1|o1]]; go.
    + step3_leaf.
    + destruct (os_existsSync os w1 _); go.
      * rewrite run_spec. go.
        destruct (os_execFile os w1 _ _ _ _) as [w2 [e2|o2]]; go.
        -- step3_leaf.
        -- step3_leaf.
      * step3_leaf.
Qed.

(** X13. Looking up an executable never fails: commandExists makes one
    [which] call, returns true when it succeeds and false when it fails, and
    leaves the log and the runner setting alone; detectFvm is the same lookup
    for fvm. *)
Theorem lookup_never_throws (cmd : jsstring) (s : State World) :
  let r := commandExists os cmd s in
  let found :=
    match snd (os_execFile os (world s) (js "which") [cmd] None []) with
    | inr _ => true
    | inl _ => false
    end in
  fst r = Ok found
  /\ trace (snd r) = trace s ++ [EvExec (js "which") [cmd] None [] found]
  /\ world (snd r) = fst (os_execFile os (world s) (js "which") [cmd] None [])
  /\ log (snd r) = log s
  /\ useFvm (snd r) = useFvm s
  /\ detectFvm os s = commandExists os (js "fvm") s.
Proof.
  unfold commandExists, detectFvm, tryCatch, bind, execFileAsync, ret.
  destruct (os_execFile os (world s) (js "which") [cmd] None []) as [w [e|o]];
    cbn [fst snd performed world log trace useFvm];
    repeat (split; [reflexivity|]); reflexivity.
Qed.

End StepFacts.

(** ** The runner that was detected is the runner that is used *)

Section RunnerUse.

Context {World : Type} (os : OS World).
Context (fvm : bool) (P : Event -> Prop).

Lemma keeps_ret {A} (a : A) : keepsRunner fvm P (ret (World := World) a).
Proof. intros s Hs. exists []. cbn. rewrite app_nil_r. auto. Qed.

Lemma keeps_throw {A} e : keepsRunner fvm P (throw (World := World) (A := A) e).
Proof. intros s Hs. exists []. cbn. rewrite app_nil_r. auto. Qed.

Lemma keeps_push msg : keepsRunner fvm P (push (World := World) msg).
Proof. intros s Hs. exists []. cbn. rewrite app_nil_r. auto. Qed.

Lemma keeps_bind {A B} (m : M World A) (k : A -> M World B) :
  keepsRunner fvm P m -> (forall a, keepsRunner fvm P (k a)) ->
  keepsRunner fvm P (bind m k).
Proof.
  intros Hm Hk s Hs. unfold bind. destruct (Hm s Hs) as (t1 & E1 & F1 & U1).
  destruct (m s) as [[a|e] s1]; cbn [snd] in *.
  - destruct (Hk a s1 U1) as (t2 & E2 & F2 & U2). exists (t1 ++ t2).
    rewrite E2, E1, <- app_assoc. split; [reflexivity|]. split; [|exact U2].
    now apply Forall_app.
  - eauto.
Qed.

(** Reading the runner setting gives the setting the computation started
    with. *)
Lemma keeps_getUseFvm {B} (k : bool -> M World B) :
  keepsRunner fvm P (k fvm) -> keepsRunner fvm P (bind getUseFvm k).
Proof.
  intros Hk s Hs. unfold bind, getUseFvm. cbn [fst snd]. rewrite Hs.
  exact (Hk s Hs).
Qed.

Lemma keeps_tryCatch {A} (m : M World A) (h : JsError -> M World A) :
  keepsRunner fvm P m -> (forall e, keepsRunner fvm P (h e)) ->
  keepsRunner fvm P (tryCatch m h).
Proof.
  intros Hm Hh s Hs. unfold tryCatch. destruct (Hm s Hs) as (t1 & E1 & F1 & U1).
  destruct (m s) as [[a|e] s1]; cbn [snd] in *.
  - eauto.
  - destruct (Hh e s1 U1) as (t2 & E2 & F2 & U2). exists (t1 ++ t2).
    rewrite E2, E1, <- app_assoc. split; [reflexivity|]. split; [|exact U2].
    now apply Forall_app.
Qed.

Lemma keeps_execFileAsync command args cwd extraEnv :
  (forall ok, P (EvExec command args cwd extraEnv ok)) ->
  keepsRunner fvm P (execFileAsync os command args cwd extraEnv).
Proof.
  intros HP s Hs. unfold execFileAsync.
  destruct (os_execFile os (world s) command args cwd extraEnv) as [w [e|o]];
    eexists [_]; cbn; (split; [reflexivity|]); (split; [|exact Hs]);
    repeat constructor; apply HP.
Qed.

Lemma keeps_run command args cwd extraEnv :
  (forall ok, P (EvExec command args cwd extraEnv ok)) ->
  keepsRunner fvm P (run os command args cwd extraEnv).
Proof.
  intros HP. apply keeps_tryCatch.
  - apply keeps_bind; [now apply keeps_execFileAsync|intros; apply keeps_ret].
  - intros; apply keeps_throw.
Qed.

Lemma keeps_commandExists cmd :
  (forall found, P (probeEvent cmd found)) -> keepsRunner fvm P (commandExists os cmd).
Proof.
  intros HP. apply keeps_tryCatch.
  - apply keeps_bind; [now apply keeps_execFileAsync|intros; apply keeps_ret].
  - intros; apply keeps_ret.
Qed.

Lemma keeps_runInteractive command args cwd :
  (forall found, P (probeEvent (js "expect") found)) ->
  (forall ok, P (EvExec (js "expect") [js "-c"; expectScript (fullCmd command args)]
                   cwd [] ok)) ->
  (forall ok, P (EvExec command args cwd
                   [(js "CI", js "true"); (js "TERM", js "dumb")] ok)) ->
  keepsRunner fvm P (runInteractive os command args cwd).
Proof.
  intros Hprobe Hexpect Hdirect. apply keeps_bind.
  - now apply keeps_commandExists.
  - intros []; now apply keeps_run.
Qed.

Lemma keeps_existsSync path :
  (forall found, P (EvExists path found)) -> keepsRunner fvm P (existsSync os path).
Proof.
  intros HP s Hs. eexists [_]. cbn. split; [reflexivity|]. split; [|exact Hs].
  repeat constructor. apply HP.
Qed.

Lemma keeps_mkdirSync path :
  (forall ok, P (EvMkdir path ok)) -> keepsRunner fvm P (mkdirSync os path).
Proof.
  intros HP s Hs. unfold mkdirSync.
  destruct (os_mkdirSync os (world s) path) as [w [e|]];
    eexists [_]; cbn; (split; [reflexivity|]); (split; [|exact Hs]);
    repeat constructor; apply HP.
Qed.

Lemma keeps_writeFileSync path content :
  (forall ok, P (EvWriteFile path content ok)) ->
  keepsRunner fvm P (writeFileSync os path content).
Proof.
  intros HP s Hs. unfold writeFileSync.
  destruct (os_writeFileSync os (world s) path content) as [w [e|]];
    eexists [_]; cbn; (split; [reflexivity|]); (split; [|exact Hs]);
    repeat constructor; apply HP.
Qed.

Lemma keeps_readFileSync path :
  (forall ok, P (EvReadFile path ok)) -> keepsRunner fvm P (readFileSync os path).
Proof.
  intros HP s Hs. unfold readFileSync.
  destruct (os_readFileSync os (world s) path) as [e|x];
    eexists [_]; cbn; (split; [reflexivity|]); (split; [|exact Hs]);
    repeat constructor; apply HP.
Qed.

Lemma keeps_forEach {A} (l : list A) (body : A -> M World unit) :
  (forall x, keepsRunner fvm P (body x)) -> keepsRunner fvm P (forEach l body).
Proof.
  intros Hb. induction l as [|x l IH]; cbn [forEach].
  - apply keeps_ret.
  - apply keeps_bind; [apply Hb|intros _; exact IH].
Qed.

Lemma keeps_sequence (ms : list (M World unit)) :
  Forall (keepsRunner fvm P) ms -> keepsRunner fvm P (sequence ms).
Proof.
  induction 1 as [|m ms Hm _ IH]; cbn [sequence].
  - apply keeps_ret.
  - apply keeps_bind; [exact Hm|intros _; exact IH].
Qed.

End RunnerUse.

Section RunnerDetected.

Context {World : Type} (os : OS World).

Ltac other_command H := exfalso; vm_compute in H; discriminate H.

Ltac via_runner :=
  idtac;
  lazymatch goal with
  | |- viaRunner true (EvExec _ _ _ _ _) =>
    unfold viaRunner, fvmCmd, fvmArgs;
    split; [vm_compute; tauto|];
    split; intros Hc;
    [ first [ other_command Hc | eexists; left; reflexivity | eexists; right; reflexivity ]
    | first [ other_command Hc | vm_compute; reflexivity ] ]
  | |- viaRunner false (EvExec _ _ _ _ _) =>
    unfold viaRunner, fvmCmd, fvmArgs;
    split; [vm_compute; tauto|];
    intros Hc; first [ other_command Hc | vm_compute; reflexivity ]
  | |- viaRunner _ (probeEvent _ _) => unfold probeEvent; via_runner
  | |- viaRunner _ _ => exact I
  end.

Ltac keeps_step :=
  lazymatch goal with
  | |- keepsRunner _ _ (ret _) => apply keeps_ret
  | |- keepsRunner _ _ (throw _) => apply keeps_throw
  | |- keepsRunner _ _ (push _) => apply keeps_push
  | |- keepsRunner _ _ (bind getUseFvm _) => apply keeps_getUseFvm; cbv beta
  | |- keepsRunner _ _ (bind _ _) => apply keeps_bind; [|intros ?]
  | |- keepsRunner _ _ (run _ _ _ _ _) => apply keeps_run; intros ?; via_runner
  | |- keepsRunner _ _ (runInteractive _ _ _ _) =>
    apply keeps_runInteractive; intros ?; via_runner
  | |- keepsRunner _ _ (commandExists _ _) =>
    apply keeps_commandExists; intros ?; via_runner
  | |- keepsRunner _ _ (existsSync _ _) => apply keeps_existsSync; intros ?; via_runner
  | |- keepsRunner _ _ (mkdirSync _ _) => apply keeps_mkdirSync; intros ?; via_runner
  | |- keepsRunner _ _ (writeFileSync _ _ _) =>
    apply keeps_writeFileSync; intros ?; via_runner
  | |- keepsRunner _ _ (readFileSync _ _) => apply keeps_readFileSync; intros ?; via_runner
  | |- keepsRunner _ _ (forEach _ _) => apply keeps_forEach; intros ?
  | |- keepsRunner _ _ (when ?b _) => unfold when; destruct b
  | |- keepsRunner _ _ (if ?b then _ else _) => destruct b
  | |- keepsRunner _ _ (let _ := _ in _) => cbv zeta
  end.

Lemma steps_keepRunner c fvm :
  Forall (keepsRunner fvm (viaRunner fvm)) (steps os c).
Proof.
  unfold steps.
  destruct fvm;
    do 11 (constructor;
           [ unfold step1, step2, step3, step4, step5, step6, step7, step8, step9,
               step10, step11; repeat keeps_step | ]);
    constructor.
Qed.

Lemma preflight_keepsRunner c fvm hasGit :
  keepsRunner fvm (viaRunner fvm) (preflight os c hasGit).
Proof. unfold preflight. destruct fvm; repeat keeps_step. Qed.

Lemma done_keepsRunner c fvm :
  keepsRunner fvm (viaRunner fvm) (done (World := World) c).
Proof. unfold done. repeat keeps_step. Qed.

Lemma pipeline_runner c (s : State World) :
  exists t,
    trace (snd (pipeline os c s))
    = trace s ++ probeEvent (js "fvm") (fvmFound os (world s)) :: t
    /\ Forall (viaRunner (fvmFound os (world s))) t
    /\ useFvm (snd (pipeline os c s)) = fvmFound os (world s).
Proof.
  unfold fvmFound, fvmProbe.
  remember (pipeline os c s) as r eqn:Hr.
  unfold pipeline, detectTooling in Hr.
  rewrite bind_assoc in Hr. unfold bind at 1 in Hr.
  rewrite detectFvm_probe, commandExists_probe in Hr.
  destruct (probe os (world s) (js "fvm")) as [w1 fvm]. cbn [fst snd] in *.
  rewrite bind_assoc in Hr. unfold bind at 1 in Hr. unfold setUseFvm at 1 in Hr.
  cbn [fst snd] in Hr.
  match type of Hr with
  | r = bind ?m ?k ?s1 =>
    assert (keepsRunner fvm (viaRunner fvm) (bind m k)) as Hrest;
    [| destruct (Hrest s1 eq_refl) as (t & Ht & HF & HU); exists t;
       rewrite Hr, Ht, HU; cbn [performed trace]; rewrite <- app_assoc;
       split; [reflexivity|]; split; [exact HF|reflexivity] ]
  end.
  apply keeps_bind.
  - destruct fvm; repeat keeps_step.
  - intros hasGit. apply keeps_bind; [apply preflight_keepsRunner|].
    intros _. apply keeps_bind; [apply keeps_sequence, steps_keepRunner|].
    intros _. apply done_keepsRunner.
Qed.

(** X14. The runner that is detected is the runner that is used.  The first
    system call of a run is the lookup of fvm, and its outcome decides every
    child process that follows, whatever the request and the outcome of the
    run: when fvm is found, dart and flutter are never started directly but
    only as the first argument of fvm, and the scripted session spawns
    [fvm flutter pub run flutter_flavorizr]; when it is not found, fvm is
    never started and the session spawns [flutter pub run flutter_flavorizr].
    The runner setting the handler leaves behind is the outcome of that
    lookup. *)
Theorem detected_runner_used (req : Request) (s0 : State World) :
  let r := create_flutter_project os req s0 in
  let fvm := fvmFound os (world s0) in
  exists t,
    trace (snd r) = trace s0 ++ probeEvent (js "fvm") fvm :: t
    /\ Forall (viaRunner fvm) t
    /\ useFvm (snd r) = fvm.
Proof.
  intros r fvm. subst r fvm. unfold create_flutter_project.
  destruct (pipeline_runner (context os req (world s0))
              {| world := world s0; useFvm := useFvm s0; log := [];
                 trace := trace s0 |}) as (t & Ht & HF & HU).
  cbn [world trace] in Ht, HF, HU.
  destruct (pipeline os _ _) as [[u|e] s']; cbn [snd trace useFvm] in *; eauto.
Qed.

End RunnerDetected.

(** ** Nothing follows a failed call *)

Section FailFast.

Context {World : Type} (os : OS World).

Lemma Forall_removelast {A} (P : A -> Prop) l : Forall P l -> Forall P (removelast l).
Proof.
  induction 1 as [|x l Hx Hl IH]; [constructor|].
  destruct l; [constructor|]. cbn [removelast]. constructor; [exact Hx|exact IH].
Qed.

Lemma failFast_ret {A} (a : A) : failFast (ret (World := World) a).
Proof. intros s. exists []. cbn. rewrite app_nil_r. split; [reflexivity|constructor]. Qed.

Lemma failFast_throw {A} e : failFast (throw (World := World) (A := A) e).
Proof. intros s. exists []. cbn. rewrite app_nil_r. split; [reflexivity|constructor]. Qed.

Lemma failFast_push msg : failFast (push (World := World) msg).
Proof. intros s. exists []. cbn. rewrite app_nil_r. split; [reflexivity|constructor]. Qed.

Lemma failFast_getUseFvm : failFast (getUseFvm (World := World)).
Proof. intros s. exists []. cbn. rewrite app_nil_r. split; [reflexivity|constructor]. Qed.

Lemma failFast_setUseFvm b : failFast (setUseFvm (World := World) b).
Proof. intros s. exists []. cbn. rewrite app_nil_r. split; [reflexivity|constructor]. Qed.

Lemma failFast_bind {A B} (m : M World A) (k : A -> M World B) :
  failFast m -> (forall a, failFast (k a)) -> failFast (bind m k).
Proof.
  intros Hm Hk s. unfold bind. destruct (Hm s) as (t1 & E1 & F1).
  destruct (m s) as [[a|e] s1]; cbn [fst snd] in *.
  - destruct (Hk a s1) as (t2 & E2 & F2). exists (t1 ++ t2).
    rewrite E2, E1, <- app_assoc. split; [reflexivity|].
    destruct (fst (k a s1)).
    + now apply Forall_app.
    + destruct t2 as [|e2 t2].
      * rewrite app_nil_r. now apply Forall_removelast.
      * rewrite removelast_app by discriminate. now apply Forall_app.
  - eauto.
Qed.

Lemma failFast_run command args cwd extraEnv :
  failFast (run os command args cwd extraEnv).
Proof.
  intros s. rewrite run_spec.
  destruct (os_execFile os (world s) command args cwd extraEnv) as [w [e|o]];
    eexists [_]; cbn [fst snd performed trace]; (split; [reflexivity|]).
  - constructor.
  - repeat constructor. unfold wentWell. apply orb_true_r.
Qed.

Lemma failFast_commandExists cmd : failFast (commandExists os cmd).
Proof.
  intros s. rewrite commandExists_probe. eexists [_].
  cbn [fst snd performed trace]. split; [reflexivity|]. repeat constructor.
Qed.

Lemma failFast_detectFvm : failFast (detectFvm os).
Proof. intros s. rewrite detectFvm_probe. apply failFast_commandExists. Qed.

Lemma failFast_runInteractive command args cwd :
  failFast (runInteractive os command args cwd).
Proof.
  apply failFast_bind; [apply failFast_commandExists|].
  intros []; apply failFast_run.
Qed.

Lemma failFast_existsSync path : failFast (existsSync os path).
Proof.
  intros s. eexists [_]. cbn. split; [reflexivity|]. repeat constructor.
Qed.

Lemma failFast_mkdirSync path : failFast (mkdirSync os path).
Proof.
  intros s. unfold mkdirSync.
  destruct (os_mkdirSync os (world s) path) as [w [e|]];
    eexists [_]; cbn [fst snd performed trace]; (split; [reflexivity|]);
    repeat constructor.
Qed.

Lemma failFast_writeFileSync path content : failFast (writeFileSync os path content).
Proof.
  intros s. unfold writeFileSync.
  destruct (os_writeFileSync os (world s) path content) as [w [e|]];
    eexists [_]; cbn [fst snd performed trace]; (split; [reflexivity|]);
    repeat constructor.
Qed.

Lemma failFast_readFileSync path : failFast (readFileSync os path).
Proof.
  intros s. unfold readFileSync.
  destruct (os_readFileSync os (world s) path) as [e|x];
    eexists [_]; cbn [fst snd performed trace]; (split; [reflexivity|]);
    repeat constructor.
Qed.

Lemma failFast_forEach {A} (l : list A) (body : A -> M World unit) :
  (forall x, failFast (body x)) -> failFast (forEach l body).
Proof.
  intros Hb. induction l as [|x l IH]; cbn [forEach].
  - apply failFast_ret.
  - apply failFast_bind; [apply Hb|intros _; exact IH].
Qed.

Lemma failFast_sequence (ms : list (M World unit)) :
  Forall failFast ms -> failFast (sequence ms).
Proof.
  induction 1 as [|m ms Hm _ IH]; cbn [sequence].
  - apply failFast_ret.
  - apply failFast_bind; [exact Hm|intros _; exact IH].
Qed.

Ltac failFast_step :=
  lazymatch goal with
  | |- failFast (ret _) => apply failFast_ret
  | |- failFast (throw _) => apply failFast_throw
  | |- failFast (push _) => apply failFast_push
  | |- failFast getUseFvm => apply failFast_getUseFvm
  | |- failFast (setUseFvm _) => apply failFast_setUseFvm
  | |- failFast (bind _ _) => apply failFast_bind; [|intros ?]
  | |- failFast (run _ _ _ _ _) => apply failFast_run
  | |- failFast (runInteractive _ _ _ _) => apply failFast_runInteractive
  | |- failFast (commandExists _ _) => apply failFast_commandExists
  | |- failFast (detectFvm _) => apply failFast_detectFvm
  | |- failFast (existsSync _ _) => apply failFast_existsSync
  | |- failFast (mkdirSync _ _) => apply failFast_mkdirSync
  | |- failFast (writeFileSync _ _ _) => apply failFast_writeFileSync
  | |- failFast (readFileSync _ _) => apply failFast_readFileSync
  | |- failFast (forEach _ _) => apply failFast_forEach; intros ?
  | |- failFast (when ?b _) => unfold when; destruct b
  | |- failFast (if ?b then _ else _) => destruct b
  | |- failFast (let _ := _ in _) => cbv zeta
  end.

Lemma pipeline_failFast c : failFast (pipeline os c).
Proof.
  unfold pipeline, detectTooling, preflight.
  apply failFast_bind; [repeat failFast_step|]. intros hasGit.
  apply failFast_bind; [repeat failFast_step|]. intros _.
  apply failFast_bind.
  - apply failFast_sequence. unfold steps.
    do 11 (constructor;
           [ unfold step1, step2, step3, step4, step5, step6, step7, step8, step9,
               step10, step11; repeat failFast_step | ]).
    constructor.
  - intros _. unfold done. repeat failFast_step.
Qed.

(** X19. The handler stops at the first failure.  In a run that answers
    without error every system call went well (lookups may answer no); in a
    run that answers with an error every system call but the last went well.
    So a child process or file operation that fails is the last system call
    of the run: nothing is attempted after it. *)
Theorem fail_fast (req : Request) (s0 : State World) :
  let r := create_flutter_project os req s0 in
  exists t,
    trace (snd r) = trace s0 ++ t
    /\ if isError (fst r)
       then Forall (fun e => wentWell e = true) (removelast t)
       else Forall (fun e => wentWell e = true) t.
Proof.
  intros r. subst r. unfold create_flutter_project.
  destruct (pipeline_failFast (context os req (world s0))
              {| world := world s0; useFvm := useFvm s0; log := [];
                 trace := trace s0 |}) as (t & Ht & HF).
  destruct (pipeline os _ _) as [[u|e] s']; cbn [fst snd trace isError] in *; eauto.
Qed.

End FailFast.

(** ** The preview of dry-run mode *)

Section Preview.

Context {World : Type} (os : OS World).

Ltac go :=
  cbv beta iota zeta;
  cbn [world useFvm log trace fst snd performed negb dryRun inMode].

Ltac previewed :=
  unfold previewsItsCommand, bind, push, getUseFvm, ret; go;
  split; [reflexivity|]; split; [reflexivity|]; split; [reflexivity|];
  rewrite run_spec; go;
  match goal with
  | |- context [os_execFile os ?w ?command ?args ?cwd ?env] =>
    destruct (os_execFile os w command args cwd env) as [w1 [e|o]];
    exists command, args, cwd
  end;
  go; eexists _, _, _; (split; [reflexivity|]);
  rewrite <- ?app_assoc; reflexivity.

(** X20. The preview is the execution.  For the four steps that run one
    toolchain command (1, 2, 4 and 5), the line that dry-run mode logs is
    '  [dry-run] ' followed by exactly the command and the arguments, joined
    by spaces, that the step runs outside dry-run mode from the same state;
    in dry-run mode the step makes no system call and cannot fail.  For
    step 8 the previewed command line is the one that is spawned in the
    scripted session when expect is found, and the command that is run
    directly when it is not. *)
Theorem preview_matches_execution (c : Ctx) (s : State World) :
  Forall (fun step => previewsItsCommand s step c)
    [step1 os; step2 os; step4 os; step5 os]
  /\ (let real := step8 os (inMode false c) s in
      let dry := step8 os (inMode true c) s in
      trace (snd dry) = trace s
      /\ fst dry = Ok tt
      /\ exists command args found ok first last,
           log (snd dry)
           = log s ++ [ first; previewOf command args;
                        js "  [dry-run] (will use expect for PTY allocation)"; last ]
           /\ fullCmd command args = command ++ js " " ++ join (js " ") args
           /\ trace (snd real)
              = trace s
                ++ [ probeEvent (js "expect") found;
                     if found
                     then EvExec (js "expect")
                            [js "-c"; expectScript (fullCmd command args)]
                            (Some (projectDir c)) [] ok
                     else EvExec command args (Some (projectDir c))
                            [(js "CI", js "true"); (js "TERM", js "dumb")] ok ]).
Proof.
  split.
  - constructor; [unfold step1; previewed|].
    constructor; [unfold step2; previewed|].
    constructor; [unfold step4; previewed|].
    constructor; [unfold step5; previewed|].
    constructor.
  - unfold step8, runInteractive, bind, push, getUseFvm, ret. go.
    split; [reflexivity|]. split; [reflexivity|].
    exists (fvmCmd (useFvm s) (js "flutter")),
      (fvmArgs (useFvm s) (js "flutter") [js "pub"; js "run"; js "flutter_flavorizr"]).
    rewrite commandExists_probe. go.
    destruct (probe os (world s) (js "expect")) as [w1 found]. go. exists found.
    assert (fullCmd (fvmCmd (useFvm s) (js "flutter"))
              (fvmArgs (useFvm s) (js "flutter")
                 [js "pub"; js "run"; js "flutter_flavorizr"])
            = fvmCmd (useFvm s) (js "flutter") ++ js " "
              ++ join (js " ")
                   (fvmArgs (useFvm s) (js "flutter")
                      [js "pub"; js "run"; js "flutter_flavorizr"])) as Hfull.
    { destruct (useFvm s); vm_compute; reflexivity. }
    destruct found; rewrite run_spec; go;
      match goal with
      | |- context [os_execFile os ?w ?command ?args ?cwd ?env] =>
        destruct (os_execFile os w command args cwd env) as [w2 [e|o]]
      end;
      go; eexists _, _, _; (split; [rewrite <- ?app_assoc; reflexivity|]);
      (split; [exact Hfull|]); rewrite <- ?app_assoc; reflexivity.
Qed.

End Preview.

(** ** Reading a field of pubspec.yaml *)

Lemma takeWhile_run {A} (p : A -> bool) v rest :
  forallb p v = true ->
  (rest = [] \/ exists c r, rest = c :: r /\ p c = false) ->
  takeWhile p (v ++ rest) = v.
Proof.
  intros Hv Hrest. induction v as [|x v IH]; cbn [app takeWhile].
  - destruct Hrest as [->|(c & r & -> & Hc)]; [reflexivity|]. cbn. now rewrite Hc.
  - cbn [forallb] in Hv. apply andb_prop in Hv as [Hx Hv]. rewrite Hx.
    now rewrite (IH Hv).
Qed.

Lemma takeWhile_all {A} (p : A -> bool) l : forallb p (takeWhile p l) = true.
Proof.
  induction l as [|x l IH]; cbn [takeWhile]; [reflexivity|].
  destruct (p x) eqn:Hx; cbn [forallb]; [|reflexivity]. now rewrite Hx, IH.
Qed.

Lemma lineEnd_stop rest :
  (rest = [] \/ exists c r, rest = c :: r /\ isLineTerminator c = true) ->
  rest = [] \/ exists c r, rest = c :: r /\ negb (isLineTerminator c) = false.
Proof.
  intros [->|(c & r & -> & Hc)]; [now left|]. right. exists c, r. now rewrite Hc.
Qed.

Lemma captureLine_value v0 v rest :
  singleLine (v0 :: v) = true ->
  (rest = [] \/ exists c r, rest = c :: r /\ isLineTerminator c = true) ->
  captureLine ((v0 :: v) ++ rest) = Some (v0 :: v).
Proof.
  intros Hv Hrest. unfold captureLine.
  now rewrite (takeWhile_run _ (v0 :: v) rest Hv (lineEnd_stop rest Hrest)).
Qed.

Lemma captureLine_shape rest v :
  captureLine rest = Some v -> v <> [] /\ singleLine v = true.
Proof.
  unfold captureLine. intros H.
  pose proof (takeWhile_all (fun c => negb (isLineTerminator c)) rest) as Hall.
  destruct (takeWhile _ rest) as [|x l]; [discriminate|].
  injection H as <-. split; [discriminate|exact Hall].
Qed.

Lemma captureAfterSpace_value ws v0 v rest :
  forallb isWhiteSpace ws = true ->
  isWhiteSpace v0 = false ->
  singleLine (v0 :: v) = true ->
  (rest = [] \/ exists c r, rest = c :: r /\ isLineTerminator c = true) ->
  captureAfterSpace (ws ++ (v0 :: v) ++ rest) = Some (v0 :: v).
Proof.
  intros Hws H0 Hv Hrest. induction ws as [|c ws IH].
  - cbn [app captureAfterSpace]. rewrite H0.
    exact (captureLine_value v0 v rest Hv Hrest).
  - cbn [forallb] in Hws. apply andb_prop in Hws as [Hc Hws].
    change ((c :: ws) ++ (v0 :: v) ++ rest) with (c :: (ws ++ (v0 :: v) ++ rest)).
    cbn [captureAfterSpace]. now rewrite Hc, (IH Hws).
Qed.

Lemma captureAfterSpace_shape rest v :
  captureAfterSpace rest = Some v -> v <> [] /\ singleLine v = true.
Proof.
  induction rest as [|c r IH]; cbn [captureAfterSpace]; [discriminate|].
  destruct (isWhiteSpace c).
  - destruct (captureAfterSpace r) as [u|].
    + intros H. injection H as <-. now apply IH.
    + apply captureLine_shape.
  - apply captureLine_shape.
Qed.

Lemma matchField_unfold key b text :
  matchField key b text
  = match (if b then
             match stripPrefix key text with
             | Some rest => captureAfterSpace rest
             | None => None
             end
           else None) with
    | Some v => Some v
    | None =>
      match text with
      | [] => None
      | c :: r => matchField key (isLineTerminator c) r
      end
    end.
Proof. destruct text; reflexivity. Qed.

Lemma matchField_shape key b text v :
  matchField key b text = Some v -> v <> [] /\ singleLine v = true.
Proof.
  revert b. induction text as [|c r IH]; intros b; rewrite matchField_unfold.
  - destruct b; [|discriminate].
    destruct (stripPrefix key []) as [rest|]; [|discriminate].
    destruct (captureAfterSpace rest) as [u|] eqn:Hu; [|discriminate].
    intros H. injection H as <-. exact (captureAfterSpace_shape _ _ Hu).
  - destruct b.
    + destruct (stripPrefix key (c :: r)) as [rest|]; [|apply IH].
      destruct (captureAfterSpace rest) as [u|] eqn:Hu; [|apply IH].
      intros H. injection H as <-. exact (captureAfterSpace_shape _ _ Hu).
    + apply IH.
Qed.

(** Inside a line no match starts. *)
Lemma matchField_inside key line text :
  singleLine line = true ->
  matchField key false (line ++ 10 :: text) = matchField key true text.
Proof.
  intros Hl. induction line as [|c l IH]; rewrite matchField_unfold.
  - reflexivity.
  - cbn [app]. cbn [singleLine forallb] in Hl. apply andb_prop in Hl as [Hc Hl].
    apply negb_true_iff in Hc. rewrite Hc. exact (IH Hl).
Qed.

Lemma matchField_inside_last key line :
  singleLine line = true -> matchField key false line = None.
Proof.
  intros Hl. induction line as [|c l IH]; rewrite matchField_unfold.
  - reflexivity.
  - cbn [singleLine forallb] in Hl. apply andb_prop in Hl as [Hc Hl].
    apply negb_true_iff in Hc. rewrite Hc. exact (IH Hl).
Qed.

(** A key without line terminator that does not start a line does not
    start the text that begins with this line either. *)
Lemma stripPrefix_line key line text :
  singleLine key = true -> stripPrefix key line = None ->
  stripPrefix key (line ++ 10 :: text) = None.
Proof.
  revert line. induction key as [|a key IH]; intros line Hk Hnone.
  - discriminate.
  - cbn [singleLine forallb] in Hk. apply andb_prop in Hk as [Ha Hk].
    destruct line as [|b l]; cbn [app stripPrefix] in *.
    + destruct (a =? 10) eqn:E; [|reflexivity].
      apply N.eqb_eq in E. subst a. discriminate.
    + destruct (a =? b); [|reflexivity]. exact (IH l Hk Hnone).
Qed.

Lemma matchField_skip_line key line text :
  singleLine key = true -> singleLine line = true -> stripPrefix key line = None ->
  matchField key true (line ++ 10 :: text) = matchField key true text.
Proof.
  intros Hk Hl Hnone. rewrite matchField_unfold.
  rewrite (stripPrefix_line key line text Hk Hnone).
  destruct line as [|c l]; cbn [app]; [reflexivity|].
  cbn [singleLine forallb] in Hl. apply andb_prop in Hl as [Hc Hl].
  apply negb_true_iff in Hc. rewrite Hc. exact (matchField_inside key l text Hl).
Qed.

Lemma matchField_skip_lines key lines text :
  singleLine key = true ->
  Forall (fun l => singleLine l = true /\ stripPrefix key l = None) lines ->
  matchField key true (concat (List.map (fun l => l ++ nl) lines) ++ text)
  = matchField key true text.
Proof.
  intros Hk. induction 1 as [|l lines [Hl Hnone] _ IH]; cbn [List.map concat app].
  - reflexivity.
  - unfold nl at 1. rewrite <- !app_assoc. cbn [app].
    now rewrite (matchField_skip_line key l _ Hk Hl Hnone).
Qed.

(** X18. The field that get_project_info reads with [/^key\s*(.+)$/m].  After
    lines that do not start with the key, a line that starts with it gives
    the first text that follows the key and any white space, up to the end of
    its line: later lines with the same key do not count, white space at the
    end of the value is kept, and since [\s*] also passes line ends, a key
    without value takes the next line that is not blank.  When no line starts
    with the key there is no match (the tool prints its fallback).  A value
    that is found is never empty and holds no line terminator. *)
Theorem pubspec_field (key : jsstring) (lines : list jsstring) :
  singleLine key = true ->
  Forall (fun l => singleLine l = true /\ stripPrefix key l = None) lines ->
  let before := concat (List.map (fun l => l ++ nl) lines) in
  (forall ws v0 v rest,
     forallb isWhiteSpace ws = true ->
     isWhiteSpace v0 = false ->
     singleLine (v0 :: v) = true ->
     (rest = [] \/ exists c r, rest = c :: r /\ isLineTerminator c = true) ->
     matchField key true (before ++ key ++ ws ++ (v0 :: v) ++ rest) = Some (v0 :: v))
  /\ (forall lastLine,
        singleLine lastLine = true -> stripPrefix key lastLine = None ->
        matchField key true (before ++ lastLine) = None)
  /\ (forall lineStart text v,
        matchField key lineStart text = Some v -> v <> [] /\ singleLine v = true).
Proof.
  intros Hk Hlines before. subst before. split; [|split].
  - intros ws v0 v rest Hws H0 Hv Hrest.
    rewrite (matchField_skip_lines key lines _ Hk Hlines), matchField_unfold.
    now rewrite stripPrefix_app, (captureAfterSpace_value ws v0 v rest Hws H0 Hv Hrest).
  - intros lastLine Hl Hnone.
    rewrite (matchField_skip_lines key lines _ Hk Hlines), matchField_unfold, Hnone.
    destruct lastLine as [|c l]; [reflexivity|].
    cbn [singleLine forallb] in Hl. apply andb_prop in Hl as [Hc Hl].
    apply negb_true_iff in Hc. rewrite Hc. exact (matchField_inside_last key l Hl).
  - intros b text v. apply matchField_shape.
Qed.

Example pubspec_name :
  matchField (js "name:") true
    (js "# app" ++ nl ++ js "name: logistics_app" ++ nl ++ js "version: 1.0.0+1" ++ nl)
  = Some (js "logistics_app").
Proof. vm_compute. reflexivity. Qed.

(** A key without value reads the next line. *)
Example pubspec_blank_name :
  pubspecLines (js "name:" ++ nl ++ js "version: 1.0.0+1" ++ nl)
  = [ js "Name:        version: 1.0.0+1";
      js "Version:     1.0.0+1";
      js "Description: —" ].
Proof. vm_compute. reflexivity. Qed.

(** Indented keys and keys in the middle of a line are not read; a carriage
    return ends the value. *)
Example pubspec_indented :
  matchField (js "name:") true (js "  name: a" ++ nl ++ js "x name: b" ++ nl) = None
  /\ matchField (js "name:") true (js "name: a" ++ [13; 10] ++ js "name: b")
     = Some (js "a").
Proof. vm_compute. split; reflexivity. Qed.

(** ** The tools that inspect projects *)

Section InspectorFacts.

Context {World : Type} (os : OS World) (readdir : Readdir World).

Ltac go :=
  cbv beta iota zeta;
  cbn [world useFvm log trace fst snd performed negb].

Lemma scanEntries_filter scanDir entries projects (s : State World) :
  scanEntries os scanDir entries projects s
  = (Ok (projects
         ++ List.map d_name (List.filter (holdsPubspec os (world s) scanDir) entries)),
     {| world := world s; useFvm := useFvm s; log := log s;
        trace := trace s
                 ++ List.map (pubspecLookup os (world s) scanDir)
                      (List.filter d_isDirectory entries) |}).
Proof.
  revert projects s. induction entries as [|entry rest IH]; intros projects s.
  - cbn. rewrite !app_nil_r. now destruct s.
  - cbn [scanEntries List.filter]. unfold bind, holdsPubspec at 1.
    destruct (d_isDirectory entry); cbn [andb].
    + unfold existsSync at 1. go. rewrite IH. go. cbn [List.map].
      change (pubspecLookup os (world s) scanDir entry)
        with (EvExists (pubspecOf os scanDir entry)
                (os_existsSync os (world s) (pubspecOf os scanDir entry))).
      destruct (os_existsSync os (world s) (pubspecOf os scanDir entry));
        cbn [List.map]; rewrite <- !app_assoc; reflexivity.
    + unfold ret at 1. go. now rewrite IH.
Qed.

Lemma length_zero {A} (l : list A) :
  (length l =? 0)%nat = match l with [] => true | _ => false end.
Proof. now destruct l. Qed.

(** X15. list_flutter_projects lists a filter of the directory: when the
    directory is there and can be read, the answer names exactly the entries
    that are directories holding a pubspec.yaml, in the order of the
    directory, or says that there is none; it is never an error.  A
    directory that is not there gives the error 'Directory not found'.  The
    tool only looks: its system calls are the lookup of the directory and one
    lookup of pubspec.yaml for each entry that is a directory (files are not
    looked into), and the world, the log and the runner stay as they were. *)
Theorem listing_is_filter (dir : option jsstring) (s : State World) :
  let w := world s in
  let scanDir := os_resolve os w (default (os_cwd os w) dir) in
  let r := list_flutter_projects os readdir dir s in
  world (snd r) = w /\ log (snd r) = log s /\ useFvm (snd r) = useFvm s
  /\ match os_existsSync os w scanDir, readdir w scanDir with
     | false, _ =>
       fst r = Ok {| isError := true; text := js "Directory not found: " ++ scanDir |}
       /\ trace (snd r) = trace s ++ [EvExists scanDir false]
     | true, inl e =>
       fst r = Throw e /\ trace (snd r) = trace s ++ [EvExists scanDir true]
     | true, inr entries =>
       let projects := List.map d_name (List.filter (holdsPubspec os w scanDir) entries) in
       fst r
       = Ok {| isError := false;
               text := match projects with
                       | [] => js "No Flutter projects found in " ++ scanDir
                       | _ => js "Flutter projects in " ++ scanDir ++ js ":" ++ nl
                              ++ join nl (List.map (fun p => js "  • " ++ p) projects)
                       end |}
       /\ trace (snd r)
          = trace s ++ EvExists scanDir true
                       :: List.map (pubspecLookup os w scanDir)
                            (List.filter d_isDirectory entries)
     end.
Proof.
  intros w scanDir r. subst r. unfold list_flutter_projects. fold w. fold scanDir.
  unfold listProjects, bind, existsSync, readdirSync. go. fold w.
  destruct (os_existsSync os w scanDir); go.
  - destruct (readdir w scanDir) as [e|entries]; go.
    + repeat (split; [reflexivity|]). reflexivity.
    + rewrite scanEntries_filter. go. cbn [app]. rewrite length_zero. fold w.
      destruct (List.map d_name (List.filter (holdsPubspec os w scanDir) entries));
        unfold ret; go; rewrite <- app_assoc;
        repeat (split; [reflexivity|]); reflexivity.
  - unfold ret. go. destruct (readdir w scanDir);
      repeat (split; [reflexivity|]); reflexivity.
Qed.

Lemma emits_readdirSync P path : emits P (readdirSync readdir path).
Proof.
  intros s. unfold readdirSync. exists [].
  destruct (readdir (world s) path); cbn; now rewrite app_nil_r.
Qed.

Ltac inspected :=
  idtac;
  lazymatch goal with
  | |- inspects _ _ (EvExec _ _ _ _ _) =>
    unfold inspects; repeat (split; [reflexivity|]); reflexivity
  | |- inspects _ _ _ => unfold inspects; vm_compute; tauto
  end.

Ltac inspects_step :=
  lazymatch goal with
  | |- emits _ (ret _) => apply emits_ret
  | |- emits _ (bind _ _) => apply emits_bind; [|intros ?]
  | |- emits _ (tryCatch _ _) => apply emits_tryCatch; [|intros ?]
  | |- emits _ (run _ _ _ _ _) => apply emits_run; intros ?; inspected
  | |- emits _ (existsSync _ _) => apply emits_existsSync; intros ?; inspected
  | |- emits _ (readFileSync _ _) => apply emits_readFileSync; intros ?; inspected
  | |- emits _ (readdirSync _ _) => apply emits_readdirSync
  | |- emits _ (if ?b then _ else _) => destruct b
  | |- emits _ (let _ := _ in _) => cbv zeta
  end.

Lemma projectInfo_inspects absPath :
  emits (inspects os absPath) (projectInfo os readdir absPath).
Proof.
  unfold projectInfo, pubspecInfo, fvmInfo, configInfo, gitInfo.
  repeat inspects_step.
Qed.

Lemma pubspecInfo_extends absPath info :
  extendsInfo os readdir absPath info (pubspecInfo os absPath info).
Proof.
  intros s. unfold pubspecInfo, bind, existsSync, readFileSync, ret. go.
  destruct (os_existsSync os (world s) _); go.
  - destruct (os_readFileSync os (world s) _) as [e|pubspec] eqn:Hread; go.
    + split; [reflexivity|]. left. exact Hread.
    + split; [reflexivity|]. eauto.
  - split; [reflexivity|]. eauto.
Qed.

Lemma fvmInfo_extends absPath info :
  extendsInfo os readdir absPath info (fvmInfo os absPath info).
Proof.
  intros s. unfold fvmInfo, bind, existsSync, readFileSync, ret. go.
  destruct (os_existsSync os (world s) _); go.
  - destruct (os_readFileSync os (world s) _) as [e|fvm] eqn:Hread; go.
    + split; [reflexivity|]. right. left. exact Hread.
    + split; [reflexivity|]. eauto.
  - split; [reflexivity|]. exists []. now rewrite app_nil_r.
Qed.

Lemma configInfo_extends absPath info :
  extendsInfo os readdir absPath info (configInfo os readdir absPath info).
Proof.
  intros s. unfold configInfo, bind, existsSync, readdirSync, ret. go.
  destruct (os_existsSync os (world s) _); go.
  - destruct (readdir (world s) _) as [e|entries] eqn:Hread; go.
    + split; [reflexivity|]. right. right. exact Hread.
    + split; [reflexivity|]. eauto.
  - split; [reflexivity|]. exists []. now rewrite app_nil_r.
Qed.

(** X16. get_project_info only inspects.  Whatever the path and whatever it
    finds, the system calls it records are lookups of the project directory
    and of its pubspec.yaml, .fvmrc, config and .git entries, reads of
    pubspec.yaml and .fvmrc, and the command [git branch --show-current] run
    in the project directory: it never creates a directory, writes a file or
    starts any other process.  The one directory it lists is the config
    directory of the project, and only when the project and that directory
    are there: what listing any other directory would give makes no
    difference to the tool. *)
Theorem project_info_only_inspects (projectPath : jsstring) (s : State World)
  (otherReaddir : Readdir World) :
  let w := world s in
  let absPath := os_resolve os w projectPath in
  let configDir := join2 os absPath (js "config") in
  let r := get_project_info os readdir projectPath s in
  (exists t,
     trace (snd r) = trace s ++ t /\ Forall (inspects os absPath) t)
  /\ ((os_existsSync os w absPath = true ->
       os_existsSync os w configDir = true ->
       otherReaddir w configDir = readdir w configDir) ->
      get_project_info os otherReaddir projectPath s = r).
Proof.
  intros w absPath configDir r. subst r. unfold get_project_info. fold w. fold absPath.
  split; [exact (projectInfo_inspects absPath s)|].
  intros Hsame. unfold projectInfo, bind, existsSync. go. fold w.
  destruct (os_existsSync os w absPath) eqn:Hfound; go; [|reflexivity].
  specialize (Hsame eq_refl).
  match goal with
  | |- context [pubspecInfo os absPath ?info ?st] =>
    destruct (pubspecInfo_extends absPath info st) as [W1 _];
    destruct (pubspecInfo os absPath info st) as [[i1|e1] s2]
  end; cbn [fst snd world performed] in *; [|reflexivity].
  match goal with
  | |- context [fvmInfo os absPath ?info ?st] =>
    destruct (fvmInfo_extends absPath info st) as [W2 _];
    destruct (fvmInfo os absPath info st) as [[i2|e2] s3]
  end; cbn [fst snd world performed] in *; [|reflexivity].
  assert (configInfo os otherReaddir absPath i2 s3 = configInfo os readdir absPath i2 s3)
    as ->; [|reflexivity].
  unfold configInfo, bind, existsSync, readdirSync. go. rewrite W2, W1. go.
  fold w. fold configDir.
  destruct (os_existsSync os w configDir); go; [|reflexivity].
  now rewrite (Hsame eq_refl).
Qed.

(** The git block never throws. *)
Lemma gitInfo_line absPath info (s : State World) :
  fst (gitInfo os absPath info s) = Ok (info ++ [gitLine os (world s) absPath]).
Proof.
  unfold gitInfo, gitLine, bind, existsSync, tryCatch, ret. go.
  destruct (os_existsSync os (world s) _); go; [|reflexivity].
  rewrite run_spec. go.
  destruct (os_execFile os (world s) _ _ _ _) as [w1 [e|out]]; reflexivity.
Qed.

(** X17. The answer of get_project_info.  A path that is not there gives the
    error 'Project not found' after a single lookup.  Otherwise the tool
    throws only what reading pubspec.yaml, .fvmrc or the config directory
    throws; when it answers, the answer is no error, its first line names
    the resolved path and its last line tells about git: not initialised
    when there is no .git entry, the branch that git prints, or, when the
    git command fails, that the branch could not be read.  A failing git
    never fails the tool. *)
Theorem project_info_answer (projectPath : jsstring) (s : State World) :
  let w := world s in
  let absPath := os_resolve os w projectPath in
  let r := get_project_info os readdir projectPath s in
  if os_existsSync os w absPath then
    match fst r with
    | Throw e => readError os readdir w absPath e
    | Ok res =>
      isError res = false
      /\ exists lines,
           text res
           = join nl ((js "Project: " ++ absPath ++ nl) :: lines
                      ++ [gitLine os w absPath])
    end
  else
    fst r = Ok {| isError := true; text := js "Project not found: " ++ absPath |}
    /\ snd r = performed s w (EvExists absPath false).
Proof.
  intros w absPath r. subst r. unfold get_project_info. fold w. fold absPath.
  destruct (os_existsSync os w absPath) eqn:Hfound.
  2:{ unfold projectInfo, bind, existsSync. go. fold w. rewrite Hfound.
      split; reflexivity. }
  unfold projectInfo. unfold bind at 1, existsSync at 1. go. fold w.
  rewrite Hfound. go.
  match goal with
  | |- context [bind (pubspecInfo os absPath _) _ ?st] => set (s1 := st)
  end.
  unfold bind at 1.
  destruct (pubspecInfo_extends absPath [js "Project: " ++ absPath ++ nl] s1)
    as [W1 H1].
  destruct (pubspecInfo os absPath _ s1) as [[i1|e1] s2]; cbn [fst snd] in *;
    [|exact H1].
  destruct H1 as (l1 & ->).
  unfold bind at 1.
  destruct (fvmInfo_extends absPath (([js "Project: " ++ absPath ++ nl]) ++ l1) s2)
    as [W2 H2].
  destruct (fvmInfo os absPath _ s2) as [[i2|e2] s3]; cbn [fst snd] in *;
    [|rewrite W1 in H2; exact H2].
  destruct H2 as (l2 & ->).
  unfold bind at 1.
  destruct (configInfo_extends absPath
              ((([js "Project: " ++ absPath ++ nl]) ++ l1) ++ l2) s3) as [W3 H3].
  destruct (configInfo os readdir absPath _ s3) as [[i3|e3] s4]; cbn [fst snd] in *;
    [|rewrite W2, W1 in H3; exact H3].
  destruct H3 as (l3 & ->).
  unfold bind at 1.
  pose proof (gitInfo_line absPath
                (((([js "Project: " ++ absPath ++ nl]) ++ l1) ++ l2) ++ l3) s4) as H4.
  destruct (gitInfo os absPath _ s4) as [[i4|e4] s5]; cbn [fst snd] in *;
    [|discriminate H4].
  injection H4 as ->. unfold ret. cbn [fst isError text].
  split; [reflexivity|]. exists (l1 ++ l2 ++ l3).
  rewrite W3, W2, W1. cbn [world s1]. rewrite <- !app_assoc. reflexivity.
Qed.

End InspectorFacts.

(** ** Further runs on the model machine *)


Lemma git_setup_guarded_witness :
  let s := Machine.start Machine.scaffolded in
  let c := context Machine.os Machine.logistics Machine.scaffolded in
  let r := step3 Machine.os c s in
  exists t,
    trace (snd r) = trace s ++ t
    /\ ((exists ok, In (gitInit c ok) t)
        <-> os_existsSync Machine.os (world s)
              (join2 Machine.os (projectDir c) (js ".git")) = false)
    /\ ((exists e, fst r = Throw e)
        <-> In (gitInit c false) t \/ In (gitHooks c false) t)
    /\ (fst r = Ok tt ->
        (last (log (snd r)) = Some noHooksLine
         <-> ~ exists ok, In (gitHooks c ok) t)).
Proof.
  intros s c.
  exact (git_setup_guarded Machine.os c s eq_refl).
Defined.

Lemma completed_run_report_witness :
  let s0 := Machine.start Machine.fresh in
  let c := context Machine.os Machine.logistics (world s0) in
  let r := create_flutter_project Machine.os Machine.logistics s0 in
  exists body,
    log (snd r) = header c (fvmFound Machine.os (world s0)) ++ body ++ closingLines c
    /\ omap stepNumber body = [1; 2; 3; 4; 5; 6; 7; 8; 9; 10; 11]
    /\ text (fst r) = join nl (log (snd r))
    /\ projectDir c
       = os_join Machine.os
           (os_resolve Machine.os (world s0)
              (default (os_cwd Machine.os (world s0)) (dir Machine.logistics)))
           (name Machine.logistics).
Proof.
  intros s0 c r.
  apply (completed_run_report Machine.os Machine.logistics s0).
  - reflexivity.
  - vm_compute. reflexivity.
Defined.

(** On the developer machine the run completes and reports the project
    location. *)
Example completed_run_location :
  let r := create_flutter_project Machine.os Machine.logistics
             (Machine.start Machine.fresh) in
  isError (fst r) = false
  /\ In (js "Project location: /work/logistics_app") (log (snd r))
  /\ useFvm (snd r) = true.
Proof. vm_compute. repeat split. tauto. Qed.

(** ** The inspecting tools on the model machine *)

Lemma pubspec_field_witness :
  let key := js "name:" in
  let before := concat (List.map (fun l => l ++ nl) [js "# app"; js "version: 1.0.0"]) in
  (forall ws v0 v rest,
     forallb isWhiteSpace ws = true ->
     isWhiteSpace v0 = false ->
     singleLine (v0 :: v) = true ->
     (rest = [] \/ exists c r, rest = c :: r /\ isLineTerminator c = true) ->
     matchField key true (before ++ key ++ ws ++ (v0 :: v) ++ rest) = Some (v0 :: v))
  /\ (forall lastLine,
        singleLine lastLine = true -> stripPrefix key lastLine = None ->
        matchField key true (before ++ lastLine) = None)
  /\ (forall lineStart text v,
        matchField key lineStart text = Some v -> v <> [] /\ singleLine v = true).
Proof.
  apply (pubspec_field (js "name:") [js "# app"; js "version: 1.0.0"]).
  - reflexivity.
  - repeat constructor.
Defined.

Lemma project_info_only_inspects_witness :
  let otherReaddir : Readdir Machine.World :=
    fun w path =>
      if bool_decide (path = js "/work/logistics_app/config")
      then Workspace.readdir w path
      else inr [MkDirent (js "elsewhere.json") false] in
  let s := Machine.start Workspace.world in
  let r := get_project_info Machine.os Workspace.readdir (js "logistics_app") s in
  (exists t,
     trace (snd r) = trace s ++ t
     /\ Forall (inspects Machine.os (js "/work/logistics_app")) t)
  /\ get_project_info Machine.os otherReaddir (js "logistics_app") s = r.
Proof.
  intros otherReaddir s r.
  destruct (project_info_only_inspects Machine.os Workspace.readdir (js "logistics_app")
              s otherReaddir) as [Htrace Hsame].
  split; [exact Htrace|]. apply Hsame. intros _ _. vm_compute. reflexivity.
Defined.

Example workspace_listing :
  let r := list_flutter_projects Machine.os Workspace.readdir None
             (Machine.start Workspace.world) in
  fst r = Ok {| isError := false;
                text := js "Flutter projects in /work:" ++ nl ++ js "  • logistics_app" |}
  /\ trace (snd r)
     = [ EvExists (js "/work") true;
         EvExists (js "/work/logistics_app/pubspec.yaml") true;
         EvExists (js "/work/scratch/pubspec.yaml") false ].
Proof. vm_compute. split; reflexivity. Qed.

Example workspace_info :
  let r := get_project_info Machine.os Workspace.readdir (js "logistics_app")
             (Machine.start Workspace.world) in
  fst r
  = Ok {| isError := false;
          text := join nl
                    [ js "Project: /work/logistics_app" ++ nl;
                      js "Name:        logistics_app";
                      js "Version:     1.0.0+1";
                      js "Description: version: 1.0.0+1";
                      js "FVM config:  3.24.0";
                      nl ++ js "Config files (2):";
                      js "  • config/app_config_dev.json";
                      js "  • config/app_config_prod.json";
                      nl ++ js "Git branch:  " ] |}.
Proof. vm_compute. reflexivity. Qed.

Example workspace_missing :
  let r := get_project_info Machine.os Workspace.readdir (js "nowhere")
             (Machine.start Workspace.world) in
  fst r = Ok {| isError := true; text := js "Project not found: /work/nowhere" |}.
Proof. vm_compute. reflexivity. Qed.
